(** * turismo-app: ownership-scoped listings with soft delete and ordered images

    A shallow embedding of the Express route handlers and of the Airbnb
    controller of the backend, with the properties of the listing pattern
    (owner, image list, active flag) stated and proved over it.

    Layout: the JavaScript values the handlers compute with ([JS]), the
    document store and the media host they talk to ([Mongo], [Collaborators]),
    the handlers themselves ([HotelRoutes], [CabanaRoutes], [AirbnbRoutes],
    [AirbnbController]), then the lemmas. *)

From Stdlib Require Import ZArith Ascii.
From stdpp Require Import gmap strings list fin_maps sorting pretty.

Set Warnings "-register-all".

Local Open Scope string_scope.
Local Open Scope Z_scope.

(** ** JavaScript values *)

Module JS.

(** The values that reach the handlers: request parameters, JSON bodies,
    document fields. Numbers are the integral ones (indexes, counts,
    prices, epoch milliseconds) plus [NaN]: [VNum n] is the number whose
    value is the integer [n], and fractions and infinities are not among
    the values. A string is kept as the bytes of its UTF-8 text; an
    ObjectId is kept as the hexadecimal string its [toString()]
    returns. *)
Inductive JSVal : Type :=
| VUndef
| VNull
| VBool (b : bool)
| VNum (n : Z)
| VNaN
| VStr (s : string)
| VDate (t : Z)
| VArr (l : list JSVal)
| VObj (fields : list (string * JSVal)).

(** A plain object: its own keys in insertion order. *)
Definition Obj : Type := list (string * JSVal).

(** ToBoolean. *)
Definition truthy (v : JSVal) : bool :=
  match v with
  | VUndef | VNull | VNaN => false
  | VBool b => b
  | VNum n => negb (n =? 0)
  | VStr s => negb (String.eqb s "")
  | VDate _ | VArr _ | VObj _ => true
  end.

(** [o[k]]: [undefined] when [o] has no such key. *)
Fixpoint get (k : string) (o : Obj) : JSVal :=
  match o with
  | [] => VUndef
  | (k', v) :: o' => if String.eqb k k' then v else get k o'
  end.

(** [o[k] = v]: an existing key keeps its place, a new one goes last. *)
Fixpoint set (k : string) (v : JSVal) (o : Obj) : Obj :=
  match o with
  | [] => [(k, v)]
  | (k', v') :: o' =>
      if String.eqb k k' then (k, v) :: o' else (k', v') :: set k v o'
  end.

(** [delete o[k]]. *)
Fixpoint del (k : string) (o : Obj) : Obj :=
  match o with
  | [] => []
  | (k', v') :: o' =>
      if String.eqb k k' then o' else (k', v') :: del k o'
  end.

(** [Object.keys(o)]. *)
Definition keys (o : Obj) : list string := o.*1.

Definition has (k : string) (o : Obj) : bool :=
  bool_decide (k ∈ keys o).

(** [o.a.b] for a dotted path, as the store reads ['ubicacion.ciudad']. *)
Fixpoint get_path (path : list string) (v : JSVal) : JSVal :=
  match path with
  | [] => v
  | k :: rest =>
      match v with
      | VObj o => get_path rest (get k o)
      | _ => VUndef
      end
  end.

(** [a === b] on primitives; two distinct compound values are never
    strictly equal, and [NaN] equals nothing. *)
Definition strict_eq (a b : JSVal) : bool :=
  match a, b with
  | VUndef, VUndef | VNull, VNull => true
  | VBool x, VBool y => Bool.eqb x y
  | VNum x, VNum y => x =? y
  | VStr x, VStr y => String.eqb x y
  | _, _ => false
  end.

(** [a < b] and [a >= b] on numbers: every comparison with [NaN] or
    [undefined] is false. *)
Definition num_lt (a b : JSVal) : bool :=
  match a, b with
  | VNum x, VNum y => x <? y
  | _, _ => false
  end.

Definition num_ge (a b : JSVal) : bool :=
  match a, b with
  | VNum x, VNum y => y <=? x
  | _, _ => false
  end.

(** [a > b] on numbers. *)
Definition num_gt (a b : JSVal) : bool := num_lt b a.

(** *** parseInt *)

(** The white space [parseInt] skips is that of [String.prototype.trim]:
    the line terminators and the characters of [WhiteSpace]. In UTF-8 the
    ASCII ones are one byte (TAB, LF, VT, FF, CR, SP), U+00A0 is two, and
    U+1680, U+2000 to U+200A, U+2028, U+2029, U+202F, U+205F, U+3000 and
    U+FEFF are three. *)
Definition is_space (a : ascii) : bool :=
  let n := nat_of_ascii a in
  bool_decide (n = 32%nat ∨ (9 ≤ n ≤ 13)%nat).

Definition is_space2 (a b : ascii) : bool :=
  bool_decide (nat_of_ascii a = 194%nat ∧ nat_of_ascii b = 160%nat).

Definition is_space3 (a b c : ascii) : bool :=
  let x := nat_of_ascii a in
  let y := nat_of_ascii b in
  let z := nat_of_ascii c in
  bool_decide
    ((x = 225 ∧ y = 154 ∧ z = 128)
     ∨ (x = 226 ∧ y = 128
        ∧ (128 ≤ z ≤ 138 ∨ z = 168 ∨ z = 169 ∨ z = 175))
     ∨ (x = 226 ∧ y = 129 ∧ z = 159)
     ∨ (x = 227 ∧ y = 128 ∧ z = 128)
     ∨ (x = 239 ∧ y = 187 ∧ z = 191))%nat.

Fixpoint trim_start (s : string) : string :=
  match s with
  | String a s1 =>
      if is_space a then trim_start s1
      else
        match s1 with
        | String b s2 =>
            if is_space2 a b then trim_start s2
            else
              match s2 with
              | String c s3 =>
                  if is_space3 a b c then trim_start s3 else s
              | EmptyString => s
              end
        | EmptyString => s
        end
  | EmptyString => s
  end.

(** Value of a digit in the given radix, if it is one. *)
Definition digit (radix : Z) (a : ascii) : option Z :=
  let n := Z.of_nat (nat_of_ascii a) in
  let d :=
    if (48 <=? n) && (n <=? 57) then Some (n - 48)
    else if (97 <=? n) && (n <=? 122) then Some (n - 87)
    else if (65 <=? n) && (n <=? 90) then Some (n - 55)
    else None in
  match d with
  | Some x => if x <? radix then Some x else None
  | None => None
  end.

(** The longest prefix of digits, read in [radix]; [None] when the text
    does not start with a digit. *)
Fixpoint digits (radix : Z) (s : string) (acc : option Z) : option Z :=
  match s with
  | String a s' =>
      match digit radix a with
      | Some d => digits radix s' (Some (radix * default 0 acc + d))
      | None => acc
      end
  | EmptyString => acc
  end.

Definition parse_text (s : string) : JSVal :=
  let s := trim_start s in
  let '(neg, s) :=
    match s with
    | String "-" s' => (true, s')
    | String "+" s' => (false, s')
    | _ => (false, s)
    end in
  let '(radix, s) :=
    match s with
    | String "0" (String "x" s') | String "0" (String "X" s') => (16, s')
    | _ => (10, s)
    end in
  match digits radix s None with
  | Some n => VNum (if neg then - n else n)
  | None => VNaN
  end.

(** The first digit of a positive integer, and the power of ten that
    stands under it: [(d, p)] with [d * p <= n < (d + 1) * p]. *)
Fixpoint first_digit (fuel : nat) (n : Z) : Z * Z :=
  match fuel with
  | O => (n, 1)
  | S fuel' =>
      if n <? 10 then (n, 1)
      else let '(d, p) := first_digit fuel' (n / 10) in (d, 10 * p)
  end.

(** A number of 10^21 or more prints with an exponent, [d.ddde+NN],
    in the fewest digits that read back as the same number, and
    [parseInt] reads that text up to the point or the [e]: the digit
    [d]. That digit is the first digit of [n] itself, unless the next
    value of the form [c * 10^k] above [n] still rounds to [n] (to the
    nearest number of 53 significant bits, ties to an even one): then
    the text is that one digit [c]. *)
Definition exponent_digit (n : Z) : Z :=
  let e := Z.log2 n - 52 in
  let m := n / 2 ^ e in
  let '(d, p) := first_digit (Z.to_nat (Z.log2 n)) n in
  let above := (d + 1) * p in
  if (2 * (above - n) <? 2 ^ e)
     || ((2 * (above - n) =? 2 ^ e) && Z.even m)
  then (if d =? 9 then 1 else d + 1)
  else d.

(** [parseInt] of a number: the number is printed first. Below 10^21 in
    absolute value it prints as its decimal digits, and reads back as
    itself. *)
Definition parse_number (n : Z) : JSVal :=
  if Z.abs n <? 10 ^ 21 then VNum n
  else VNum (Z.sgn n * exponent_digit (Z.abs n)).

(** [parseInt(v)]: the argument is first turned into text. An array
    prints as its elements joined by commas, so only its first element
    counts; [undefined], [null], booleans, dates and objects print as
    text that starts with no digit. *)
Fixpoint parseInt (v : JSVal) : JSVal :=
  match v with
  | VNum n => parse_number n
  | VStr s => parse_text s
  | VArr (x :: _) => parseInt x
  | _ => VNaN
  end.

(** *** Arrays *)

(** [a[i]] for an array and a number. *)
Definition at_index (a : list JSVal) (i : JSVal) : JSVal :=
  match i with
  | VNum n => if n <? 0 then VUndef else default VUndef (a !! Z.to_nat n)
  | _ => VUndef
  end.

(** [v.length] and [v[i]] for any value: arrays and strings have them,
    the other values of this model answer [undefined]. *)
Definition length_of (v : JSVal) : JSVal :=
  match v with
  | VArr a => VNum (Z.of_nat (length a))
  | VStr s => VNum (Z.of_nat (String.length s))
  | _ => VUndef
  end.

Definition elem (v i : JSVal) : JSVal :=
  match v with
  | VArr a => at_index a i
  | VStr s =>
      match i with
      | VNum n =>
          if n <? 0 then VUndef
          else match String.get (Z.to_nat n) s with
               | Some c => VStr (String c EmptyString)
               | None => VUndef
               end
      | _ => VUndef
      end
  | _ => VUndef
  end.

(** ToIntegerOrInfinity on what [parseInt] returns: [NaN] counts as 0. *)
Definition to_integer (v : JSVal) : Z :=
  match v with
  | VNum n => n
  | _ => 0
  end.

(** [a.splice(start, deleteCount)]: the removed elements and what is
    left of [a]. A negative [start] counts from the end, and both
    arguments are clamped to the array. *)
Definition splice (a : list JSVal) (start : JSVal) (deleteCount : Z)
  : list JSVal * list JSVal :=
  let len := Z.of_nat (length a) in
  let rel := to_integer start in
  let from := if rel <? 0 then Z.max (len + rel) 0 else Z.min rel len in
  let count := Z.min (Z.max deleteCount 0) (len - from) in
  (take (Z.to_nat count) (drop (Z.to_nat from) a),
   (take (Z.to_nat from) a ++ drop (Z.to_nat (from + count)) a)%list).

(** [a.unshift(x)] and [a.push(...xs)]. *)
Definition unshift (x : JSVal) (a : list JSVal) : list JSVal := x :: a.
Definition push (xs a : list JSVal) : list JSVal := (a ++ xs)%list.

(** *** Strings *)

Fixpoint contains (sep : ascii) (s : string) : bool :=
  match s with
  | EmptyString => false
  | String a s' => Ascii.eqb a sep || contains sep s'
  end.

(** [s.split(sep).pop()]: the text after the last separator. *)
Fixpoint after_last (sep : ascii) (s : string) : string :=
  match s with
  | EmptyString => EmptyString
  | String _ s' => if contains sep s then after_last sep s' else s
  end.

(** [s.split(sep)[0]]: the text before the first separator. *)
Fixpoint before_first (sep : ascii) (s : string) : string :=
  match s with
  | EmptyString => EmptyString
  | String a s' =>
      if Ascii.eqb a sep then EmptyString else String a (before_first sep s')
  end.

End JS.

Import JS.

(** ** Requests, responses, failures *)

(** [req.user] as the authentication middleware leaves it: the fields the
    handlers read. A missing [isSuperAdmin] reads as [false]. *)
Record User : Type := {
  id : string;
  email : string;
  isSuperAdmin : bool;
  role : string
}.

(** [res.status(code).json(body)]; [res.json(body)] answers 200. A [Date]
    in a body is sent as its ISO text, so [VDate] stands for both. *)
Record Response : Type := {
  code : Z;
  body : Obj
}.

Definition json (c : Z) (b : Obj) : Response := {| code := c; body := b |}.

(** The failure envelope [{ status: 'error', message }]. *)
Definition error_body (message : string) : Obj :=
  [("status", VStr "error"); ("message", VStr message)].

(** A computation either returns or throws an [Error] with a message. *)
Inductive result (A : Type) : Type :=
| Ok (a : A)
| Throw (message : string).
Arguments Ok {A} a.
Arguments Throw {A} message.

(** ** The store and the media host *)

Module Mongo.

(** One condition of a query filter: equality with a value, a regular
    expression, or a range built from [$gte] and [$lte]. *)
Inductive Cond : Type :=
| CEq (v : JSVal)
| CRegExp (source : JSVal) (flags : string)
| CRange (gte lte : option JSVal).

(** A filter: conditions on dotted paths, all of which must hold. *)
Definition Filter : Type := list (list string * Cond).

(** A collection, keyed by [_id]; the stored object holds the other paths. *)
Abbreviation Collection := (gmap string Obj).

End Mongo.

Import Mongo.

(** What the handlers call and this repository does not define: the JSON
    parser, the schema validators of the models, the query engine of the
    store, and the media host. *)
Class Collaborators : Type := {
  (** [JSON.parse(text)]; [None] is its SyntaxError. *)
  JSON_parse : string → option JSVal;
  (** The validators a model runs over data written by [create] and by
      [findByIdAndUpdate] with [runValidators]: [Some message] rejects. *)
  validate : Obj → option string;
  (** Whether a value satisfies a [$regex] or range condition. *)
  operator_holds : Cond → JSVal → bool;
  (** The order the store gives two documents under a sort specification
      (paths with direction 1 or -1). *)
  sorts_before : list (list string * Z) → string * Obj → string * Obj → bool;
  (** [new RegExp(source, flags)]: [Some message] is its SyntaxError. *)
  RegExp_error : JSVal → string → option string;
  (** [cloudinary.uploader.destroy(publicId)]: its result, or rejection. *)
  destroy : string → result JSVal
}.

(** What a handler can change: the collection of its model, and the media
    host, seen as the public ids whose deletion it accepted. The users are
    read by [populate] only. *)
Record World : Type := {
  docs : Collection;
  users : Collection;
  destroyed : list string
}.

Definition with_docs (d : Collection) (w : World) : World :=
  {| docs := d; users := users w; destroyed := destroyed w |}.

Definition with_destroyed (l : list string) (w : World) : World :=
  {| docs := docs w; users := users w; destroyed := l |}.

(** Handlers run in a state-and-exception monad: the world is threaded
    through, and survives a throw. *)
Definition M (A : Type) : Type := World → result A * World.

Definition ret {A} (a : A) : M A := λ w, (Ok a, w).

Definition throw {A} (message : string) : M A := λ w, (Throw message, w).

Definition bind {A B} (m : M A) (k : A → M B) : M B :=
  λ w, match m w with
       | (Ok a, w') => k a w'
       | (Throw e, w') => (Throw e, w')
       end.

(** [try { m } catch (error) { h(error.message) }]. *)
Definition try_catch {A} (m : M A) (h : string → M A) : M A :=
  λ w, match m w with
       | (Ok a, w') => (Ok a, w')
       | (Throw e, w') => h e w'
       end.

#[global] Instance M_ret : MRet M := @ret.
#[global] Instance M_bind : MBind M := λ A B k m, bind m k.

(** A route handler: the response it sends and the world it leaves. *)
Definition run (m : M Response) (w : World) : Response * World :=
  match m w with
  | (Ok r, w') => (r, w')
  | (Throw e, w') => (json 500 (error_body e), w')
  end.

Section Store.
Context `{Collaborators}.

(** Does a document value satisfy a condition? *)
Definition cond_holds (c : Cond) (v : JSVal) : bool :=
  match c with
  | CEq w => strict_eq v w
  | _ => operator_holds c v
  end.

Definition matches (f : Filter) (d : Obj) : bool :=
  forallb (λ pc, cond_holds pc.2 (get_path pc.1 (VObj d))) f.

(** [Model.findById(id)]: the document, or [null]. *)
Definition findById (i : string) : M (option Obj) :=
  λ w, (Ok (docs w !! i), w).

(** [Model.findOne({ _id: id, ...f })]. *)
Definition findOne (i : string) (f : Filter) : M (option Obj) :=
  λ w, (Ok (match docs w !! i with
            | Some d => if matches f d then Some d else None
            | None => None
            end), w).

(** [Model.find(f).sort(spec)]: the documents that match, each with its
    [_id], in the order of the sort. *)
Definition find (f : Filter) (spec : list (list string * Z))
  : M (list (string * Obj)) :=
  λ w, (Ok (merge_sort (λ x y, Is_true (sorts_before spec x y))
              (filter (λ kd, Is_true (matches f kd.2)) (map_to_list (docs w)))),
        w).

(** [doc.save()]: the document replaces the stored one. *)
Definition save (i : string) (d : Obj) : M unit :=
  λ w, (Ok tt, with_docs (<[i := d]> (docs w)) w).

(** What an update without operators does to a document: each top-level
    key of [update] is set, the paths it does not name are kept. *)
Definition assign (update d : Obj) : Obj :=
  foldl (λ acc kv, set kv.1 kv.2 acc) d update.

(** [Model.findByIdAndUpdate(id, update, { new: true, runValidators: true })]:
    the updated document, [null] when there is none, a ValidationError
    when the validators reject [update]. *)
Definition findByIdAndUpdate (i : string) (update : Obj) : M (option Obj) :=
  λ w, match docs w !! i with
       | None => (Ok None, w)
       | Some d =>
           match validate update with
           | Some message => (Throw message, w)
           | None =>
               let d' := assign update d in
               (Ok (Some d'), with_docs (<[i := d']> (docs w)) w)
           end
       end.

(** Modelled from the spec: the defaults of the models (models/*.js are
    not among the sources). "Transitions: create → active": a document
    created without [activo] starts active. *)
Definition schema_defaults (data : Obj) : Obj :=
  if has "activo" data then data else set "activo" (VBool true) data.

(** [Model.create(data)] under a new [_id]: the validated data with the
    defaults of the schema. *)
Definition create (i : string) (data : Obj) : M Obj :=
  λ w, match validate data with
       | Some message => (Throw message, w)
       | None =>
           let d := schema_defaults data in
           (Ok d, with_docs (<[i := d]> (docs w)) w)
       end.

(** The users, for [populate]. *)
Definition all_users : M Collection := λ w, (Ok (users w), w).

(** [new RegExp(source, flags)] as a filter condition. *)
Definition new_RegExp (source : JSVal) (flags : string) : M Cond :=
  match RegExp_error source flags with
  | Some message => throw message
  | None => mret (CRegExp source flags)
  end.

(** [filters[path] = c] and [filters[path]]. *)
Fixpoint filter_set (p : list string) (c : Cond) (f : Filter) : Filter :=
  match f with
  | [] => [(p, c)]
  | (p', c') :: f' =>
      if bool_decide (p = p') then (p, c) :: f' else (p', c') :: filter_set p c f'
  end.

Fixpoint filter_get (p : list string) (f : Filter) : option Cond :=
  match f with
  | [] => None
  | (p', c') :: f' => if bool_decide (p = p') then Some c' else filter_get p f'
  end.

(** [{ ...filters[path] }]: the bounds already set on a path. *)
Definition bounds (c : option Cond) : option JSVal * option JSVal :=
  match c with
  | Some (CRange a b) => (a, b)
  | _ => (None, None)
  end.

(** [.populate(path, select)]: the referenced user replaces its id, cut
    down to [_id] and the selected fields; [null] when there is no such
    user. *)
Definition populate (path : string) (select : list string)
    (us : Collection) (d : Obj) : Obj :=
  match get path d with
  | VStr uid =>
      match us !! uid with
      | Some u =>
          set path
            (VObj (("_id", VStr uid)
                   :: filter (λ kv, kv.1 ∈ select) u)) d
      | None => set path VNull d
      end
  | _ => d
  end.

(** A document as it is sent: [_id] first, then its paths. *)
Definition sent (i : string) (d : Obj) : JSVal :=
  VObj (("_id", VStr i) :: d).

(** [await cloudinary.uploader.destroy(publicId)]. *)
Definition uploader_destroy (publicId : string) : M JSVal :=
  λ w, match destroy publicId with
       | Ok r => (Ok r, with_destroyed (destroyed w ++ [publicId])%list w)
       | Throw e => (Throw e, w)
       end.

End Store.

(** ** Shared pieces of the handlers *)

Section Handlers.
Context `{Collaborators}.

(** Calling an array method ([push], [splice]) on [v]: a TypeError unless
    [v] is an array. *)
Definition array_of (method : string) (v : JSVal) : M (list JSVal) :=
  match v with
  | VArr a => mret a
  | _ => throw (method ++ " is not a function")
  end.

(** Calling [split] on [v]: a TypeError unless [v] is a string. *)
Definition string_of (v : JSVal) : M string :=
  match v with
  | VStr s => mret s
  | _ => throw "split is not a function"
  end.

(** [doc.propietario.toString()]: the path is an ObjectId, kept as its
    hexadecimal text, or unset, and then the call is a TypeError. *)
Definition toString (v : JSVal) : M string :=
  match v with
  | VStr s => mret s
  | _ => throw "Cannot read properties of undefined (reading 'toString')"
  end.

(** The filter every image route loads its document with:
    [{ propietario: req.user.id, activo: true }], next to [_id]. *)
Definition own_and_active (user : User) : Filter :=
  [(["propietario"], CEq (VStr (id user)));
   (["activo"], CEq (VBool true))].

(** The block that asks the media host to drop an image, in a folder:
    [[
      try {
        const publicId = imagenAEliminar.split('/').pop().split('.')[0];
        const fullPublicId = `turismo-app/<folder>/${publicId}`;
        const result = await cloudinary.uploader.destroy(fullPublicId);
      } catch (cloudinaryError) { /* warn, and go on */ }
    ]] *)
Definition destroy_quietly (folder : string) (imagenAEliminar : JSVal) : M unit :=
  try_catch
    (url ← string_of imagenAEliminar;
     let publicId := before_first "." (after_last "/" url) in
     let fullPublicId := "turismo-app/" ++ folder ++ "/" ++ publicId in
     _ ← uploader_destroy fullPublicId;
     mret tt)
    (λ _, mret tt).

(** The audit stamp a toggle leaves. *)
Definition toggle_stamp (user : User) (now : Z) (activo : JSVal) : JSVal :=
  VObj [("usuario", VStr (id user));
        ("fecha", VDate now);
        ("accion", VStr (if truthy activo then "activado" else "bloqueado"));
        ("motivo", VStr "Cambio de estado por super administrador")].

Definition no_permission_toggle : string :=
  "No tienes permisos para realizar esta acción. Se requieren privilegios de super administrador.".

End Handlers.

(** ** multer *)

(** The upload routes run [multer] in front of their handler. What is
    kept of it here is what its options in the routers decide: which
    requests reach the handler, with which [req.files], and which error
    goes to the error middleware of the router instead. The traffic of
    the storage with the media host (it uploads each file it takes, and
    takes the uploaded ones back when the request fails) is its own and
    is not recorded in the world. *)
Module Multer.

(** A file part of a multipart request as it arrives: the form field it
    comes under, its declared media type, its size in bytes, and what
    the storage answers when it is handed the file: the address of the
    file on the media host, or the error of the upload (a format outside
    [allowed_formats], the host out of reach). *)
Record Part : Type := {
  fieldname : string;
  mimetype : string;
  size : Z;
  stored : result JSVal
}.

(** [file.path] of a part the storage took. *)
Definition path (p : Part) : JSVal :=
  match stored p with
  | Ok address => address
  | Throw _ => VUndef
  end.

(** What stops a request: a [MulterError] with its code, the error the
    file filter passed to its callback, or the error of the storage. *)
Inductive Failure : Type :=
| MulterError (code : string)
| FilterError (message : string)
| StorageError (message : string).

(** [error.message]. *)
Definition message (e : Failure) : string :=
  match e with
  | MulterError code =>
      if String.eqb code "LIMIT_FILE_SIZE" then "File too large"
      else if String.eqb code "LIMIT_FILE_COUNT" then "Too many files"
      else "Unexpected field"
  | FilterError m => m
  | StorageError m => m
  end.

(** [multer({ fileFilter, limits: { fileSize, files } })]. The filter
    answers [None] for [cb(null, true)] and [Some m] for
    [cb(new Error(m), false)]. *)
Record Options : Type := {
  fileFilter : Part → option string;
  fileSize : Z;
  files : Z
}.

(** The entry of [req.files] for a part that was taken. *)
Definition file_of (p : Part) : Obj :=
  [("fieldname", VStr (fieldname p));
   ("mimetype", VStr (mimetype p));
   ("path", path p);
   ("size", VNum (size p))].

(** The parts are read in the order they arrive, [seen] of them so far,
    and the first error met while reading ends the request: one part
    more than [limits.files], a part under another field than [name] or
    past [maxCount], a part the filter refuses, a part longer than
    [limits.fileSize]. *)
Fixpoint take_parts (o : Options) (name : string) (maxCount : option Z)
    (seen : Z) (parts : list Part) : option Failure :=
  match parts with
  | [] => None
  | p :: rest =>
      if files o <=? seen then Some (MulterError "LIMIT_FILE_COUNT")
      else if negb (String.eqb (fieldname p) name)
              || match maxCount with
                 | Some n => n <=? seen
                 | None => false
                 end
      then Some (MulterError "LIMIT_UNEXPECTED_FILE")
      else
        match fileFilter o p with
        | Some m => Some (FilterError m)
        | None =>
            if fileSize o <? size p then Some (MulterError "LIMIT_FILE_SIZE")
            else take_parts o name maxCount (seen + 1) rest
        end
  end.

(** The answers of the storage come after the parts were read: the first
    upload that failed ends the request, and otherwise every part is in
    [req.files], in the order of arrival. *)
Fixpoint store_parts (parts : list Part) : Failure + list Obj :=
  match parts with
  | [] => inr []
  | p :: rest =>
      match stored p with
      | Throw m => inl (StorageError m)
      | Ok _ =>
          match store_parts rest with
          | inl e => inl e
          | inr fs => inr (file_of p :: fs)
          end
      end
  end.

(** [upload.array(name, maxCount)] on the file parts of a request. *)
Definition array (o : Options) (name : string) (maxCount : option Z)
    (parts : list Part) : Failure + list Obj :=
  match take_parts o name maxCount 0 parts with
  | Some e => inl e
  | None => store_parts parts
  end.

End Multer.

(** [next(error)] when no error middleware is left: Express answers 500
    itself, with a page that is not JSON (the body is left empty here). *)
Definition next_error (message : string) : M Response :=
  mret (json 500 []).

(** ** config/cloudinary.js *)

Module Cloudinary.

(** The folder each storage uploads to ([params.folder]). *)
Definition hotelStorage_folder : string := "turismo-app/hoteles".
Definition cabanaStorage_folder : string := "turismo-app/cabanas".
Definition airbnbStorage_folder : string := "turismo-app/airbnb".

End Cloudinary.

(** ** routes/hotelRoutes.js *)

Module HotelRoutes.
Section Routes.
Context `{Collaborators}.

(** [multer({ storage, fileFilter, limits })] at the head of the router. *)
Definition uploadHotelImages : Multer.Options := {|
  Multer.fileFilter := λ file,
    if String.prefix "image/" (Multer.mimetype file) then None
    else Some "Solo se permiten archivos de imagen";
  Multer.fileSize := 5 * 1024 * 1024;
  Multer.files := 10
|}.

Definition not_found : string :=
  "No se encontró hotel asociado o no tienes permisos".

(** The handler of [POST /:hotelId/images/upload], with [req.files] as
    multer leaves it; the route as a whole is [upload_route]. *)
Definition upload_images (user : User) (hotelId : string)
    (files : option (list Obj)) (now : Z) : M Response :=
  try_catch
    (match files with
     | None | Some [] =>
         mret (json 400 (error_body "No se enviaron archivos"))
     | Some files =>
         hotel ← findOne hotelId (own_and_active user);
         match hotel with
         | None => mret (json 404 (error_body not_found))
         | Some hotel =>
             let nuevasImagenesUrls := map (get "path") files in
             let hotel :=
               if negb (truthy (get "imagenes" hotel))
               then set "imagenes" (VArr []) hotel else hotel in
             imagenes ← array_of "push" (get "imagenes" hotel);
             let imagenes := push nuevasImagenesUrls imagenes in
             let hotel := set "imagenes" (VArr imagenes) hotel in
             let hotel := set "updatedAt" (VDate now) hotel in
             _ ← save hotelId hotel;
             let n := Z.of_nat (length nuevasImagenesUrls) in
             mret (json 200
               [("status", VStr "success");
                ("message", VStr (pretty n ++ " imagen(es) subida(s) exitosamente"));
                ("data", VObj
                   [("imagenesAgregadas", VNum n);
                    ("totalImagenes", VNum (Z.of_nat (length imagenes)));
                    ("nuevasImagenes", VArr nuevasImagenesUrls)])])
         end
     end)
    (λ message,
       mret (json 500
         [("status", VStr "error");
          ("message", VStr "Error del servidor al subir imágenes");
          ("error", VStr message)])).

(** [DELETE /:hotelId/images/:imageIndex] *)
Definition delete_image (user : User) (hotelId imageIndex : string)
    (now : Z) : M Response :=
  try_catch
    (let index := parseInt (VStr imageIndex) in
     hotel ← findOne hotelId (own_and_active user);
     match hotel with
     | None => mret (json 404 (error_body not_found))
     | Some hotel =>
         let imagenes := get "imagenes" hotel in
         if negb (truthy imagenes) || strict_eq (length_of imagenes) (VNum 0)
         then mret (json 404 (error_body "No hay imágenes para eliminar"))
         else if num_lt index (VNum 0) || num_ge index (length_of imagenes)
         then mret (json 404 (error_body "Índice de imagen inválido"))
         else
           let imagenAEliminar := elem imagenes index in
           _ ← destroy_quietly "hoteles" imagenAEliminar;
           a ← array_of "splice" imagenes;
           let a := (splice a index 1).2 in
           let hotel := set "imagenes" (VArr a) hotel in
           let hotel := set "updatedAt" (VDate now) hotel in
           _ ← save hotelId hotel;
           mret (json 200
             [("status", VStr "success");
              ("message", VStr "Imagen eliminada exitosamente");
              ("data", VObj
                 [("totalImagenes", VNum (Z.of_nat (length a)));
                  ("imagenEliminada", VObj
                     [("url", imagenAEliminar); ("index", index)])])])
     end)
    (λ message,
       mret (json 500
         [("status", VStr "error");
          ("message", VStr "Error del servidor al eliminar imagen");
          ("error", VStr message)])).

(** [PATCH /:hotelId/images/set-main], with [imageIndex] in the body. *)
Definition set_main (user : User) (hotelId : string) (imageIndex : JSVal)
    (now : Z) : M Response :=
  try_catch
    (let index := parseInt imageIndex in
     hotel ← findOne hotelId (own_and_active user);
     match hotel with
     | None => mret (json 404 (error_body not_found))
     | Some hotel =>
         let imagenes := get "imagenes" hotel in
         if negb (truthy imagenes) || strict_eq (length_of imagenes) (VNum 0)
         then mret (json 404 (error_body "No hay imágenes disponibles"))
         else if num_lt index (VNum 0) || num_ge index (length_of imagenes)
         then mret (json 404 (error_body "Índice de imagen inválido"))
         else if strict_eq index (VNum 0)
         then mret (json 200
                [("status", VStr "success");
                 ("message", VStr "Esta imagen ya es la principal");
                 ("data", VObj [("imagenPrincipal", elem imagenes (VNum 0))])])
         else
           a ← array_of "splice" imagenes;
           let '(removed, a) := splice a index 1 in
           let imagenPrincipal := at_index removed (VNum 0) in
           let a := unshift imagenPrincipal a in
           let hotel := set "imagenes" (VArr a) hotel in
           let hotel := set "updatedAt" (VDate now) hotel in
           _ ← save hotelId hotel;
           mret (json 200
             [("status", VStr "success");
              ("message", VStr "Imagen principal actualizada exitosamente");
              ("data", VObj
                 [("imagenPrincipal", imagenPrincipal);
                  ("totalImagenes", VNum (Z.of_nat (length a)))])])
     end)
    (λ message,
       mret (json 500
         [("status", VStr "error");
          ("message", VStr "Error del servidor al establecer imagen principal");
          ("error", VStr message)])).

(** The super-administrator test of [PATCH /:id/toggle-status]. *)
Definition isSuperAdmin_toggle (user : User) : bool :=
  String.eqb (email user) "direcciondeturismojalpan@gmail.com"
  || isSuperAdmin user
  || String.eqb (role user) "super-admin".

(** [PATCH /:id/toggle-status] *)
Definition toggle_status (user : User) (i : string) (now : Z) : M Response :=
  try_catch
    (if negb (isSuperAdmin_toggle user)
     then mret (json 403 (error_body no_permission_toggle))
     else
       hotel ← findById i;
       match hotel with
       | None => mret (json 404 (error_body "Hotel no encontrado"))
       | Some hotel =>
           let hotel := set "activo" (VBool (negb (truthy (get "activo" hotel)))) hotel in
           let hotel :=
             set "ultimaModificacion" (toggle_stamp user now (get "activo" hotel)) hotel in
           _ ← save i hotel;
           mret (json 200
             [("status", VStr "success");
              ("message", VStr ("Hotel "
                 ++ (if truthy (get "activo" hotel) then "activado" else "bloqueado")
                 ++ " exitosamente"));
              ("data", VObj
                 [("hotel", VObj
                     [("id", VStr i);
                      ("nombre", get "nombre" hotel);
                      ("activo", get "activo" hotel)])])])
       end)
    (λ message, mret (json 400 (error_body message))).

(** [GET /:hotelId/images] *)
Definition get_images (user : User) (hotelId : string) : M Response :=
  try_catch
    (hotel ← findOne hotelId (own_and_active user);
     match hotel with
     | None => mret (json 404 (error_body not_found))
     | Some hotel =>
         mret (json 200
           [("status", VStr "success");
            ("message", VStr "Imágenes obtenidas correctamente");
            ("data",
             if truthy (get "imagenes" hotel)
             then get "imagenes" hotel else VArr [])])
     end)
    (λ message,
       mret (json 500
         [("status", VStr "error");
          ("message", VStr "Error del servidor al obtener imágenes");
          ("error", VStr message)])).

(** [GET /:id/main-image] *)
Definition main_image (i : string) : M Response :=
  try_catch
    (hotel ← findOne i [(["activo"], CEq (VBool true))];
     match hotel with
     | None => mret (json 404 (error_body "Hotel no encontrado"))
     | Some hotel =>
         let imagenes := get "imagenes" hotel in
         let mainImage :=
           if truthy imagenes && num_gt (length_of imagenes) (VNum 0)
           then elem imagenes (VNum 0) else VNull in
         mret (json 200
           [("status", VStr "success");
            ("data", VObj
               [("mainImage", mainImage);
                ("totalImages",
                 if truthy imagenes then length_of imagenes else VNum 0)])])
     end)
    (λ _, mret (json 500 (error_body "Error del servidor"))).

(** The error middleware at the end of the router. *)
Definition on_error (error : Multer.Failure) : M Response :=
  let is_MulterError :=
    match error with Multer.MulterError _ => true | _ => false end in
  let code :=
    match error with Multer.MulterError c => c | _ => EmptyString end in
  if is_MulterError && String.eqb code "LIMIT_FILE_SIZE"
  then mret (json 400 (error_body "Archivo demasiado grande. Máximo 5MB por imagen."))
  else if is_MulterError && String.eqb code "LIMIT_FILE_COUNT"
  then mret (json 400
         (error_body "Demasiados archivos. Máximo 10 imágenes por vez."))
  else if String.eqb (Multer.message error)
            "Solo se permiten archivos de imagen"
  then mret (json 400
         (error_body
            "Solo se permiten archivos de imagen (JPG, PNG, GIF, WebP)"))
  else next_error (Multer.message error).

(** [POST /:hotelId/images/upload] as a whole: [uploadHotelImages.array('images', 10)] in
    front of the handler. A request that is not multipart ([None]) goes
    through with [req.files] unset. *)
Definition upload_route (user : User) (hotelId : string)
    (request : option (list Multer.Part)) (now : Z) : M Response :=
  match request with
  | None => upload_images user hotelId None now
  | Some parts =>
      match Multer.array uploadHotelImages "images" (Some 10) parts with
      | inr files => upload_images user hotelId (Some files) now
      | inl error => on_error error
      end
  end.

End Routes.
End HotelRoutes.

(** ** routes/cabanaRoutes.js *)

Module CabanaRoutes.
Section Routes.
Context `{Collaborators}.

(** [multer({ storage, fileFilter, limits })] at the head of the router. *)
Definition uploadCabanaImages : Multer.Options := {|
  Multer.fileFilter := λ file,
    if String.prefix "image/" (Multer.mimetype file) then None
    else Some "Solo se permiten archivos de imagen";
  Multer.fileSize := 5 * 1024 * 1024;
  Multer.files := 10
|}.

Definition not_found : string :=
  "No se encontró cabaña asociada o no tienes permisos".

(** The handler of [POST /:cabanaId/images/upload], with [req.files] as
    multer leaves it; the route as a whole is [upload_route]. *)
Definition upload_images (user : User) (cabanaId : string)
    (files : option (list Obj)) (now : Z) : M Response :=
  try_catch
    (match files with
     | None | Some [] =>
         mret (json 400 (error_body "No se recibieron archivos"))
     | Some files =>
         cabana ← findOne cabanaId (own_and_active user);
         match cabana with
         | None => mret (json 404 (error_body not_found))
         | Some cabana =>
             let imageUrls := map (get "path") files in
             let cabana :=
               if negb (truthy (get "imagenes" cabana))
               then set "imagenes" (VArr []) cabana else cabana in
             imagenes ← array_of "push" (get "imagenes" cabana);
             let imagenes := push imageUrls imagenes in
             let cabana := set "imagenes" (VArr imagenes) cabana in
             let cabana := set "updatedAt" (VDate now) cabana in
             _ ← save cabanaId cabana;
             mret (json 200
               [("status", VStr "success");
                ("message", VStr (pretty (Z.of_nat (length files))
                                  ++ " imagen(es) subida(s) exitosamente"));
                ("data", VObj
                   [("totalImagenes", VNum (Z.of_nat (length imagenes)));
                    ("nuevasImagenes", VArr imageUrls)])])
         end
     end)
    (λ message,
       mret (json 500
         [("status", VStr "error");
          ("message", VStr "Error del servidor al subir imágenes");
          ("error", VStr message)])).

(** [DELETE /:cabanaId/images/:index] *)
Definition delete_image (user : User) (cabanaId index : string)
    (now : Z) : M Response :=
  try_catch
    (let imageIndex := parseInt (VStr index) in
     cabana ← findOne cabanaId (own_and_active user);
     match cabana with
     | None => mret (json 404 (error_body not_found))
     | Some cabana =>
         let imagenes := get "imagenes" cabana in
         if negb (truthy imagenes) || strict_eq (length_of imagenes) (VNum 0)
         then mret (json 404 (error_body "No hay imágenes para eliminar"))
         else if num_lt imageIndex (VNum 0)
                 || num_ge imageIndex (length_of imagenes)
         then mret (json 404 (error_body "Índice de imagen inválido"))
         else
           let imagenAEliminar := elem imagenes imageIndex in
           _ ← destroy_quietly "cabanas" imagenAEliminar;
           a ← array_of "splice" imagenes;
           let a := (splice a imageIndex 1).2 in
           let cabana := set "imagenes" (VArr a) cabana in
           let cabana := set "updatedAt" (VDate now) cabana in
           _ ← save cabanaId cabana;
           mret (json 200
             [("status", VStr "success");
              ("message", VStr "Imagen eliminada exitosamente");
              ("data", VObj
                 [("totalImagenes", VNum (Z.of_nat (length a)));
                  ("imagenEliminada", VObj
                     [("url", imagenAEliminar); ("index", imageIndex)])])])
     end)
    (λ message,
       mret (json 500
         [("status", VStr "error");
          ("message", VStr "Error del servidor al eliminar imagen");
          ("error", VStr message)])).

(** [PATCH /:cabanaId/images/set-main], with [imageIndex] in the body. *)
Definition set_main (user : User) (cabanaId : string) (imageIndex : JSVal)
    (now : Z) : M Response :=
  try_catch
    (let index := parseInt imageIndex in
     cabana ← findOne cabanaId (own_and_active user);
     match cabana with
     | None => mret (json 404 (error_body not_found))
     | Some cabana =>
         let imagenes := get "imagenes" cabana in
         if negb (truthy imagenes) || strict_eq (length_of imagenes) (VNum 0)
         then mret (json 404 (error_body "No hay imágenes disponibles"))
         else if num_lt index (VNum 0) || num_ge index (length_of imagenes)
         then mret (json 400 (error_body "Índice de imagen inválido"))
         else if strict_eq index (VNum 0)
         then mret (json 200
                [("status", VStr "success");
                 ("message", VStr "Esta imagen ya es la principal");
                 ("data", VObj [("imagenPrincipal", elem imagenes (VNum 0))])])
         else
           let selectedImage := elem imagenes index in
           a ← array_of "splice" imagenes;
           let a := (splice a index 1).2 in
           let a := unshift selectedImage a in
           let cabana := set "imagenes" (VArr a) cabana in
           let cabana := set "updatedAt" (VDate now) cabana in
           _ ← save cabanaId cabana;
           mret (json 200
             [("status", VStr "success");
              ("message", VStr "Imagen principal actualizada exitosamente");
              ("data", VObj
                 [("imagenPrincipal", selectedImage);
                  ("totalImagenes", VNum (Z.of_nat (length a)))])])
     end)
    (λ message,
       mret (json 500
         [("status", VStr "error");
          ("message", VStr "Error del servidor al establecer imagen principal");
          ("error", VStr message)])).

(** The super-administrator test of [PATCH /:id/toggle-status]. *)
Definition isSuperAdmin_toggle (user : User) : bool :=
  String.eqb (email user) "superadmin@turismo.com"
  || String.eqb (email user) "direcciondeturismojalpan@gmail.com"
  || isSuperAdmin user
  || String.eqb (role user) "super-admin".

(** [PATCH /:id/toggle-status] *)
Definition toggle_status (user : User) (i : string) (now : Z) : M Response :=
  try_catch
    (if negb (isSuperAdmin_toggle user)
     then mret (json 403 (error_body no_permission_toggle))
     else
       cabana ← findById i;
       match cabana with
       | None => mret (json 404 (error_body "Cabaña no encontrada"))
       | Some cabana =>
           let cabana := set "activo" (VBool (negb (truthy (get "activo" cabana)))) cabana in
           let cabana :=
             set "ultimaModificacion" (toggle_stamp user now (get "activo" cabana)) cabana in
           _ ← save i cabana;
           mret (json 200
             [("status", VStr "success");
              ("message", VStr ("Cabaña "
                 ++ (if truthy (get "activo" cabana) then "activada" else "bloqueada")
                 ++ " exitosamente"));
              ("data", VObj
                 [("cabana", VObj
                     [("id", VStr i);
                      ("nombre", get "nombre" cabana);
                      ("activo", get "activo" cabana)])])])
       end)
    (λ message, mret (json 400 (error_body message))).

(** [GET /:cabanaId/images] *)
Definition get_images (user : User) (cabanaId : string) : M Response :=
  try_catch
    (cabana ← findOne cabanaId (own_and_active user);
     match cabana with
     | None => mret (json 404 (error_body not_found))
     | Some cabana =>
         mret (json 200
           [("status", VStr "success");
            ("message", VStr "Imágenes obtenidas exitosamente");
            ("data",
             if truthy (get "imagenes" cabana)
             then get "imagenes" cabana else VArr [])])
     end)
    (λ message,
       mret (json 500
         [("status", VStr "error");
          ("message", VStr "Error del servidor al obtener imágenes");
          ("error", VStr message)])).

(** The callback of [cabana.imagenes.map(...)] in the migration: an image
    that starts neither with [/] nor with [http] gets a leading [/], and
    raises [needsUpdate]. [startsWith] is a TypeError on what is not a
    string. *)
Definition migrate_image (img : JSVal) : result (JSVal * bool) :=
  match img with
  | VStr s =>
      if negb (String.prefix "/" s) && negb (String.prefix "http" s)
      then Ok (VStr ("/" ++ s), true)
      else Ok (img, false)
  | _ => Throw "img.startsWith is not a function"
  end.

(** The whole [map]: the new list, and whether any image changed. *)
Fixpoint migrate_images (l : list JSVal) : result (list JSVal * bool) :=
  match l with
  | [] => Ok ([], false)
  | img :: l' =>
      match migrate_image img with
      | Throw e => Throw e
      | Ok (img', changed) =>
          match migrate_images l' with
          | Throw e => Throw e
          | Ok (l'', changed') => Ok (img' :: l'', changed || changed')
          end
      end
  end.

(** [Cabana.find({ imagenes: { $exists: true, $ne: [] } })]: the path is
    set, and is not the empty array. *)
Definition has_images (d : Obj) : bool :=
  has "imagenes" d
  && match get "imagenes" d with
     | VArr [] => false
     | _ => true
     end.

Definition find_with_images : M (list (string * Obj)) :=
  λ w, (Ok (filter (λ kd, Is_true (has_images kd.2)) (map_to_list (docs w))),
        w).

(** The loop [for (const cabana of cabanas)], counting in [migrated]. *)
Fixpoint migrate_loop (cabanas : list (string * Obj)) (migrated : Z) : M Z :=
  match cabanas with
  | [] => mret migrated
  | (i, cabana) :: rest =>
      imagenes ← array_of "map" (get "imagenes" cabana);
      match migrate_images imagenes with
      | Throw e => throw e
      | Ok (updatedImages, needsUpdate) =>
          if needsUpdate
          then _ ← save i (set "imagenes" (VArr updatedImages) cabana);
               migrate_loop rest (migrated + 1)
          else migrate_loop rest migrated
      end
  end.

(** [GET /migrate-image-urls] *)
Definition migrate_image_urls : M Response :=
  try_catch
    (cabanas ← find_with_images;
     let totalCabanas := Z.of_nat (length cabanas) in
     migrated ← migrate_loop cabanas 0;
     mret (json 200
       [("status", VStr "success");
        ("message", VStr "Migración completada");
        ("data", VObj
           [("totalCabanas", VNum totalCabanas);
            ("migrated", VNum migrated);
            ("noMigration", VNum (totalCabanas - migrated))])]))
    (λ message,
       mret (json 500
         [("status", VStr "error");
          ("message", VStr "Error en migración");
          ("error", VStr message)])).

(** The error middleware at the end of the router. *)
Definition on_error (error : Multer.Failure) : M Response :=
  let is_MulterError :=
    match error with Multer.MulterError _ => true | _ => false end in
  let code :=
    match error with Multer.MulterError c => c | _ => EmptyString end in
  if is_MulterError && String.eqb code "LIMIT_FILE_SIZE"
  then mret (json 400 (error_body "Archivo muy grande. Máximo 5MB por imagen."))
  else if is_MulterError && String.eqb code "LIMIT_FILE_COUNT"
  then mret (json 400
         (error_body "Demasiados archivos. Máximo 10 imágenes por vez."))
  else if String.eqb (Multer.message error)
            "Solo se permiten archivos de imagen"
  then mret (json 400
         (error_body
            "Solo se permiten archivos de imagen (JPG, PNG, GIF, WebP)"))
  else next_error (Multer.message error).

(** [POST /:cabanaId/images/upload] as a whole: [uploadCabanaImages.array('images')] in
    front of the handler. A request that is not multipart ([None]) goes
    through with [req.files] unset. *)
Definition upload_route (user : User) (cabanaId : string)
    (request : option (list Multer.Part)) (now : Z) : M Response :=
  match request with
  | None => upload_images user cabanaId None now
  | Some parts =>
      match Multer.array uploadCabanaImages "images" None parts with
      | inr files => upload_images user cabanaId (Some files) now
      | inl error => on_error error
      end
  end.

End Routes.
End CabanaRoutes.

(** ** routes/airbnbRoutes.js *)

Module AirbnbRoutes.
Section Routes.
Context `{Collaborators}.

(** [multer({ storage, fileFilter, limits })] at the head of the router. *)
Definition uploadAirbnbImages : Multer.Options := {|
  Multer.fileFilter := λ file,
    if String.prefix "image/" (Multer.mimetype file) then None
    else Some "Solo se permiten archivos de imagen";
  Multer.fileSize := 5 * 1024 * 1024;
  Multer.files := 10
|}.

(** The handler of [POST /:alojamientoId/upload-images], with
    [req.files] as multer leaves it; the route as a whole is
    [upload_route]. *)
Definition upload_images (user : User) (alojamientoId : string)
    (files : option (list Obj)) (now : Z) : M Response :=
  try_catch
    (match files with
     | None | Some [] =>
         mret (json 400 (error_body "No se enviaron archivos de imagen"))
     | Some files =>
         alojamiento ← findOne alojamientoId (own_and_active user);
         match alojamiento with
         | None =>
             mret (json 404 (error_body
               "No se encontró alojamiento asociado o no tienes permisos"))
         | Some alojamiento =>
             let nuevasImagenesUrls := map (get "path") files in
             let alojamiento :=
               if negb (truthy (get "imagenes" alojamiento))
               then set "imagenes" (VArr []) alojamiento else alojamiento in
             imagenes ← array_of "push" (get "imagenes" alojamiento);
             let imagenes := push nuevasImagenesUrls imagenes in
             let alojamiento := set "imagenes" (VArr imagenes) alojamiento in
             let alojamiento := set "updatedAt" (VDate now) alojamiento in
             _ ← save alojamientoId alojamiento;
             let n := Z.of_nat (length nuevasImagenesUrls) in
             mret (json 200
               [("status", VStr "success");
                ("message", VStr (pretty n ++ " imagen(es) subida(s) exitosamente"));
                ("data", VObj
                   [("imagenesAgregadas", VNum n);
                    ("totalImagenes", VNum (Z.of_nat (length imagenes)));
                    ("nuevasImagenes", VArr nuevasImagenesUrls)])])
         end
     end)
    (λ message,
       mret (json 500
         [("status", VStr "error");
          ("message", VStr "Error del servidor al subir imágenes");
          ("error", VStr message)])).

(** [DELETE /:alojamientoId/images/:imageIndex] *)
Definition delete_image (user : User) (alojamientoId imageIndex : string)
    (now : Z) : M Response :=
  try_catch
    (let index := parseInt (VStr imageIndex) in
     alojamiento ← findOne alojamientoId (own_and_active user);
     match alojamiento with
     | None =>
         mret (json 404 (error_body "Alojamiento no encontrado o sin permisos"))
     | Some alojamiento =>
         let imagenes := get "imagenes" alojamiento in
         if negb (truthy imagenes) || negb (truthy (elem imagenes index))
         then mret (json 404 (error_body "Imagen no encontrada"))
         else
           let imagenAEliminar := elem imagenes index in
           _ ← destroy_quietly "airbnb" imagenAEliminar;
           a ← array_of "splice" imagenes;
           let a := (splice a index 1).2 in
           let alojamiento := set "imagenes" (VArr a) alojamiento in
           let alojamiento := set "updatedAt" (VDate now) alojamiento in
           _ ← save alojamientoId alojamiento;
           mret (json 200
             [("status", VStr "success");
              ("message", VStr "Imagen eliminada exitosamente");
              ("data", VObj
                 [("imagenesRestantes", VNum (Z.of_nat (length a)));
                  ("imagenEliminada", imagenAEliminar)])])
     end)
    (λ _,
       mret (json 500 (error_body "Error del servidor al eliminar imagen"))).

(** [PATCH /:alojamientoId/images/set-main], with [imageIndex] in the body. *)
Definition set_main (user : User) (alojamientoId : string)
    (imageIndex : JSVal) (now : Z) : M Response :=
  try_catch
    (let index := parseInt imageIndex in
     alojamiento ← findOne alojamientoId (own_and_active user);
     match alojamiento with
     | None =>
         mret (json 404 (error_body "Alojamiento no encontrado o sin permisos"))
     | Some alojamiento =>
         let imagenes := get "imagenes" alojamiento in
         if negb (truthy imagenes) || negb (truthy (elem imagenes index))
         then mret (json 404 (error_body "Imagen no encontrada"))
         else if strict_eq index (VNum 0)
         then mret (json 200
                [("status", VStr "success");
                 ("message", VStr "Esta imagen ya es la principal");
                 ("data", VObj
                    [("nuevaImagenPrincipal", elem imagenes (VNum 0));
                     ("totalImagenes", length_of imagenes)])])
         else
           a ← array_of "splice" imagenes;
           let '(removed, a) := splice a index 1 in
           let imagenPrincipal := at_index removed (VNum 0) in
           let a := unshift imagenPrincipal a in
           let alojamiento := set "imagenes" (VArr a) alojamiento in
           let alojamiento := set "updatedAt" (VDate now) alojamiento in
           _ ← save alojamientoId alojamiento;
           mret (json 200
             [("status", VStr "success");
              ("message", VStr "Imagen principal establecida exitosamente");
              ("data", VObj
                 [("nuevaImagenPrincipal", imagenPrincipal);
                  ("totalImagenes", VNum (Z.of_nat (length a)))])])
     end)
    (λ _, mret (json 500 (error_body "Error del servidor"))).

(** The super-administrator test of [PATCH /:id/toggle-status]. *)
Definition isSuperAdmin_toggle (user : User) : bool :=
  String.eqb (email user) "superadmin@turismo.com"
  || String.eqb (email user) "direcciondeturismojalpan@gmail.com"
  || isSuperAdmin user
  || String.eqb (role user) "super-admin".

(** [PATCH /:id/toggle-status] *)
Definition toggle_status (user : User) (i : string) (now : Z) : M Response :=
  try_catch
    (if negb (isSuperAdmin_toggle user)
     then mret (json 403 (error_body no_permission_toggle))
     else
       alojamiento ← findById i;
       match alojamiento with
       | None => mret (json 404 (error_body "Alojamiento no encontrado"))
       | Some alojamiento =>
           let alojamiento :=
             set "activo" (VBool (negb (truthy (get "activo" alojamiento))))
               alojamiento in
           let alojamiento :=
             set "ultimaModificacion"
               (toggle_stamp user now (get "activo" alojamiento)) alojamiento in
           _ ← save i alojamiento;
           mret (json 200
             [("status", VStr "success");
              ("message", VStr ("Alojamiento "
                 ++ (if truthy (get "activo" alojamiento)
                     then "activado" else "bloqueado")
                 ++ " exitosamente"));
              ("data", VObj
                 [("alojamiento", VObj
                     [("id", VStr i);
                      ("nombre", get "nombre" alojamiento);
                      ("activo", get "activo" alojamiento)])])])
       end)
    (λ message, mret (json 400 (error_body message))).

(** [GET /:alojamientoId/images] *)
Definition get_images (user : User) (alojamientoId : string) : M Response :=
  try_catch
    (alojamiento ← findOne alojamientoId (own_and_active user);
     match alojamiento with
     | None =>
         mret (json 404 (error_body
           "No se encontró alojamiento asociado o no tienes permisos"))
     | Some alojamiento =>
         let imagenes := get "imagenes" alojamiento in
         mret (json 200
           [("status", VStr "success");
            ("data", if truthy imagenes then imagenes else VArr []);
            ("alojamiento", VObj
               [("id", VStr alojamientoId);
                ("nombre", get "nombre" alojamiento);
                ("totalImagenes",
                 if truthy imagenes then length_of imagenes else VNum 0)])])
     end)
    (λ _, mret (json 500 (error_body "Error del servidor"))).

(** [GET /:alojamientoId/main-image] *)
Definition main_image (alojamientoId : string) : M Response :=
  try_catch
    (alojamiento ← findOne alojamientoId [(["activo"], CEq (VBool true))];
     match alojamiento with
     | None => mret (json 404 (error_body "Alojamiento no encontrado"))
     | Some alojamiento =>
         let imagenes := get "imagenes" alojamiento in
         let mainImage :=
           if truthy imagenes && num_gt (length_of imagenes) (VNum 0)
           then elem imagenes (VNum 0) else VNull in
         mret (json 200
           [("status", VStr "success");
            ("data", VObj
               [("mainImage", mainImage);
                ("totalImages",
                 if truthy imagenes then length_of imagenes else VNum 0)])])
     end)
    (λ _, mret (json 500 (error_body "Error del servidor"))).

(** The error middleware at the end of the router. *)
Definition on_error (error : Multer.Failure) : M Response :=
  let is_MulterError :=
    match error with Multer.MulterError _ => true | _ => false end in
  let code :=
    match error with Multer.MulterError c => c | _ => EmptyString end in
  if is_MulterError && String.eqb code "LIMIT_FILE_SIZE"
  then mret (json 400 (error_body "Archivo muy grande. Máximo 5MB por imagen."))
  else if is_MulterError && String.eqb code "LIMIT_FILE_COUNT"
  then mret (json 400
         (error_body "Demasiados archivos. Máximo 10 imágenes por vez."))
  else if String.eqb (Multer.message error)
            "Solo se permiten archivos de imagen"
  then mret (json 400
         (error_body
            "Solo se permiten archivos de imagen (JPG, PNG, GIF, WebP)"))
  else next_error (Multer.message error).

(** [POST /:alojamientoId/upload-images] as a whole: [uploadAirbnbImages.array('images', 10)] in
    front of the handler. A request that is not multipart ([None]) goes
    through with [req.files] unset. *)
Definition upload_route (user : User) (alojamientoId : string)
    (request : option (list Multer.Part)) (now : Z) : M Response :=
  match request with
  | None => upload_images user alojamientoId None now
  | Some parts =>
      match Multer.array uploadAirbnbImages "images" (Some 10) parts with
      | inr files => upload_images user alojamientoId (Some files) now
      | inl error => on_error error
      end
  end.

End Routes.
End AirbnbRoutes.

(** ** controllers/airbnbController.js *)

Module AirbnbController.
Section Controller.
Context `{Collaborators}.

(** The super-administrator test the controller repeats:
    [req.user.email === 'direcciondeturismojalpan@gmail.com' || req.user.isSuperAdmin]. *)
Definition is_super (user : User) : bool :=
  String.eqb (email user) "direcciondeturismojalpan@gmail.com"
  || isSuperAdmin user.

Definition populated (select : list string) (us : Collection)
    (l : list (string * Obj)) : list JSVal :=
  map (λ kd, sent kd.1 (populate "propietario" select us kd.2)) l.

(** The filter [getAllAirbnb] builds: everything for a super-administrator,
    else the active documents that meet the criteria of the query string.
    [req.user] may be absent, the route is public. *)
Definition filters_for (user : option User) (query : Obj) : M Filter :=
  let filters : Filter := [(["activo"], CEq (VBool true))] in
  if match user with Some u => is_super u | None => false end
  then mret []
  else
    filters ←
      (if truthy (get "ciudad" query)
       then re ← new_RegExp (get "ciudad" query) "i";
            mret (filter_set ["ubicacion"; "ciudad"] re filters)
       else mret filters);
    let filters :=
      if truthy (get "precioMin" query)
      then filter_set ["precioPorNoche"]
             (CRange (Some (get "precioMin" query))
                (bounds (filter_get ["precioPorNoche"] filters)).2)
             filters
      else filters in
    let filters :=
      if truthy (get "precioMax" query)
      then filter_set ["precioPorNoche"]
             (CRange (bounds (filter_get ["precioPorNoche"] filters)).1
                (Some (get "precioMax" query)))
             filters
      else filters in
    let filters :=
      if truthy (get "huespedes" query)
      then filter_set ["capacidad"; "huespedes"]
             (CRange (Some (get "huespedes" query)) None) filters
      else filters in
    let filters :=
      if truthy (get "tipo" query)
      then filter_set ["tipoPropiedad"] (CEq (get "tipo" query)) filters
      else filters in
    mret filters.

(** [getAllAirbnb] *)
Definition getAllAirbnb (user : option User) (query : Obj) : M Response :=
  try_catch
    (filters ← filters_for user query;
     alojamientos ←
       find filters [(["calificacion"; "promedio"], -1); (["updatedAt"], -1)];
     us ← all_users;
     let alojamientos :=
       populated ["nombre"; "email"; "createdAt"; "updatedAt"] us alojamientos in
     mret (json 200
       [("status", VStr "success");
        ("results", VNum (Z.of_nat (length alojamientos)));
        ("data", VObj [("alojamientos", VArr alojamientos)])]))
    (λ message, mret (json 400 (error_body message))).

(** [getAirbnb]: public, by id. *)
Definition getAirbnb (i : string) : M Response :=
  try_catch
    (alojamiento ← findById i;
     us ← all_users;
     match alojamiento with
     | None => mret (json 404 (error_body "No se encontró el alojamiento"))
     | Some alojamiento =>
         mret (json 200
           [("status", VStr "success");
            ("data", VObj
               [("alojamiento",
                 sent i (populate "propietario"
                           ["nombre"; "email"; "contacto"] us alojamiento))])])
     end)
    (λ message, mret (json 400 (error_body message))).

(** [createAirbnb], the store giving the new document the id [fresh]. *)
Definition createAirbnb (user : User) (body : Obj) (fresh : string)
  : M Response :=
  try_catch
    (let body := set "propietario" (VStr (id user)) body in
     newAlojamiento ← create fresh body;
     mret (json 201
       [("status", VStr "success");
        ("data", VObj [("alojamiento", sent fresh newAlojamiento)])]))
    (λ message, mret (json 400 (error_body message))).

(** [getMisAirbnb] *)
Definition getMisAirbnb (user : User) : M Response :=
  try_catch
    (let query : Filter :=
       if is_super user then []
       else [(["propietario"], CEq (VStr (id user)))] in
     alojamientos ← find query [(["createdAt"], -1)];
     us ← all_users;
     let alojamientos :=
       populated ["nombre"; "email"; "updatedAt"] us alojamientos in
     mret (json 200
       [("status", VStr "success");
        ("results", VNum (Z.of_nat (length alojamientos)));
        ("data", VObj [("alojamientos", VArr alojamientos)])]))
    (λ message, mret (json 400 (error_body message))).

Definition fieldsToParseAsJSON : list string :=
  ["ubicacion"; "contacto"; "capacidad"; "caracteristicas"; "servicios";
   "metodosPago"].

(** One round of the [forEach] over [fieldsToParseAsJSON]: a non-empty
    string is replaced by what it parses to, and kept when it does not
    parse. *)
Definition parse_field (updateData : Obj) (field : string) : Obj :=
  match get field updateData with
  | VStr text =>
      if truthy (VStr text)
      then match JSON_parse text with
           | Some v => set field v updateData
           | None => updateData
           end
      else updateData
  | _ => updateData
  end.

(** The data [updateAirbnb] hands to the store, from the request body. *)
Definition updateData_of (user : User) (body : Obj) (now : Z) : Obj :=
  let updateData := body in
  let updateData :=
    if truthy (get "precio" updateData)
    then del "precio" (set "precioPorNoche" (get "precio" updateData) updateData)
    else updateData in
  let updateData := foldl parse_field updateData fieldsToParseAsJSON in
  set "ultimaModificacion"
    (VObj [("usuario", VStr (id user));
           ("fecha", VDate now);
           ("camposModificados", VArr (VStr <$> keys updateData))])
    updateData.

(** The ownership guard of [updateAirbnb] and [deleteAirbnb]:
    [!isSuperAdmin && alojamiento.propietario.toString() !== req.user.id]. *)
Definition denied (user : User) (alojamiento : Obj) : M bool :=
  if negb (is_super user)
  then owner ← toString (get "propietario" alojamiento);
       mret (negb (String.eqb owner (id user)))
  else mret false.

(** [updateAirbnb] *)
Definition updateAirbnb (user : User) (i : string) (body : Obj) (now : Z)
  : M Response :=
  try_catch
    (alojamiento ← findById i;
     match alojamiento with
     | None => mret (json 404 (error_body "No se encontró el alojamiento"))
     | Some alojamiento =>
         no ← denied user alojamiento;
         if no : bool
         then mret (json 403 (error_body
                "No tienes permiso para actualizar este alojamiento"))
         else
           let updateData := updateData_of user body now in
           updatedAlojamiento ← findByIdAndUpdate i updateData;
           mret (json 200
             [("status", VStr "success");
              ("message", VStr "Alojamiento actualizado exitosamente");
              ("data", VObj
                 [("alojamiento",
                   match updatedAlojamiento with
                   | Some d => sent i d
                   | None => VNull
                   end)]);
              ("updateSummary", VObj
                 [("fieldsUpdated",
                   VNum (Z.of_nat (length
                     (filter (λ key, ¬ Is_true (String.prefix "imagen" key))
                        (keys updateData)))));
                  ("timestamp", VDate now)])])
     end)
    (λ message, mret (json 400 (error_body message))).

(** [deleteAirbnb]: the soft delete. *)
Definition deleteAirbnb (user : User) (i : string) : M Response :=
  try_catch
    (alojamiento ← findById i;
     match alojamiento with
     | None => mret (json 404 (error_body "No se encontró el alojamiento"))
     | Some alojamiento =>
         no ← denied user alojamiento;
         if no : bool
         then mret (json 403 (error_body
                "No tienes permiso para eliminar este alojamiento"))
         else
           let alojamiento := set "activo" (VBool false) alojamiento in
           _ ← save i alojamiento;
           mret (json 204 [("status", VStr "success"); ("data", VNull)])
     end)
    (λ message, mret (json 400 (error_body message))).

End Controller.
End AirbnbController.

(** ** The public list route *)

(** [router.get('/', airbnbController.getAllAirbnb)] is registered before
    [router.use(authMiddleware.protect)], and server.js installs no
    authentication of its own in front of the routers: when the controller
    runs for this route, [req.user] has not been set. *)
Definition list_route `{Collaborators} (query : Obj) : M Response :=
  AirbnbController.getAllAirbnb None query.

(** ** Vocabulary of the statements *)

(** The record [i] of the world [w] is the document [d]: [user] owns it,
    it is active, and its image list is [a]. This is what the image routes
    ask of a record before they touch it. *)
Definition holds_images (user : User) (i : string) (w : World) (d : Obj)
    (a : list JSVal) : Prop :=
  docs w !! i = Some d
  ∧ get "propietario" d = VStr (id user)
  ∧ get "activo" d = VBool true
  ∧ get "imagenes" d = VArr a.

(** The world once the record [i], which was [d], has the image list [a']
    and a new [updatedAt]. *)
Definition with_images (i : string) (d : Obj) (now : Z) (a' : list JSVal)
    (w : World) : World :=
  with_docs
    (<[i := set "updatedAt" (VDate now) (set "imagenes" (VArr a') d)]> (docs w))
    w.

(** The record [i] of [w] is the active document [d] of [user]. *)
Definition holds_record (user : User) (i : string) (w : World) (d : Obj)
  : Prop :=
  docs w !! i = Some d
  ∧ get "propietario" d = VStr (id user)
  ∧ get "activo" d = VBool true.

(** The image list of a document: [a], or nothing yet ([imagenes] unset
    or otherwise falsy), which the routes read as the empty list. *)
Definition images_of (d : Obj) (a : list JSVal) : Prop :=
  get "imagenes" d = VArr a
  ∨ (truthy (get "imagenes" d) = false ∧ a = []).

(** The references multer leaves in [req.files]: [file.path] of each. *)
Definition paths (files : list Obj) : list JSVal := get "path" <$> files.

(** A handler refused with status [c]: nothing was written. *)
Definition refused (c : Z) (w : World) (out : Response * World) : Prop :=
  code out.1 = c ∧ get "status" (body out.1) = VStr "error" ∧ out.2 = w.

(** A handler succeeded and left the record [i] with the image list [a']
    (and a new [updatedAt]); no other record and no user changed. *)
Definition stored_images (i : string) (d : Obj) (now : Z) (a' : list JSVal)
    (w : World) (out : Response * World) : Prop :=
  code out.1 = 200
  ∧ get "status" (body out.1) = VStr "success"
  ∧ docs out.2 = docs (with_images i d now a' w)
  ∧ users out.2 = users w.

(** The documents a list response carries in [data.alojamientos]. *)
Definition listed (r : Response) : list JSVal :=
  match get_path ["data"; "alojamientos"] (VObj (body r)) with
  | VArr l => l
  | _ => []
  end.

(** A path of a document as it was sent. *)
Definition sent_path (k : string) (v : JSVal) : JSVal := get_path [k] v.

(** An identity is elevated by its e-mail alone when a plain administrator
    account carrying it passes the test. *)
Definition by_email (test : User → bool) (address : string) : bool :=
  test {| id := ""; email := address; isSuperAdmin := false; role := "admin" |}.

(** The keys [updateAirbnb] itself may add, drop or rewrite in a body. *)
Definition reserved (k : string) : Prop :=
  k = "precio" ∨ k = "precioPorNoche" ∨ k = "ultimaModificacion"
  ∨ k ∈ AirbnbController.fieldsToParseAsJSON.

(** A caller of the public list who is not elevated: anonymous, or
    failing the test of the controller. *)
Definition plain (caller : option User) : Prop :=
  match caller with
  | Some u => AirbnbController.is_super u = false
  | None => True
  end.

(** The body of an update once a truthy [precio] has been renamed to
    [precioPorNoche], the first step of [updateData_of]. *)
Definition renamed (body : Obj) : Obj :=
  if truthy (get "precio" body)
  then del "precio" (set "precioPorNoche" (get "precio" body) body)
  else body.

(** The ids of the documents a list response carries. *)
Definition listed_ids (r : Response) : list JSVal :=
  sent_path "_id" <$> listed r.

(** What the migration of the cabins wants of an image: a string that
    starts with [/] or with [http]. *)
Definition stale_image (img : JSVal) : bool :=
  match img with
  | VStr s => negb (String.prefix "/" s) && negb (String.prefix "http" s)
  | _ => false
  end.

Definition normalize (img : JSVal) : JSVal :=
  match img with
  | VStr s => if stale_image img then VStr ("/" ++ s) else img
  | _ => img
  end.

(** A document whose list has an image to migrate. *)
Definition stale (d : Obj) : bool :=
  match get "imagenes" d with
  | VArr l => existsb stale_image l
  | _ => false
  end.

(** The document with every image of its list normalized. *)
Definition migrated_doc (d : Obj) : Obj :=
  match get "imagenes" d with
  | VArr l => set "imagenes" (VArr (normalize <$> l)) d
  | _ => d
  end.

(** The typing the schema gives [imagenes]: when the path is set, it is
    an array of strings. *)
Definition typed_images (d : Obj) : Prop :=
  has "imagenes" d = true →
  ∃ l, get "imagenes" d = VArr l ∧ Forall (λ v, ∃ s, v = VStr s) l.

(** A file part the three routers take: it comes under the field
    [images], is declared an image, is not over 5 MB, and the storage
    holds it. *)
Definition acceptable (p : Multer.Part) : Prop :=
  Multer.fieldname p = "images"
  ∧ String.prefix "image/" (Multer.mimetype p) = true
  ∧ Multer.size p ≤ 5 * 1024 * 1024
  ∧ ∃ address, Multer.stored p = Ok address.

(** What a part must pass while the request is read, under given
    options and field name. *)
Definition passes (o : Multer.Options) (name : string) (p : Multer.Part)
  : Prop :=
  Multer.fieldname p = name
  ∧ Multer.fileFilter o p = None
  ∧ Multer.size p ≤ Multer.fileSize o.

(** A request stopped before its handler: the answer has status [c] and
    the failure envelope, and no document and no user changed. *)
Definition turned_away (c : Z) (w : World) (out : Response * World) : Prop :=
  code out.1 = c
  ∧ get "status" (body out.1) = VStr "error"
  ∧ docs out.2 = docs w
  ∧ users out.2 = users w.

(** A body made of field names: no key is an update operator ([$set],
    [$unset], ...) or a dotted path. For such a body the store sets each
    key at the top level of the document. *)
Definition field_names (o : Obj) : Prop :=
  ∀ k, k ∈ keys o → String.prefix "$" k = false ∧ contains "." k = false.

(** The three resource types, and the test each toggle route applies. *)
Inductive Resource : Type := Hotel | Cabana | Airbnb.

Definition toggle_test (r : Resource) : User → bool :=
  match r with
  | Hotel => HotelRoutes.isSuperAdmin_toggle
  | Cabana => CabanaRoutes.isSuperAdmin_toggle
  | Airbnb => AirbnbRoutes.isSuperAdmin_toggle
  end.

(** The toggle route of a resource type. *)
Definition toggle_status (r : Resource)
  : User → string → Z → M Response :=
  match r with
  | Hotel => HotelRoutes.toggle_status
  | Cabana => CabanaRoutes.toggle_status
  | Airbnb => AirbnbRoutes.toggle_status
  end.

(** ** Sample data *)

Module Sample.

(** Collaborators for the examples: the media host is unreachable, no text
    parses, the validators accept everything, every condition holds. *)
Definition offline : Collaborators := {|
  JSON_parse := λ _, None;
  validate := λ _, None;
  operator_holds := λ _ _, true;
  sorts_before := λ _ _ _, true;
  RegExp_error := λ _ _, None;
  destroy := λ _, Throw "connect ECONNREFUSED"
|}.

Definition ana : User :=
  {| id := "64b000000000000000000001"; email := "ana@example.com";
     isSuperAdmin := false; role := "admin" |}.

Definition luis : User :=
  {| id := "64b000000000000000000002"; email := "luis@example.com";
     isSuperAdmin := false; role := "admin" |}.

(** A super-administrator by every test of the code. *)
Definition direccion : User :=
  {| id := "64b000000000000000000009";
     email := "direcciondeturismojalpan@gmail.com";
     isSuperAdmin := true; role := "super-admin" |}.

(** A listing of [ana] with the images [l]. *)
Definition listing (l : list JSVal) : Obj :=
  [("nombre", VStr "Casa Ana");
   ("propietario", VStr (id ana));
   ("activo", VBool true);
   ("imagenes", VArr l)].

Definition abc : list JSVal := [VStr "a.jpg"; VStr "b.jpg"; VStr "c.jpg"].

Definition casa : string := "64c000000000000000000001".

Definition world (l : list JSVal) : World :=
  {| docs := {[casa := listing l]}; users := ∅; destroyed := [] |}.

(** Collaborators with a media host that answers, and a pattern compiler
    that refuses the text of a lone opening parenthesis. *)
Definition online : Collaborators := {|
  JSON_parse := λ _, None;
  validate := λ _, None;
  operator_holds := λ _ _, true;
  sorts_before := λ _ _ _, true;
  RegExp_error := λ pattern _,
    if strict_eq pattern (VStr "(")
    then Some "Invalid regular expression: /(/i: Unterminated group"
    else None;
  destroy := λ _, Ok (VObj [("result", VStr "ok")])
|}.

(** A photograph as it arrives in an upload: under the field [images],
    200 kB of JPEG, stored by the media host under [address]. *)
Definition foto (address : string) : Multer.Part :=
  {| Multer.fieldname := "images"; Multer.mimetype := "image/jpeg";
     Multer.size := 204800; Multer.stored := Ok (VStr address) |}.

End Sample.

(** * Properties *)

(** ** Objects and arrays *)

Section ObjectFacts.
Implicit Types (k : string) (v : JSVal) (o : Obj).

Lemma get_set_eq k v o : get k (set k v o) = v.
Proof.
  induction o as [|[k' v'] o IH]; simpl.
  - by rewrite String.eqb_refl.
  - destruct (String.eqb k k') eqn:E; simpl; by rewrite ?String.eqb_refl, ?E.
Qed.

Lemma get_set_ne k k' v o : k ≠ k' → get k' (set k v o) = get k' o.
Proof.
  intros Hne. induction o as [|[k0 v0] o IH]; simpl.
  - destruct (String.eqb_spec k' k); congruence.
  - destruct (String.eqb_spec k k0) as [->|]; simpl.
    + destruct (String.eqb_spec k' k0); congruence.
    + by rewrite IH.
Qed.

Lemma get_del_ne k k' o : k ≠ k' → get k' (del k o) = get k' o.
Proof.
  intros Hne. induction o as [|[k0 v0] o IH]; simpl; [done|].
  destruct (String.eqb_spec k k0) as [->|]; simpl.
  - destruct (String.eqb_spec k' k0); congruence.
  - by rewrite IH.
Qed.

End ObjectFacts.

Section ArrayFacts.
Implicit Types (a : list JSVal) (i : Z).

(** Within bounds, [a[i]] is the element at position [i]. *)
Lemma at_index_lookup a i x :
  0 ≤ i → a !! Z.to_nat i = Some x → at_index a (VNum i) = x.
Proof.
  intros Hi Hx. unfold at_index.
  destruct (Z.ltb_spec i 0); [lia|]. by rewrite Hx.
Qed.

(** Outside the bounds, [a[i]] is [undefined]. *)
Lemma at_index_outside a i :
  i < 0 ∨ Z.of_nat (length a) ≤ i → at_index a (VNum i) = VUndef.
Proof.
  intros Hi. unfold at_index.
  destruct (Z.ltb_spec i 0); [done|].
  rewrite lookup_ge_None_2; [done|lia].
Qed.

(** [a.splice(i, 1)] at a position of [a]: it returns that one element
    and leaves [a] without it, the later elements one place down. *)
Lemma splice_one a i x :
  0 ≤ i → a !! Z.to_nat i = Some x →
  splice a (VNum i) 1 = ([x], delete (Z.to_nat i) a).
Proof.
  intros Hi Hx. pose proof (lookup_lt_Some _ _ _ Hx) as Hlt.
  unfold splice. cbn [to_integer].
  destruct (Z.ltb_spec i 0); [lia|].
  replace (Z.min i (Z.of_nat (length a))) with i by lia.
  replace (Z.min (Z.max 1 0) (Z.of_nat (length a) - i)) with 1 by lia.
  f_equal.
  - change (Z.to_nat 1) with 1%nat.
    rewrite (drop_S _ _ _ Hx). by rewrite firstn_cons, take_0.
  - rewrite delete_take_drop. do 2 f_equal. lia.
Qed.

(** With [NaN] as its start, [splice] works from position 0. *)
Lemma splice_NaN x a : splice (x :: a) VNaN 1 = ([x], a).
Proof.
  unfold splice. cbn [to_integer length].
  change (0 <? 0) with false. cbn iota.
  replace (Z.min 0 (Z.of_nat (S (length a)))) with 0 by lia.
  replace (Z.min (Z.max 1 0) (Z.of_nat (S (length a)) - 0)) with 1 by lia.
  reflexivity.
Qed.

End ArrayFacts.

(** ** The store and the media host *)

Ltac monad :=
  unfold array_of, findOne, findById, save, all_users,
    run, try_catch, mbind, M_bind, bind, mret, M_ret, ret, throw in *.

Section StoreFacts.
Context `{Collaborators}.

(** The block around the media host never throws, whatever the host
    answers, and leaves the documents and the users alone. *)
Lemma destroy_quietly_returns folder v w :
  ∃ l, destroy_quietly folder v w = (Ok tt, with_destroyed l w).
Proof.
  unfold destroy_quietly, string_of, uploader_destroy. monad.
  destruct v; try (exists (destroyed w); by destruct w).
  destruct (destroy _); eauto.
  exists (destroyed w); by destruct w.
Qed.

(** When the host rejects every deletion, the block changes nothing. *)
Lemma destroy_quietly_rejected folder v w :
  (∀ p, ∃ e, destroy p = Throw e) →
  destroy_quietly folder v w = (Ok tt, w).
Proof.
  intros Hdown. unfold destroy_quietly, string_of, uploader_destroy. monad.
  destruct v; try done.
  by destruct (Hdown ("turismo-app/" ++ folder ++ "/"
                      ++ before_first "." (after_last "/" s))) as [e ->].
Qed.

(** The owner of an active document passes the filter of the image routes. *)
Lemma matches_own_and_active user d :
  get "propietario" d = VStr (id user) →
  get "activo" d = VBool true →
  matches (own_and_active user) d = true.
Proof.
  intros Hown Hact. unfold matches, own_and_active. cbn.
  rewrite Hown, Hact. cbn. by rewrite String.eqb_refl.
Qed.


End StoreFacts.

(** Opens an image route on a record its caller holds. *)
Ltac load Hh :=
  destruct Hh as (Hdoc & Hown & Hact & Himg);
  monad;
  rewrite Hdoc, (matches_own_and_active _ _ Hown Hact), ?Himg.

(** ** The image routes on a record the caller holds *)

Section ImageRoutes.
Context `{Collaborators}.
Variables (user : User) (rid : string) (w : World) (d : Obj).
Variables (a : list JSVal) (now : Z).
Hypothesis Hh : holds_images user rid w d a.

Lemma bounds_inside i x :
  0 ≤ i → a !! Z.to_nat i = Some x →
  negb (truthy (VArr a)) || strict_eq (length_of (VArr a)) (VNum 0) = false
  ∧ num_lt (VNum i) (VNum 0) || num_ge (VNum i) (length_of (VArr a)) = false.
Proof.
  intros Hi Hx. pose proof (lookup_lt_Some _ _ _ Hx) as Hlt.
  cbn [truthy length_of strict_eq negb orb num_lt num_ge].
  destruct (Z.eqb_spec (Z.of_nat (length a)) 0); [lia|].
  destruct (Z.ltb_spec i 0); [lia|].
  by destruct (Z.leb_spec (Z.of_nat (length a)) i); [lia|].
Qed.

Lemma bounds_outside i :
  i < 0 ∨ Z.of_nat (length a) ≤ i →
  negb (truthy (VArr a)) || strict_eq (length_of (VArr a)) (VNum 0) = true
  ∨ (negb (truthy (VArr a)) || strict_eq (length_of (VArr a)) (VNum 0) = false
     ∧ num_lt (VNum i) (VNum 0) || num_ge (VNum i) (length_of (VArr a)) = true).
Proof.
  intros Hi.
  cbn [truthy length_of strict_eq negb orb num_lt num_ge].
  destruct (Z.eqb_spec (Z.of_nat (length a)) 0); [by left|right; split; [done|]].
  destruct (Z.ltb_spec i 0); [done|].
  by destruct (Z.leb_spec (Z.of_nat (length a)) i); [|lia].
Qed.

(** *** Hotels *)

Lemma hotel_delete_inside s i x :
  parseInt (VStr s) = VNum i → 0 ≤ i → a !! Z.to_nat i = Some x →
  run (HotelRoutes.delete_image user rid s now) w =
  (json 200
     [("status", VStr "success");
      ("message", VStr "Imagen eliminada exitosamente");
      ("data", VObj
         [("totalImagenes", VNum (Z.of_nat (length (delete (Z.to_nat i) a))));
          ("imagenEliminada", VObj [("url", x); ("index", VNum i)])])],
   with_images rid d now (delete (Z.to_nat i) a) (destroy_quietly "hoteles" x w).2).
Proof.
  intros Hs Hi Hx. destruct (bounds_inside i x Hi Hx) as [E1 E2].
  destruct (destroy_quietly_returns "hoteles" x w) as [l Hl].
  unfold HotelRoutes.delete_image. load Hh.
  rewrite Hs, E1, E2. cbn [elem].
  rewrite (at_index_lookup _ _ _ Hi Hx), Hl. cbn beta iota.
  rewrite (splice_one _ _ _ Hi Hx). reflexivity.
Qed.

Lemma hotel_delete_outside s i :
  parseInt (VStr s) = VNum i → i < 0 ∨ Z.of_nat (length a) ≤ i →
  ∃ m, run (HotelRoutes.delete_image user rid s now) w
       = (json 404 (error_body m), w).
Proof.
  intros Hs Hi. unfold HotelRoutes.delete_image. load Hh. rewrite Hs.
  destruct (bounds_outside i Hi) as [->|[-> ->]]; eauto.
Qed.

Lemma hotel_set_main_zero v x a' :
  a = x :: a' → parseInt v = VNum 0 →
  run (HotelRoutes.set_main user rid v now) w =
  (json 200
     [("status", VStr "success");
      ("message", VStr "Esta imagen ya es la principal");
      ("data", VObj [("imagenPrincipal", x)])],
   w).
Proof.
  intros Ha Hv. unfold HotelRoutes.set_main. load Hh. rewrite Hv.
  destruct (bounds_inside 0 x) as [-> ->]; [lia|by rewrite Ha|].
  by rewrite Ha.
Qed.

Lemma hotel_set_main_inside v i x :
  parseInt v = VNum i → 0 < i → a !! Z.to_nat i = Some x →
  run (HotelRoutes.set_main user rid v now) w =
  (json 200
     [("status", VStr "success");
      ("message", VStr "Imagen principal actualizada exitosamente");
      ("data", VObj
         [("imagenPrincipal", x);
          ("totalImagenes",
           VNum (Z.of_nat (length (x :: delete (Z.to_nat i) a))))])],
   with_images rid d now (x :: delete (Z.to_nat i) a) w).
Proof.
  intros Hv Hi Hx. destruct (bounds_inside i x) as [E1 E2]; [lia|done|].
  unfold HotelRoutes.set_main. load Hh. rewrite Hv, E1, E2.
  cbn [strict_eq]. destruct (Z.eqb_spec i 0); [lia|].
  rewrite (splice_one _ _ _ (Z.lt_le_incl _ _ Hi) Hx). reflexivity.
Qed.

(** *** Cabins *)

Lemma cabana_delete_inside s i x :
  parseInt (VStr s) = VNum i → 0 ≤ i → a !! Z.to_nat i = Some x →
  run (CabanaRoutes.delete_image user rid s now) w =
  (json 200
     [("status", VStr "success");
      ("message", VStr "Imagen eliminada exitosamente");
      ("data", VObj
         [("totalImagenes", VNum (Z.of_nat (length (delete (Z.to_nat i) a))));
          ("imagenEliminada", VObj [("url", x); ("index", VNum i)])])],
   with_images rid d now (delete (Z.to_nat i) a) (destroy_quietly "cabanas" x w).2).
Proof.
  intros Hs Hi Hx. destruct (bounds_inside i x Hi Hx) as [E1 E2].
  destruct (destroy_quietly_returns "cabanas" x w) as [l Hl].
  unfold CabanaRoutes.delete_image. load Hh.
  rewrite Hs, E1, E2. cbn [elem].
  rewrite (at_index_lookup _ _ _ Hi Hx), Hl. cbn beta iota.
  rewrite (splice_one _ _ _ Hi Hx). reflexivity.
Qed.

Lemma cabana_delete_outside s i :
  parseInt (VStr s) = VNum i → i < 0 ∨ Z.of_nat (length a) ≤ i →
  ∃ m, run (CabanaRoutes.delete_image user rid s now) w
       = (json 404 (error_body m), w).
Proof.
  intros Hs Hi. unfold CabanaRoutes.delete_image. load Hh. rewrite Hs.
  destruct (bounds_outside i Hi) as [->|[-> ->]]; eauto.
Qed.

Lemma cabana_set_main_zero v x a' :
  a = x :: a' → parseInt v = VNum 0 →
  run (CabanaRoutes.set_main user rid v now) w =
  (json 200
     [("status", VStr "success");
      ("message", VStr "Esta imagen ya es la principal");
      ("data", VObj [("imagenPrincipal", x)])],
   w).
Proof.
  intros Ha Hv. unfold CabanaRoutes.set_main. load Hh. rewrite Hv.
  destruct (bounds_inside 0 x) as [-> ->]; [lia|by rewrite Ha|].
  by rewrite Ha.
Qed.

Lemma cabana_set_main_inside v i x :
  parseInt v = VNum i → 0 < i → a !! Z.to_nat i = Some x →
  run (CabanaRoutes.set_main user rid v now) w =
  (json 200
     [("status", VStr "success");
      ("message", VStr "Imagen principal actualizada exitosamente");
      ("data", VObj
         [("imagenPrincipal", x);
          ("totalImagenes",
           VNum (Z.of_nat (length (x :: delete (Z.to_nat i) a))))])],
   with_images rid d now (x :: delete (Z.to_nat i) a) w).
Proof.
  intros Hv Hi Hx. destruct (bounds_inside i x) as [E1 E2]; [lia|done|].
  unfold CabanaRoutes.set_main. load Hh. rewrite Hv, E1, E2.
  cbn [strict_eq elem]. destruct (Z.eqb_spec i 0); [lia|].
  rewrite (at_index_lookup _ _ _ (Z.lt_le_incl _ _ Hi) Hx).
  rewrite (splice_one _ _ _ (Z.lt_le_incl _ _ Hi) Hx). reflexivity.
Qed.

(** *** Rentals: the guard is the truth of [imagenes[index]] *)

Lemma airbnb_delete_inside s i x :
  parseInt (VStr s) = VNum i → 0 ≤ i → a !! Z.to_nat i = Some x →
  truthy x = true →
  run (AirbnbRoutes.delete_image user rid s now) w =
  (json 200
     [("status", VStr "success");
      ("message", VStr "Imagen eliminada exitosamente");
      ("data", VObj
         [("imagenesRestantes",
           VNum (Z.of_nat (length (delete (Z.to_nat i) a))));
          ("imagenEliminada", x)])],
   with_images rid d now (delete (Z.to_nat i) a) (destroy_quietly "airbnb" x w).2).
Proof.
  intros Hs Hi Hx Ht.
  destruct (destroy_quietly_returns "airbnb" x w) as [l Hl].
  unfold AirbnbRoutes.delete_image. load Hh.
  rewrite Hs. cbn [elem truthy negb orb].
  rewrite (at_index_lookup _ _ _ Hi Hx), Ht. cbn [negb].
  rewrite Hl. cbn beta iota.
  rewrite (splice_one _ _ _ Hi Hx). reflexivity.
Qed.

Lemma airbnb_delete_falsy s v :
  parseInt (VStr s) = v → truthy (elem (VArr a) v) = false →
  run (AirbnbRoutes.delete_image user rid s now) w
  = (json 404 (error_body "Imagen no encontrada"), w).
Proof.
  intros Hs Hf. unfold AirbnbRoutes.delete_image. load Hh.
  rewrite Hs, Hf. reflexivity.
Qed.

Lemma airbnb_set_main_zero v x a' :
  a = x :: a' → parseInt v = VNum 0 → truthy x = true →
  run (AirbnbRoutes.set_main user rid v now) w =
  (json 200
     [("status", VStr "success");
      ("message", VStr "Esta imagen ya es la principal");
      ("data", VObj
         [("nuevaImagenPrincipal", x);
          ("totalImagenes", VNum (Z.of_nat (length a)))])],
   w).
Proof.
  intros Ha Hv Ht. unfold AirbnbRoutes.set_main. load Hh. rewrite Hv, Ha.
  change (elem (VArr (x :: a')) (VNum 0)) with x. by rewrite Ht.
Qed.

Lemma airbnb_set_main_falsy v i :
  parseInt v = i → truthy (elem (VArr a) i) = false →
  run (AirbnbRoutes.set_main user rid v now) w
  = (json 404 (error_body "Imagen no encontrada"), w).
Proof.
  intros Hv Hf. unfold AirbnbRoutes.set_main. load Hh.
  rewrite Hv, Hf. reflexivity.
Qed.

Lemma airbnb_set_main_inside v i x :
  parseInt v = VNum i → 0 < i → a !! Z.to_nat i = Some x →
  truthy x = true →
  run (AirbnbRoutes.set_main user rid v now) w =
  (json 200
     [("status", VStr "success");
      ("message", VStr "Imagen principal establecida exitosamente");
      ("data", VObj
         [("nuevaImagenPrincipal", x);
          ("totalImagenes",
           VNum (Z.of_nat (length (x :: delete (Z.to_nat i) a))))])],
   with_images rid d now (x :: delete (Z.to_nat i) a) w).
Proof.
  intros Hv Hi Hx Ht.
  unfold AirbnbRoutes.set_main. load Hh. rewrite Hv.
  cbn [elem truthy negb orb strict_eq].
  rewrite (at_index_lookup _ _ _ (Z.lt_le_incl _ _ Hi) Hx), Ht.
  cbn [negb]. destruct (Z.eqb_spec i 0); [lia|].
  rewrite (splice_one _ _ _ (Z.lt_le_incl _ _ Hi) Hx). reflexivity.
Qed.

End ImageRoutes.

(** ** What the image routes leave behind *)

Section Outcomes.
Context `{Collaborators}.
Implicit Types (w : World) (d : Obj) (a : list JSVal).

(** A 404 that wrote nothing is a refusal. *)
Lemma refused_404 w m out :
  out = (json 404 (error_body m), w) → refused 404 w out.
Proof. by intros ->. Qed.

(** What was written does not depend on what the media host did. *)
Lemma stored_after_destroy rid d now a' w folder x b out :
  out = (json 200 (("status", VStr "success") :: b),
         with_images rid d now a' (destroy_quietly folder x w).2) →
  stored_images rid d now a' w out.
Proof.
  intros ->. destruct (destroy_quietly_returns folder x w) as [l ->].
  by repeat split.
Qed.

Lemma stored_directly rid d now a' w b out :
  out = (json 200 (("status", VStr "success") :: b),
         with_images rid d now a' w) →
  stored_images rid d now a' w out.
Proof. by intros ->. Qed.

(** The record an image route rewrote is still held by its owner, with
    the new list. *)
Lemma holds_images_stored user rid w d a now a' out :
  holds_images user rid w d a →
  stored_images rid d now a' w out →
  holds_images user rid out.2
    (set "updatedAt" (VDate now) (set "imagenes" (VArr a') d)) a'.
Proof.
  intros (Hdoc & Hown & Hact & Himg) (_ & _ & Hdocs & _).
  unfold holds_images. rewrite Hdocs. cbn [with_images with_docs docs].
  rewrite lookup_insert_eq.
  rewrite !(get_set_ne "updatedAt") by done.
  rewrite !(get_set_ne "imagenes") by done.
  by rewrite get_set_eq.
Qed.

Lemma lookup_with_images rid d now a' w :
  docs (with_images rid d now a' w) !! rid
  = Some (set "updatedAt" (VDate now) (set "imagenes" (VArr a') d)).
Proof. unfold with_images. cbn [docs with_docs]. apply lookup_insert_eq. Qed.

End Outcomes.

(** ** removeAt *)

(** removeAt by an integer index. It refuses with 404 and writes nothing
    when the image list is empty or the index is outside [0, len); inside
    these bounds the element at the index is removed, the later elements
    move one place down and the others stay where they were, so the list
    is one shorter (on the rental route: when the reference at the index
    is truthy). *)
Theorem removeAt_by_index `{Collaborators} user rid w d a now s i :
  holds_images user rid w d a →
  parseInt (VStr s) = VNum i →
  let hotel := run (HotelRoutes.delete_image user rid s now) w in
  let cabana := run (CabanaRoutes.delete_image user rid s now) w in
  let airbnb := run (AirbnbRoutes.delete_image user rid s now) w in
  let a' := delete (Z.to_nat i) a in
  (a = [] ∨ i < 0 ∨ Z.of_nat (length a) ≤ i →
     refused 404 w hotel ∧ refused 404 w cabana ∧ refused 404 w airbnb)
  ∧ (0 ≤ i < Z.of_nat (length a) →
     stored_images rid d now a' w hotel
     ∧ stored_images rid d now a' w cabana
     ∧ (truthy (at_index a (VNum i)) = true →
        stored_images rid d now a' w airbnb)
     ∧ length a' = (length a - 1)%nat
     ∧ (∀ j, (j < Z.to_nat i)%nat → a' !! j = a !! j)
     ∧ (∀ j, (Z.to_nat i ≤ j)%nat → a' !! j = a !! S j)).
Proof.
  intros Hh Hs. cbv zeta. split.
  - intros Hbad.
    assert (i < 0 ∨ Z.of_nat (length a) ≤ i) as Hout.
    { destruct Hbad as [->|Hbad]; [simpl; lia|done]. }
    destruct (hotel_delete_outside _ _ _ _ _ now Hh s i Hs Hout) as [m1 E1].
    destruct (cabana_delete_outside _ _ _ _ _ now Hh s i Hs Hout) as [m2 E2].
    refine (conj _ (conj _ _)); eapply refused_404; eauto.
    eapply airbnb_delete_falsy; eauto.
    cbn [elem]. by rewrite at_index_outside.
  - intros [Hi Hlt].
    destruct (lookup_lt_is_Some_2 a (Z.to_nat i)) as [x Hx]; [lia|].
    refine (conj _ (conj _ (conj _ (conj _ (conj _ _))))).
    + eapply stored_after_destroy, hotel_delete_inside; eauto.
    + eapply stored_after_destroy, cabana_delete_inside; eauto.
    + rewrite (at_index_lookup _ _ _ Hi Hx). intros Ht.
      eapply stored_after_destroy, airbnb_delete_inside; eauto.
    + apply length_delete; eauto.
    + intros j Hj. by apply list_lookup_delete_lt.
    + intros j Hj. by apply list_lookup_delete_ge.
Qed.

(** The rental route takes the reference itself for its guard: index 0
    is inside the bounds of a two-image list, and the route refuses
    because the reference stored there is the empty string. *)
Lemma removeAt_refuses_empty_reference :
  let a := [VStr ""; VStr "b.jpg"] in
  holds_images Sample.ana Sample.casa (Sample.world a) (Sample.listing a) a
  ∧ parseInt (VStr "0") = VNum 0
  ∧ 0 ≤ 0 < Z.of_nat (length a)
  ∧ run (@AirbnbRoutes.delete_image Sample.offline
           Sample.ana Sample.casa "0" 1700000000000) (Sample.world a)
    = (json 404 (error_body "Imagen no encontrada"), Sample.world a).
Proof. cbv zeta. repeat split; try done; vm_compute; reflexivity. Qed.

(** On sample data: removing index 1 of three images. *)
Lemma removeAt_by_index_witness :
  stored_images Sample.casa (Sample.listing Sample.abc) 1700000000000
    [VStr "a.jpg"; VStr "c.jpg"] (Sample.world Sample.abc)
    (run (@HotelRoutes.delete_image Sample.offline
            Sample.ana Sample.casa "1" 1700000000000)
       (Sample.world Sample.abc)).
Proof.
  assert (holds_images Sample.ana Sample.casa (Sample.world Sample.abc)
            (Sample.listing Sample.abc) Sample.abc) as Hh.
  { repeat split; vm_compute; reflexivity. }
  assert (parseInt (VStr "1") = VNum 1) as Hs by reflexivity.
  destruct (@removeAt_by_index Sample.offline _ _ _ _ _ 1700000000000 _ _ Hh Hs)
    as [_ Hin].
  destruct Hin as (Hhotel & _); [simpl; lia|].
  exact Hhotel.
Defined.

(** ** setPrimary *)

(** C5. For an index above 0 and within bounds, [setPrimary] takes the
    element at the index out and puts it back in front; the others keep
    their order. From [p; q; r], [setPrimary(2)] leaves [r; p; q], and
    [removeAt(1)] after it leaves [r; q]. (Hotel and cabin routes.) *)
Theorem setPrimary_moves_to_front `{Collaborators} user rid w d a now v i x :
  holds_images user rid w d a →
  parseInt v = VNum i → 0 < i → a !! Z.to_nat i = Some x →
  let a' := x :: delete (Z.to_nat i) a in
  let d' := set "updatedAt" (VDate now) (set "imagenes" (VArr a') d) in
  let hotel := run (HotelRoutes.set_main user rid v now) w in
  let cabana := run (CabanaRoutes.set_main user rid v now) w in
  (stored_images rid d now a' w hotel
   ∧ get_path ["data"; "imagenPrincipal"] (VObj (body hotel.1)) = x)
  ∧ (stored_images rid d now a' w cabana
     ∧ get_path ["data"; "imagenPrincipal"] (VObj (body cabana.1)) = x)
  ∧ (a' !! 0%nat = Some x
     ∧ (∀ j, (j < Z.to_nat i)%nat → a' !! S j = a !! j)
     ∧ (∀ j, (Z.to_nat i ≤ j)%nat → a' !! S j = a !! S j))
  ∧ (∀ p q r now', a = [p; q; r] → i = 2 →
       a' = [r; p; q]
       ∧ stored_images rid d' now' [r; q] hotel.2
           (run (HotelRoutes.delete_image user rid "1" now') hotel.2)
       ∧ stored_images rid d' now' [r; q] cabana.2
           (run (CabanaRoutes.delete_image user rid "1" now') cabana.2)).
Proof.
  intros Hh Hv Hi Hx. cbv zeta.
  pose proof (hotel_set_main_inside _ _ _ _ _ now Hh v i x Hv Hi Hx) as Eh.
  pose proof (cabana_set_main_inside _ _ _ _ _ now Hh v i x Hv Hi Hx) as Ec.
  assert (stored_images rid d now (x :: delete (Z.to_nat i) a) w
            (run (HotelRoutes.set_main user rid v now) w)) as Sh
    by (eapply stored_directly; eauto).
  assert (stored_images rid d now (x :: delete (Z.to_nat i) a) w
            (run (CabanaRoutes.set_main user rid v now) w)) as Sc
    by (eapply stored_directly; eauto).
  refine (conj (conj Sh _) (conj (conj Sc _) (conj _ _))).
  - by rewrite Eh.
  - by rewrite Ec.
  - refine (conj eq_refl (conj _ _)); intros j Hj; cbn [lookup list_lookup].
    + by apply list_lookup_delete_lt.
    + by apply list_lookup_delete_ge.
  - intros p q r now' -> ->. cbn in Hx. injection Hx as <-.
    pose proof (holds_images_stored _ _ _ _ _ _ _ _ Hh Sh) as Hh'.
    pose proof (holds_images_stored _ _ _ _ _ _ _ _ Hh Sc) as Hc'.
    refine (conj eq_refl (conj _ _)).
    + eapply stored_after_destroy.
      by apply (hotel_delete_inside _ _ _ _ _ now' Hh' "1" 1 p).
    + eapply stored_after_destroy.
      by apply (cabana_delete_inside _ _ _ _ _ now' Hc' "1" 1 p).
Qed.

(** C5, on sample data: promoting the third of three images. *)
Lemma setPrimary_moves_to_front_witness :
  stored_images Sample.casa (Sample.listing Sample.abc) 1700000000000
    [VStr "c.jpg"; VStr "a.jpg"; VStr "b.jpg"] (Sample.world Sample.abc)
    (run (@HotelRoutes.set_main Sample.offline
            Sample.ana Sample.casa (VNum 2) 1700000000000)
       (Sample.world Sample.abc)).
Proof.
  assert (holds_images Sample.ana Sample.casa (Sample.world Sample.abc)
            (Sample.listing Sample.abc) Sample.abc) as Hh.
  { repeat split; vm_compute; reflexivity. }
  destruct (@setPrimary_moves_to_front Sample.offline _ _ _ _ _
              1700000000000 (VNum 2) 2 (VStr "c.jpg") Hh eq_refl)
    as [[Hhotel _] _]; [lia|reflexivity|].
  exact Hhotel.
Defined.

(** setPrimary at position 0. On a record with a non-empty image list
    it writes nothing and answers success with the current primary,
    [images[0]]: on the hotel and cabin routes always, on the rental route
    when [images[0]] is truthy. The world is the same afterwards, so
    asking again gives the same answer. *)
Theorem setPrimary_zero `{Collaborators} user rid w d x a' now v :
  holds_images user rid w d (x :: a') →
  parseInt v = VNum 0 →
  let hotel := run (HotelRoutes.set_main user rid v now) w in
  let cabana := run (CabanaRoutes.set_main user rid v now) w in
  let airbnb := run (AirbnbRoutes.set_main user rid v now) w in
  (code hotel.1 = 200 ∧ hotel.2 = w
   ∧ get_path ["data"; "imagenPrincipal"] (VObj (body hotel.1)) = x)
  ∧ (code cabana.1 = 200 ∧ cabana.2 = w
     ∧ get_path ["data"; "imagenPrincipal"] (VObj (body cabana.1)) = x)
  ∧ (truthy x = true →
     code airbnb.1 = 200 ∧ airbnb.2 = w
     ∧ get_path ["data"; "nuevaImagenPrincipal"] (VObj (body airbnb.1)) = x).
Proof.
  intros Hh Hv. cbv zeta.
  rewrite (hotel_set_main_zero _ _ _ _ _ now Hh v x a' eq_refl Hv).
  rewrite (cabana_set_main_zero _ _ _ _ _ now Hh v x a' eq_refl Hv).
  refine (conj _ (conj _ _)); [done..|].
  intros Ht.
  by rewrite (airbnb_set_main_zero _ _ _ _ _ now Hh v x a' eq_refl Hv Ht).
Qed.

(** C6. The rental route departs from the claim: on the non-empty list
    ["", "b.jpg"], [setPrimary(0)] is refused with 404, because the guard
    [!alojamiento.imagenes[index]] takes the empty first reference for a
    missing one; the hotel and cabin routes, at the same request on the
    same record, answer success with the primary and write nothing. *)
Lemma setPrimary_zero_refuses_empty_reference :
  let a := [VStr ""; VStr "b.jpg"] in
  let w := Sample.world a in
  let hotel :=
    run (@HotelRoutes.set_main Sample.offline
           Sample.ana Sample.casa (VNum 0) 1700000000000) w in
  let cabana :=
    run (@CabanaRoutes.set_main Sample.offline
           Sample.ana Sample.casa (VNum 0) 1700000000000) w in
  let airbnb :=
    run (@AirbnbRoutes.set_main Sample.offline
           Sample.ana Sample.casa (VNum 0) 1700000000000) w in
  holds_images Sample.ana Sample.casa w (Sample.listing a) a
  ∧ a ≠ []
  ∧ airbnb = (json 404 (error_body "Imagen no encontrada"), w)
  ∧ (code hotel.1 = 200 ∧ hotel.2 = w
     ∧ get_path ["data"; "imagenPrincipal"] (VObj (body hotel.1)) = VStr "")
  ∧ (code cabana.1 = 200 ∧ cabana.2 = w
     ∧ get_path ["data"; "imagenPrincipal"] (VObj (body cabana.1))
       = VStr "").
Proof. cbv zeta. repeat split; try done; vm_compute; reflexivity. Qed.

(** On sample data. *)
Lemma setPrimary_zero_witness :
  let out :=
    run (@HotelRoutes.set_main Sample.offline
           Sample.ana Sample.casa (VStr "0") 1700000000000)
      (Sample.world Sample.abc) in
  code out.1 = 200 ∧ out.2 = Sample.world Sample.abc
  ∧ get_path ["data"; "imagenPrincipal"] (VObj (body out.1)) = VStr "a.jpg".
Proof.
  assert (holds_images Sample.ana Sample.casa (Sample.world Sample.abc)
            (Sample.listing Sample.abc) Sample.abc) as Hh.
  { repeat split; vm_compute; reflexivity. }
  exact (proj1 (@setPrimary_zero Sample.offline _ _ _ _ _ _
                  1700000000000 (VStr "0") Hh eq_refl)).
Defined.

(** ** The media host *)

(** C7. When the media host rejects the deletion, a valid [removeAt] still
    answers success and persists the record without the element; nothing
    else in the world changes. (Hotel and cabin routes; the rental route
    too, on a truthy reference.) *)
Theorem removeAt_survives_media_failure `{Collaborators}
    user rid w d a now s i x :
  holds_images user rid w d a →
  parseInt (VStr s) = VNum i → 0 ≤ i → a !! Z.to_nat i = Some x →
  (∀ p, ∃ e, destroy p = Throw e) →
  let a' := delete (Z.to_nat i) a in
  let d' := set "updatedAt" (VDate now) (set "imagenes" (VArr a') d) in
  let hotel := run (HotelRoutes.delete_image user rid s now) w in
  let cabana := run (CabanaRoutes.delete_image user rid s now) w in
  let airbnb := run (AirbnbRoutes.delete_image user rid s now) w in
  (code hotel.1 = 200 ∧ get "status" (body hotel.1) = VStr "success"
   ∧ hotel.2 = with_images rid d now a' w
   ∧ docs hotel.2 !! rid = Some d' ∧ get "imagenes" d' = VArr a')
  ∧ (code cabana.1 = 200 ∧ get "status" (body cabana.1) = VStr "success"
     ∧ cabana.2 = with_images rid d now a' w
     ∧ docs cabana.2 !! rid = Some d')
  ∧ (truthy x = true →
     code airbnb.1 = 200 ∧ get "status" (body airbnb.1) = VStr "success"
     ∧ airbnb.2 = with_images rid d now a' w
     ∧ docs airbnb.2 !! rid = Some d').
Proof.
  intros Hh Hs Hi Hx Hdown. cbv zeta.
  rewrite (hotel_delete_inside _ _ _ _ _ now Hh s i x Hs Hi Hx).
  rewrite (cabana_delete_inside _ _ _ _ _ now Hh s i x Hs Hi Hx).
  rewrite !destroy_quietly_rejected by done.
  cbn [fst snd code body json]. rewrite !lookup_with_images.
  rewrite get_set_ne, get_set_eq by done.
  refine (conj _ (conj _ _)); [done..|].
  intros Ht.
  rewrite (airbnb_delete_inside _ _ _ _ _ now Hh s i x Hs Hi Hx Ht).
  rewrite destroy_quietly_rejected by done.
  cbn [fst snd code body json]. by rewrite lookup_with_images.
Qed.

(** C7, on sample data: the media host is unreachable. *)
Lemma removeAt_survives_media_failure_witness :
  (run (@HotelRoutes.delete_image Sample.offline
          Sample.ana Sample.casa "2" 1700000000000)
     (Sample.world Sample.abc)).2
  = with_images Sample.casa (Sample.listing Sample.abc) 1700000000000
      [VStr "a.jpg"; VStr "b.jpg"] (Sample.world Sample.abc).
Proof.
  assert (holds_images Sample.ana Sample.casa (Sample.world Sample.abc)
            (Sample.listing Sample.abc) Sample.abc) as Hh.
  { repeat split; vm_compute; reflexivity. }
  assert (∀ p, ∃ e, @destroy Sample.offline p = Throw e) as Hdown.
  { intros p. by exists "connect ECONNREFUSED". }
  destruct (@removeAt_survives_media_failure Sample.offline _ _ _ _ _
              1700000000000 "2" 2 (VStr "c.jpg") Hh eq_refl)
    as [(_ & _ & Hw & _) _]; [lia|reflexivity|exact Hdown|].
  exact Hw.
Defined.

(** ** Who may touch the images *)





(** ** The toggle routes *)

Section Toggle.
Context `{Collaborators}.

(** Without the privilege, a toggle route answers 403 before it looks
    at the store. *)
Lemma toggle_denied r user i now w :
  toggle_test r user = false →
  run (toggle_status r user i now) w
  = (json 403 (error_body no_permission_toggle), w).
Proof.
  intros Hno. destruct r; cbn [toggle_status toggle_test] in *;
    [unfold HotelRoutes.toggle_status
    |unfold CabanaRoutes.toggle_status
    |unfold AirbnbRoutes.toggle_status];
    monad; by rewrite Hno.
Qed.

(** With it, the route flips [activo] and stamps the record. *)
Lemma toggle_flips r user i now w d :
  toggle_test r user = true →
  docs w !! i = Some d →
  let activo := VBool (negb (truthy (get "activo" d))) in
  let d' := set "ultimaModificacion" (toggle_stamp user now activo)
              (set "activo" activo d) in
  ∃ b, run (toggle_status r user i now) w
       = (json 200 (("status", VStr "success") :: b),
          with_docs (<[i := d']> (docs w)) w).
Proof.
  intros Hyes Hdoc. cbv zeta.
  destruct r; cbn [toggle_status toggle_test] in *;
    [unfold HotelRoutes.toggle_status
    |unfold CabanaRoutes.toggle_status
    |unfold AirbnbRoutes.toggle_status];
    monad; rewrite Hyes; cbn [negb]; rewrite Hdoc;
    rewrite !get_set_eq; eauto.
Qed.

End Toggle.

(** ** The ownership guard of the controller *)

Section Guard.
Context `{Collaborators}.

Lemma denied_owner user d w :
  get "propietario" d = VStr (id user) →
  AirbnbController.denied user d w = (Ok false, w).
Proof.
  intros Hown. unfold AirbnbController.denied, toString.
  destruct (AirbnbController.is_super user); [done|].
  cbn [negb]. monad. rewrite Hown. by rewrite String.eqb_refl.
Qed.

Lemma denied_super user d w :
  AirbnbController.is_super user = true →
  AirbnbController.denied user d w = (Ok false, w).
Proof. intros Hs. unfold AirbnbController.denied. by rewrite Hs. Qed.

(** The guard lets through the owner and the super-administrators, and
    nobody else. *)
Lemma denied_false user d w w' :
  AirbnbController.denied user d w = (Ok false, w') →
  w' = w
  ∧ (AirbnbController.is_super user = true
     ∨ get "propietario" d = VStr (id user)).
Proof.
  unfold AirbnbController.denied, toString.
  destruct (AirbnbController.is_super user); [intros [= <-]; eauto|].
  cbn [negb]. monad.
  destruct (get "propietario" d); try discriminate.
  destruct (String.eqb_spec s (id user)) as [->|]; [|discriminate].
  intros [= <-]; eauto.
Qed.

End Guard.

(** ** Keys of objects, and what an update assigns *)

Section KeyFacts.
Implicit Types (k : string) (v : JSVal) (o u d : Obj).

Lemma keys_cons k v o : keys ((k, v) :: o) = k :: keys o.
Proof. reflexivity. Qed.

Lemma get_absent k o : k ∉ keys o → get k o = VUndef.
Proof.
  induction o as [|[k' v'] o IH]; [done|].
  rewrite keys_cons. intros [Hne Hk]%not_elem_of_cons. cbn [get].
  destruct (String.eqb_spec k k'); [done|auto].
Qed.

Lemma keys_set k v o :
  keys (set k v o) = if has k o then keys o else (keys o ++ [k])%list.
Proof.
  unfold has. induction o as [|[k' v'] o IH]; [done|].
  cbn [set]. destruct (String.eqb_spec k k') as [->|Hne].
  - rewrite !keys_cons.
    rewrite bool_decide_eq_true_2; [done|]. apply list_elem_of_here.
  - rewrite !keys_cons, IH. case_bool_decide as E.
    + rewrite bool_decide_eq_true_2; [done|]. by apply list_elem_of_further.
    + rewrite bool_decide_eq_false_2; [done|].
      intros [?|?]%elem_of_cons; done.
Qed.

Lemma elem_of_keys_set k k' v o :
  k' ∈ keys (set k v o) ↔ k' = k ∨ k' ∈ keys o.
Proof.
  rewrite keys_set. unfold has. case_bool_decide as E.
  - split; [auto|]. by intros [->|?].
  - rewrite elem_of_app, list_elem_of_singleton. tauto.
Qed.

Lemma NoDup_keys_set k v o : NoDup (keys o) → NoDup (keys (set k v o)).
Proof.
  intros Hnd. rewrite keys_set. unfold has. case_bool_decide as E; [done|].
  apply NoDup_app. split; [done|]. split; [|apply NoDup_singleton].
  intros x Hx ->%list_elem_of_singleton. done.
Qed.

Lemma elem_of_keys_del k k' o :
  k' ≠ k → (k' ∈ keys (del k o) ↔ k' ∈ keys o).
Proof.
  intros Hne. induction o as [|[k0 v0] o IH]; [done|].
  cbn [del]. destruct (String.eqb_spec k k0) as [->|Hk].
  - rewrite keys_cons, elem_of_cons. tauto.
  - rewrite !keys_cons, !elem_of_cons, IH. done.
Qed.

Lemma keys_del_subseteq k o : keys (del k o) ⊆ keys o.
Proof.
  induction o as [|[k0 v0] o IH]; [done|].
  cbn [del]. destruct (String.eqb k k0); rewrite ?keys_cons.
  - by apply list_subseteq_cons.
  - intros x [->|Hx]%elem_of_cons; [apply list_elem_of_here|].
    apply list_elem_of_further. by apply IH.
Qed.

Lemma NoDup_keys_del k o : NoDup (keys o) → NoDup (keys (del k o)).
Proof.
  induction o as [|[k0 v0] o IH]; [done|].
  rewrite keys_cons. intros [Hk0 Hnd]%NoDup_cons.
  cbn [del]. destruct (String.eqb k k0); [done|].
  rewrite keys_cons. apply NoDup_cons. split; [|auto].
  intros Hin. apply Hk0. by apply (keys_del_subseteq k o).
Qed.

(** A path the update does not name keeps its value. *)
Lemma assign_cons k v u d : assign ((k, v) :: u) d = assign u (set k v d).
Proof. reflexivity. Qed.

Lemma get_assign_absent k u d : k ∉ keys u → get k (assign u d) = get k d.
Proof.
  revert d. induction u as [|[k0 v0] u IH]; intros d; [done|].
  rewrite keys_cons, assign_cons. intros [Hne Hk]%not_elem_of_cons.
  rewrite IH by done. by apply get_set_ne.
Qed.

(** A path the update names takes the value the update gives it. *)
Lemma get_assign_present k u d :
  NoDup (keys u) → k ∈ keys u → get k (assign u d) = get k u.
Proof.
  revert d. induction u as [|[k0 v0] u IH]; intros d.
  - by intros _ ?%elem_of_nil.
  - rewrite keys_cons, assign_cons. intros [Hk0 Hnd]%NoDup_cons Hk.
    cbn [get]. destruct (String.eqb_spec k k0) as [->|Hne].
    + rewrite (get_assign_absent k0 u) by done. apply get_set_eq.
    + apply elem_of_cons in Hk as [?|Hk]; [done|]. by apply IH.
Qed.

End KeyFacts.

(** ** updateAirbnb *)

Section Update.
Context `{Collaborators}.
Implicit Types (k : string) (o body : Obj).

Lemma parse_field_keys o field : NoDup (keys o) →
  NoDup (keys (AirbnbController.parse_field o field))
  ∧ (∀ k, k ∈ keys (AirbnbController.parse_field o field) ↔ k ∈ keys o)
  ∧ (∀ k, k ≠ field →
       get k (AirbnbController.parse_field o field) = get k o).
Proof.
  intros Hnd. unfold AirbnbController.parse_field.
  destruct (get field o) eqn:Eg; try done.
  destruct (truthy (VStr s)); [|done].
  destruct (JSON_parse s); [|done].
  refine (conj (NoDup_keys_set _ _ _ Hnd) (conj _ _)).
  - intros k. rewrite elem_of_keys_set. split; [|auto].
    intros [->|?]; [|done].
    destruct (decide (field ∈ keys o)) as [?|Hno]; [done|].
    by rewrite (get_absent _ _ Hno) in Eg.
  - intros k Hne. by apply get_set_ne.
Qed.

Lemma parse_fields_keys fields o : NoDup (keys o) →
  NoDup (keys (foldl AirbnbController.parse_field o fields))
  ∧ (∀ k, k ∈ keys (foldl AirbnbController.parse_field o fields) ↔ k ∈ keys o)
  ∧ (∀ k, k ∉ fields →
       get k (foldl AirbnbController.parse_field o fields) = get k o).
Proof.
  revert o. induction fields as [|f fields IH]; intros o Hnd; simpl; [done|].
  destruct (parse_field_keys o f Hnd) as (Hnd' & Hk & Hg).
  destruct (IH _ Hnd') as (Hnd'' & Hk' & Hg').
  refine (conj Hnd'' (conj _ _)).
  - intros k. by rewrite Hk', Hk.
  - intros k [Hne Hnot]%not_elem_of_cons. rewrite Hg' by done. by apply Hg.
Qed.

(** What the controller hands to the store has each key once, and, off
    the reserved keys, names what the body names with the same values. *)
Lemma updateData_of_keys user body now :
  NoDup (keys body) →
  NoDup (keys (AirbnbController.updateData_of user body now))
  ∧ (∀ k, ¬ reserved k →
       (k ∈ keys (AirbnbController.updateData_of user body now)
        ↔ k ∈ keys body)
       ∧ get k (AirbnbController.updateData_of user body now) = get k body).
Proof.
  intros Hnd. unfold AirbnbController.updateData_of.
  set (o1 := if truthy (get "precio" body) then _ else body).
  assert (NoDup (keys o1)
          ∧ ∀ k, ¬ reserved k →
              (k ∈ keys o1 ↔ k ∈ keys body) ∧ get k o1 = get k body)
    as [Hnd1 H1].
  { subst o1. destruct (truthy (get "precio" body)); [|done].
    split; [by apply NoDup_keys_del, NoDup_keys_set|].
    intros k Hk. unfold reserved in Hk.
    assert (k ≠ "precio" ∧ k ≠ "precioPorNoche") as [? ?] by tauto.
    rewrite elem_of_keys_del, elem_of_keys_set by done.
    rewrite get_del_ne, get_set_ne by done. intuition congruence. }
  destruct (parse_fields_keys AirbnbController.fieldsToParseAsJSON o1 Hnd1)
    as (Hnd2 & Hk2 & Hg2).
  split; [by apply NoDup_keys_set|].
  intros k Hk. destruct (H1 k Hk) as [Hk1 Hg1].
  assert (k ≠ "ultimaModificacion"
          ∧ k ∉ AirbnbController.fieldsToParseAsJSON) as [? ?]
    by (unfold reserved in Hk; tauto).
  rewrite elem_of_keys_set, Hk2, Hk1.
  rewrite get_set_ne by done. rewrite Hg2, Hg1 by done. intuition congruence.
Qed.

Lemma propietario_not_reserved : ¬ reserved "propietario".
Proof.
  unfold reserved, AirbnbController.fieldsToParseAsJSON.
  rewrite !elem_of_cons, elem_of_nil. intuition discriminate.
Qed.

(** The update of a caller the guard lets through, accepted by the
    validators: the answer, and the world it leaves. *)
Lemma updateAirbnb_accepted user i body now w d :
  docs w !! i = Some d →
  AirbnbController.denied user d w = (Ok false, w) →
  validate (AirbnbController.updateData_of user body now) = None →
  ∃ b, run (AirbnbController.updateAirbnb user i body now) w
       = (json 200 (("status", VStr "success") :: b),
          with_docs
            (<[i := assign (AirbnbController.updateData_of user body now) d]>
               (docs w)) w).
Proof.
  intros Hdoc Hok Hval. unfold AirbnbController.updateAirbnb.
  unfold findByIdAndUpdate. monad. rewrite Hdoc, Hok. cbn beta iota.
  rewrite Hdoc, Hval. eauto.
Qed.

(** An update answers 200 only on this path. *)
Lemma updateAirbnb_200 user i body now w d :
  docs w !! i = Some d →
  code (run (AirbnbController.updateAirbnb user i body now) w).1 = 200 →
  AirbnbController.denied user d w = (Ok false, w)
  ∧ validate (AirbnbController.updateData_of user body now) = None.
Proof.
  intros Hdoc. unfold AirbnbController.updateAirbnb, findByIdAndUpdate.
  monad. rewrite Hdoc.
  destruct (AirbnbController.denied user d w) as [[[]|e] w'] eqn:Ed;
    cbn; try discriminate.
  destruct (denied_false _ _ _ _ Ed) as [-> _].
  rewrite Hdoc.
  destruct (validate _); cbn; [discriminate|done].
Qed.

End Update.

(** ** toggleActive *)

(** C3. A toggle route answers 403 to every caller who is not elevated,
    whoever that is and the owner of the record included, and writes
    nothing, while the update of the same record by that owner answers
    200 (when the validators accept the data); for an elevated caller the
    route flips [activo], stamps the record with who, when, what and why
    (the [accion] names the state reached), and leaves its other paths,
    the other records and the users as they were. *)
Theorem toggleActive_elevated_only `{Collaborators}
    owner admin i w d patch now :
  docs w !! i = Some d →
  get "propietario" d = VStr (id owner) →
  (∀ r caller, toggle_test r caller = false →
        refused 403 w (run (toggle_status r caller i now) w))
  ∧ (∀ r, toggle_test r owner = false →
        refused 403 w (run (toggle_status r owner i now) w))
  ∧ (validate (AirbnbController.updateData_of owner patch now) = None →
     let out := run (AirbnbController.updateAirbnb owner i patch now) w in
     code out.1 = 200
     ∧ docs out.2 !! i
       = Some (assign (AirbnbController.updateData_of owner patch now) d))
  ∧ (∀ r, toggle_test r admin = true →
        let out := run (toggle_status r admin i now) w in
        let flipped := negb (truthy (get "activo" d)) in
        code out.1 = 200
        ∧ ∃ d', out.2 = with_docs (<[i := d']> (docs w)) w
             ∧ get "activo" d' = VBool flipped
             ∧ get "ultimaModificacion" d'
               = VObj [("usuario", VStr (id admin));
                       ("fecha", VDate now);
                       ("accion",
                        VStr (if flipped then "activado" else "bloqueado"));
                       ("motivo",
                        VStr "Cambio de estado por super administrador")]
             ∧ ∀ k, k ≠ "activo" → k ≠ "ultimaModificacion" →
                    get k d' = get k d).
Proof.
  intros Hdoc Hown.
  assert (∀ r caller, toggle_test r caller = false →
            refused 403 w (run (toggle_status r caller i now) w)) as Hno.
  { intros r caller Hno. rewrite (toggle_denied r caller i now w Hno).
    by repeat split. }
  refine (conj Hno (conj (λ r, Hno r owner) (conj _ _))).
  - intros Hval. cbv zeta.
    destruct (updateAirbnb_accepted owner i patch now w d Hdoc
                (denied_owner _ _ _ Hown) Hval) as [b ->].
    split; [done|]. cbn [snd docs with_docs]. apply lookup_insert_eq.
  - intros r Hyes. cbv zeta.
    destruct (toggle_flips r admin i now w d Hyes Hdoc) as [b ->].
    split; [done|]. eexists. cbn [snd].
    split; [reflexivity|].
    rewrite get_set_eq. rewrite get_set_ne, get_set_eq by done.
    refine (conj eq_refl (conj _ _)).
    + unfold toggle_stamp. cbn [truthy]. reflexivity.
    + intros k Hk1 Hk2. by rewrite !get_set_ne.
Qed.

(** C3, on sample data: [ana] may update her listing and may not toggle
    it, and neither may [luis], who does not own it. *)
Lemma toggleActive_elevated_only_witness :
  let w := Sample.world Sample.abc in
  refused 403 w
    (run (toggle_status Airbnb
            Sample.ana Sample.casa 1700000000000) w)
  ∧ refused 403 w
      (run (toggle_status Hotel
              Sample.luis Sample.casa 1700000000000) w)
  ∧ code (run (@AirbnbController.updateAirbnb Sample.offline
                 Sample.ana Sample.casa [("nombre", VStr "Casa Azul")]
                 1700000000000) w).1 = 200.
Proof.
  cbv zeta.
  assert (docs (Sample.world Sample.abc) !! Sample.casa
          = Some (Sample.listing Sample.abc)) as Hdoc
    by (vm_compute; reflexivity).
  destruct (@toggleActive_elevated_only Sample.offline
              Sample.ana Sample.direccion _ _ _
              [("nombre", VStr "Casa Azul")] 1700000000000 Hdoc eq_refl)
    as (Hany & Hno & Hup & _).
  refine (conj _ (conj _ _)).
  - apply (Hno Airbnb). reflexivity.
  - apply (Hany Hotel Sample.luis). reflexivity.
  - apply Hup. reflexivity.
Defined.

(** ** The owner under update *)

(** C1, as amended. [createAirbnb] sets the owner to its caller, whatever
    the body says: for every caller, body and store it either answers 400
    and stores nothing (the validators reject the data) or answers 201
    and stores the record with the caller as owner. A successful
    [updateAirbnb] with a body made of field names leaves the owner as it
    was when the body has no [propietario] field; when the body has one,
    the owner becomes what the body says: nothing takes the field out of
    the data handed to the store. *)
Theorem update_owner `{Collaborators} :
  (∀ creator body fresh w,
     let made := run (AirbnbController.createAirbnb creator body fresh) w in
     (code made.1 = 400 ∧ made.2 = w)
     ∨ (code made.1 = 201
        ∧ ∃ d0, docs made.2 !! fresh = Some d0
                ∧ get "propietario" d0 = VStr (id creator)))
  ∧ (∀ user i w d patch now,
       docs w !! i = Some d →
       NoDup (keys patch) →
       field_names patch →
       let out := run (AirbnbController.updateAirbnb user i patch now) w in
       code out.1 = 200 →
       ∃ d', docs out.2 !! i = Some d'
             ∧ get "propietario" d'
               = if has "propietario" patch
                 then get "propietario" patch
                 else get "propietario" d).
Proof.
  split.
  - intros creator body fresh w made. subst made.
    unfold AirbnbController.createAirbnb, create. monad.
    destruct (validate (set "propietario" (VStr (id creator)) body));
      cbn; [by left|right].
    split; [done|].
    eexists. refine (conj (lookup_insert_eq _ _ _) _).
    unfold schema_defaults.
    destruct (has "activo" (set "propietario" (VStr (id creator)) body));
      [apply get_set_eq|].
    rewrite get_set_ne by done. apply get_set_eq.
  - intros user i w d patch now Hdoc Hnd _ out H200. subst out.
    destruct (updateAirbnb_200 user i patch now w d Hdoc H200) as [Hok Hval].
    destruct (updateAirbnb_accepted user i patch now w d Hdoc Hok Hval)
      as [b ->].
    destruct (updateData_of_keys user patch now Hnd) as [Hnd' Hkeys].
    destruct (Hkeys "propietario" propietario_not_reserved) as [Hin Hget].
    eexists. cbn [snd docs with_docs]. split; [apply lookup_insert_eq|].
    unfold has. case_bool_decide as E.
    + rewrite get_assign_present, Hget; [done..|]. by apply Hin.
    + rewrite get_assign_absent; [done|]. by rewrite Hin.
Qed.

(** C1, the claim as stated fails: [ana] updates her own listing with a
    patch that names [luis] as [propietario]; the update answers 200 and
    the stored owner is [luis]. *)
Lemma update_reassigns_owner :
  let w := Sample.world Sample.abc in
  let out :=
    run (@AirbnbController.updateAirbnb Sample.offline Sample.ana Sample.casa
           [("propietario", VStr (id Sample.luis))] 1700000000000) w in
  (get "propietario" <$> docs w !! Sample.casa) = Some (VStr (id Sample.ana))
  ∧ code out.1 = 200
  ∧ (get "propietario" <$> docs out.2 !! Sample.casa)
    = Some (VStr (id Sample.luis))
  ∧ id Sample.luis ≠ id Sample.ana.
Proof. cbv zeta. repeat split; try discriminate; vm_compute; reflexivity. Qed.

(** C1, on sample data: a patch without [propietario], and a creation
    whose body names somebody else. *)
Lemma update_owner_witness :
  let out :=
    run (@AirbnbController.updateAirbnb Sample.offline Sample.ana Sample.casa
           [("nombre", VStr "Casa Azul")] 1700000000000)
      (Sample.world Sample.abc) in
  let made :=
    run (@AirbnbController.createAirbnb Sample.offline Sample.ana
           [("nombre", VStr "Casa Azul");
            ("propietario", VStr (id Sample.luis))]
           "64c000000000000000000002")
      (Sample.world Sample.abc) in
  (∃ d', docs out.2 !! Sample.casa = Some d'
         ∧ get "propietario" d' = VStr (id Sample.ana))
  ∧ (∃ d0, docs made.2 !! "64c000000000000000000002" = Some d0
           ∧ get "propietario" d0 = VStr (id Sample.ana)).
Proof.
  cbv zeta.
  assert (docs (Sample.world Sample.abc) !! Sample.casa
          = Some (Sample.listing Sample.abc)) as Hdoc
    by (vm_compute; reflexivity).
  assert (NoDup (keys [("nombre", VStr "Casa Azul")])) as Hnd
    by (apply NoDup_singleton).
  assert (field_names [("nombre", VStr "Casa Azul")]) as Hfn.
  { intros k Hk. apply list_elem_of_singleton in Hk as ->. by split. }
  destruct (@update_owner Sample.offline) as [Hcreate Hupdate].
  split.
  - apply (Hupdate Sample.ana _ _ _ _ 1700000000000 Hdoc Hnd Hfn).
    vm_compute. reflexivity.
  - destruct (Hcreate Sample.ana
                [("nombre", VStr "Casa Azul");
                 ("propietario", VStr (id Sample.luis))]
                "64c000000000000000000002" (Sample.world Sample.abc))
      as [[H400 _]|[_ Hd0]]; [|exact Hd0].
    vm_compute in H400. discriminate.
Defined.

(** ** The allow-lists of the toggle routes *)

(** C9, as amended. The toggle routes do not share one allow-list: the
    cabin and rental routes both elevate [superadmin@turismo.com], which
    the hotel route does not; the three elevate
    [direcciondeturismojalpan@gmail.com]. So the test of the cabin route
    and that of the rental route are the same function, and the test of
    the hotel route is a different, narrower one. *)
Theorem toggle_allow_lists :
  (∀ e, by_email (toggle_test Hotel) e = true
        ↔ e = "direcciondeturismojalpan@gmail.com")
  ∧ (∀ r e, r ≠ Hotel →
        by_email (toggle_test r) e = true
        ↔ e = "superadmin@turismo.com"
          ∨ e = "direcciondeturismojalpan@gmail.com")
  ∧ (∀ u, toggle_test Cabana u = toggle_test Airbnb u)
  ∧ (∀ u, toggle_test Hotel u = true → toggle_test Cabana u = true)
  ∧ (∃ u, toggle_test Hotel u = false
          ∧ toggle_test Cabana u = true ∧ toggle_test Airbnb u = true).
Proof.
  refine (conj _ (conj _ (conj _ (conj _ _)))).
  - intros e. unfold by_email, toggle_test, HotelRoutes.isSuperAdmin_toggle.
    cbn [email isSuperAdmin role].
    change (String.eqb "admin" "super-admin") with false.
    rewrite !orb_false_r. apply String.eqb_eq.
  - intros r e Hr. unfold by_email.
    destruct r; [done| |]; unfold toggle_test,
      CabanaRoutes.isSuperAdmin_toggle, AirbnbRoutes.isSuperAdmin_toggle;
      cbn [email isSuperAdmin role];
      change (String.eqb "admin" "super-admin") with false;
      rewrite !orb_false_r, orb_true_iff, !String.eqb_eq; done.
  - done.
  - intros u. unfold toggle_test, HotelRoutes.isSuperAdmin_toggle,
      CabanaRoutes.isSuperAdmin_toggle.
    destruct (String.eqb (email u) "superadmin@turismo.com"); [done|].
    by cbn [orb].
  - exists {| id := ""; email := "superadmin@turismo.com";
              isSuperAdmin := false; role := "admin" |}.
    by vm_compute.
Qed.

(** C9, the claim as stated fails: no resource type has an e-mail
    identity in its list that both other lists lack. The extra address is
    in two lists, and the list without it has nothing of its own. *)
Lemma no_single_list_has_the_extra_email :
  ¬ ∃ r e, by_email (toggle_test r) e = true
           ∧ ∀ r', r' ≠ r → by_email (toggle_test r') e = false.
Proof.
  intros (r & e & Hin & Hout). destruct r.
  - pose proof (Hout Cabana ltac:(done)) as Hc.
    unfold by_email, toggle_test, HotelRoutes.isSuperAdmin_toggle,
      CabanaRoutes.isSuperAdmin_toggle in *.
    cbn [email isSuperAdmin role] in *.
    apply orb_false_elim in Hc as [Hc _].
    apply orb_false_elim in Hc as [Hc _].
    apply orb_false_elim in Hc as [_ Hc].
    rewrite Hc in Hin. discriminate.
  - pose proof (Hout Airbnb ltac:(done)) as Hc.
    change (toggle_test Airbnb) with (toggle_test Cabana) in Hc. congruence.
  - pose proof (Hout Cabana ltac:(done)) as Hc.
    change (toggle_test Cabana) with (toggle_test Airbnb) in Hc. congruence.
Qed.

(** ** Listing and reading *)

Section Listing.
Context `{Collaborators}.

Lemma filter_get_set_ne p p' c f :
  p ≠ p' → filter_get p (filter_set p' c f) = filter_get p f.
Proof.
  intros Hne. induction f as [|[p0 c0] f IH]; cbn [filter_set filter_get].
  - by rewrite bool_decide_eq_false_2.
  - case_bool_decide as E1; cbn [filter_get].
    + subst p0. by rewrite !bool_decide_eq_false_2.
    + by rewrite IH.
Qed.

(** Every condition of a filter holds of a document that matches it. *)
Lemma matches_filter_get f d p c :
  matches f d = true → filter_get p f = Some c →
  cond_holds c (get_path p (VObj d)) = true.
Proof.
  unfold matches. induction f as [|[p0 c0] f IH]; [done|].
  cbn [forallb filter_get fst snd].
  intros [H0 Hf]%andb_true_iff. case_bool_decide as E.
  - subst p0. by intros [= <-].
  - by apply IH.
Qed.

(** For a caller who is not elevated, the filter always asks for
    [activo: true], whatever the query string adds. *)
Lemma filters_for_plain caller query w f w' :
  plain caller →
  AirbnbController.filters_for caller query w = (Ok f, w') →
  filter_get ["activo"] f = Some (CEq (VBool true)).
Proof.
  intros Hplain. unfold AirbnbController.filters_for.
  assert (match caller with
          | Some u => AirbnbController.is_super u
          | None => false
          end = false) as ->.
  { destruct caller; [exact Hplain|done]. }
  unfold new_RegExp. monad.
  destruct (truthy (get "ciudad" query));
    [destruct (RegExp_error _ _); [discriminate|]|];
    intros [= <- <-];
    repeat match goal with
           | |- context [if ?b then _ else _] => destruct b
           end;
    by rewrite ?filter_get_set_ne.
Qed.

(** For a super-administrator the filter is empty. *)
Lemma filters_for_super admin query w :
  AirbnbController.is_super admin = true →
  AirbnbController.filters_for (Some admin) query w = (Ok [], w).
Proof. intros Hs. unfold AirbnbController.filters_for. by rewrite Hs. Qed.

(** What [find] returns: the documents of the collection that match. *)
Lemma elem_of_find f spec w k d l w' :
  find f spec w = (Ok l, w') →
  (k, d) ∈ l ↔ docs w !! k = Some d ∧ matches f d = true.
Proof.
  unfold find. intros [= <- <-].
  rewrite merge_sort_Permutation, list_elem_of_filter, elem_of_map_to_list.
  cbn [snd]. rewrite Is_true_true. tauto.
Qed.

Lemma find_returns f spec w : ∃ l, find f spec w = (Ok l, w).
Proof. unfold find. eauto. Qed.

(** A populated document keeps every path but [propietario]. *)
Lemma get_populate k select us d :
  k ≠ "propietario" → get k (populate "propietario" select us d) = get k d.
Proof.
  intros Hk. unfold populate.
  destruct (get "propietario" d); try done.
  destruct (us !! s); by rewrite get_set_ne.
Qed.

Lemma sent_path_id i d : sent_path "_id" (sent i d) = VStr i.
Proof. reflexivity. Qed.

Lemma sent_path_other k i d :
  k ≠ "_id" → sent_path k (sent i d) = get k d.
Proof.
  intros Hk. unfold sent_path, sent. cbn [get_path get].
  by destruct (String.eqb_spec k "_id").
Qed.

(** The answer of [getAllAirbnb] once its filter is known. *)
Lemma getAllAirbnb_with caller query w f :
  AirbnbController.filters_for caller query w = (Ok f, w) →
  ∃ l, (∀ k d, (k, d) ∈ l ↔ docs w !! k = Some d ∧ matches f d = true)
       ∧ code (run (AirbnbController.getAllAirbnb caller query) w).1 = 200
       ∧ listed (run (AirbnbController.getAllAirbnb caller query) w).1
         = AirbnbController.populated
             ["nombre"; "email"; "createdAt"; "updatedAt"] (users w) l.
Proof.
  intros Hf.
  destruct (find_returns f
              [(["calificacion"; "promedio"], -1); (["updatedAt"], -1)] w)
    as [l Hl].
  exists l. split; [intros k d; by eapply elem_of_find|].
  unfold AirbnbController.getAllAirbnb. monad.
  rewrite Hf. cbn beta iota. rewrite Hl. done.
Qed.

(** The filter is built without touching the world. *)
Lemma filters_for_pure caller query w r w' :
  AirbnbController.filters_for caller query w = (r, w') → w' = w.
Proof.
  unfold AirbnbController.filters_for, new_RegExp. monad.
  destruct (match caller with Some u => _ | None => _ end);
    [by intros [= _ <-]|].
  destruct (truthy (get "ciudad" query));
    [destruct (RegExp_error _ _)|]; by intros [= _ <-].
Qed.

(** When the filter cannot be built, nothing is listed. *)
Lemma getAllAirbnb_throws caller query w e w' :
  AirbnbController.filters_for caller query w = (Throw e, w') →
  listed (run (AirbnbController.getAllAirbnb caller query) w).1 = [].
Proof.
  intros Hf. unfold AirbnbController.getAllAirbnb. monad. by rewrite Hf.
Qed.

(** The soft delete by the owner. *)
Lemma deleteAirbnb_allowed user i w d :
  docs w !! i = Some d →
  AirbnbController.denied user d w = (Ok false, w) →
  run (AirbnbController.deleteAirbnb user i) w
  = (json 204 [("status", VStr "success"); ("data", VNull)],
     with_docs (<[i := set "activo" (VBool false) d]> (docs w)) w).
Proof.
  intros Hdoc Hok. unfold AirbnbController.deleteAirbnb. monad.
  by rewrite Hdoc, Hok.
Qed.

End Listing.

(** ** Soft delete *)

(** C8. The soft delete by the owner answers 204 and keeps the record in
    the store, with [activo] false and its other paths as they were.
    After it, the list route carries no document with that id, whatever
    the query string, and that for every caller, a super-administrator
    too: [GET /] is registered before the authentication middleware, so
    the controller runs with [req.user] unset and its branch for the
    super-administrator is never taken. *)
Theorem softDelete_then_list `{Collaborators} owner i w d :
  docs w !! i = Some d →
  get "propietario" d = VStr (id owner) →
  let out := run (AirbnbController.deleteAirbnb owner i) w in
  let d' := set "activo" (VBool false) d in
  (code out.1 = 204
   ∧ docs out.2 !! i = Some d'
   ∧ get "activo" d' = VBool false
   ∧ (∀ k, k ≠ "activo" → get k d' = get k d)
   ∧ (∀ j, j ≠ i → docs out.2 !! j = docs w !! j))
  ∧ (∀ query v,
       v ∈ listed (run (list_route query) out.2).1 →
       sent_path "_id" v ≠ VStr i).
Proof.
  intros Hdoc Hown. cbv zeta.
  rewrite (deleteAirbnb_allowed owner i w d Hdoc (denied_owner _ _ _ Hown)).
  cbn [fst snd code json].
  set (w1 := with_docs (<[i := set "activo" (VBool false) d]> (docs w)) w).
  assert (docs w1 !! i = Some (set "activo" (VBool false) d)) as Hdoc1
    by apply lookup_insert_eq.
  refine (conj (conj eq_refl (conj Hdoc1 (conj (get_set_eq _ _ _) (conj _ _))))
            _).
  - intros k Hk. by apply get_set_ne.
  - intros j Hj. subst w1. cbn [docs with_docs]. by apply lookup_insert_ne.
  - intros query v Hv Hid. unfold list_route in Hv.
    destruct (AirbnbController.filters_for None query w1) as [[f|e] w2] eqn:Ef.
    + pose proof (filters_for_pure _ _ _ _ _ Ef) as ->.
      destruct (getAllAirbnb_with None query w1 f Ef) as (l & Hl & _ & El).
      rewrite El in Hv. unfold AirbnbController.populated in Hv.
      apply list_elem_of_fmap in Hv as ([k dk] & -> & Hk).
      rewrite sent_path_id in Hid. injection Hid as ->.
      destruct (proj1 (Hl _ _) Hk) as [Hk' Hm].
      rewrite Hdoc1 in Hk'. injection Hk' as <-.
      pose proof (matches_filter_get _ _ _ _ Hm
                    (filters_for_plain None _ _ _ _ I Ef)) as Hc.
      cbn [cond_holds get_path] in Hc. by rewrite get_set_eq in Hc.
    + rewrite (getAllAirbnb_throws _ _ _ _ _ Ef) in Hv.
      by apply elem_of_nil in Hv.
Qed.

(** C8, on sample data: [ana] deletes her listing; the list route shows
    nothing, to the super-administrator as to anybody. *)
Lemma softDelete_then_list_witness :
  let out :=
    run (AirbnbController.deleteAirbnb Sample.ana Sample.casa)
      (Sample.world Sample.abc) in
  code out.1 = 204
  ∧ (get "activo" <$> docs out.2 !! Sample.casa) = Some (VBool false)
  ∧ listed (run (@list_route Sample.offline []) out.2).1 = [].
Proof.
  cbv zeta.
  assert (docs (Sample.world Sample.abc) !! Sample.casa
          = Some (Sample.listing Sample.abc)) as Hdoc
    by (vm_compute; reflexivity).
  destruct (@softDelete_then_list Sample.offline Sample.ana _ _ _ Hdoc eq_refl)
    as [(Hcode & Hkept & _) _].
  refine (conj Hcode (conj _ _)).
  - by rewrite Hkept.
  - vm_compute. reflexivity.
Defined.

(** ** Reading by id *)

(** C10. [getAirbnb] takes no caller and looks at no flag: it answers 404
    exactly when the store has no record under the id, and otherwise 200
    with the record under [data.alojamiento], every path of it as stored
    (the owner populated), [activo] false or not. It writes nothing. *)
Theorem get_ignores_active i w :
  let out := run (AirbnbController.getAirbnb i) w in
  out.2 = w
  ∧ (code out.1 = 404 ↔ docs w !! i = None)
  ∧ (∀ d, docs w !! i = Some d →
       code out.1 = 200
       ∧ ∃ v, get_path ["data"; "alojamiento"] (VObj (body out.1)) = v
              ∧ sent_path "_id" v = VStr i
              ∧ sent_path "activo" v = get "activo" d
              ∧ ∀ k, k ≠ "_id" → k ≠ "propietario" →
                     sent_path k v = get k d).
Proof.
  cbv zeta. unfold AirbnbController.getAirbnb. monad.
  destruct (docs w !! i) as [d|] eqn:Hdoc; cbn [fst snd code json].
  - refine (conj eq_refl (conj _ _)); [split; discriminate|].
    intros d0 [= <-]. split; [done|].
    exists (sent i (populate "propietario" ["nombre"; "email"; "contacto"]
                      (users w) d)).
    refine (conj eq_refl (conj (sent_path_id _ _) (conj _ _))).
    + by rewrite sent_path_other, get_populate.
    + intros k Hk1 Hk2. by rewrite sent_path_other, get_populate.
  - refine (conj eq_refl (conj _ _)); [done|discriminate].
Qed.

(** ** Further facts about the handlers *)

(** An empty reference can reach an image list: the owner's update may
    name [imagenes], and the store takes the list as it comes when the
    validators accept it. *)
Lemma empty_reference_reachable `{Collaborators} user i w d now l :
  docs w !! i = Some d →
  get "propietario" d = VStr (id user) →
  get "activo" d = VBool true →
  validate (AirbnbController.updateData_of user [("imagenes", VArr l)] now)
  = None →
  ∃ d', holds_images user i
          (run (AirbnbController.updateAirbnb user i
                  [("imagenes", VArr l)] now) w).2 d' l.
Proof.
  intros Hdoc Hown Hact Hval.
  destruct (updateAirbnb_accepted user i [("imagenes", VArr l)] now w d Hdoc
              (denied_owner _ _ _ Hown) Hval) as [b ->].
  eexists. unfold holds_images. cbn [snd docs with_docs].
  refine (conj (lookup_insert_eq _ _ _) _).
  destruct (updateData_of_keys user [("imagenes", VArr l)] now
              ltac:(apply NoDup_singleton)) as [Hnd Hkeys].
  assert (¬ reserved "imagenes") as Hres.
  { unfold reserved, AirbnbController.fieldsToParseAsJSON.
    rewrite !elem_of_cons, elem_of_nil. intuition discriminate. }
  assert (¬ reserved "propietario") as Hres1 by apply propietario_not_reserved.
  assert (¬ reserved "activo") as Hres2.
  { unfold reserved, AirbnbController.fieldsToParseAsJSON.
    rewrite !elem_of_cons, elem_of_nil. intuition discriminate. }
  destruct (Hkeys _ Hres) as [Hin Hget].
  destruct (Hkeys _ Hres1) as [Hin1 _].
  destruct (Hkeys _ Hres2) as [Hin2 _].
  refine (conj _ (conj _ _)).
  - rewrite get_assign_absent; [done|]. rewrite Hin1.
    by intros ?%list_elem_of_singleton.
  - rewrite get_assign_absent; [done|]. rewrite Hin2.
    by intros ?%list_elem_of_singleton.
  - rewrite get_assign_present, Hget; [done..|].
    apply Hin, list_elem_of_here.
Qed.

(** C4. The hotel and cabin routes depart from the claim at an index
    that is not a number, which is outside every [0, len): [NaN] fails
    both comparisons of the bounds check, the media block throws on
    [undefined] and is silenced, and [splice(NaN, 1)] removes the first
    image with a success answer. The rental route refuses such an index
    with 404. *)
Theorem removeAt_not_a_number `{Collaborators} user rid w d x a now s :
  holds_images user rid w d (x :: a) →
  parseInt (VStr s) = VNaN →
  let hotel := run (HotelRoutes.delete_image user rid s now) w in
  let cabana := run (CabanaRoutes.delete_image user rid s now) w in
  let airbnb := run (AirbnbRoutes.delete_image user rid s now) w in
  (code hotel.1 = 200 ∧ hotel.2 = with_images rid d now a w)
  ∧ (code cabana.1 = 200 ∧ cabana.2 = with_images rid d now a w)
  ∧ refused 404 w airbnb.
Proof.
  intros Hh Hs. cbv zeta.
  assert (∀ folder, destroy_quietly folder VUndef w = (Ok tt, w)) as Hq by done.
  refine (conj _ (conj _ _)).
  - unfold HotelRoutes.delete_image. load Hh. rewrite Hs.
    cbn [truthy length_of strict_eq negb orb num_lt num_ge elem at_index].
    destruct (Z.eqb_spec (Z.of_nat (length (x :: a))) 0); [done|].
    rewrite Hq. cbn beta iota. by rewrite splice_NaN.
  - unfold CabanaRoutes.delete_image. load Hh. rewrite Hs.
    cbn [truthy length_of strict_eq negb orb num_lt num_ge elem at_index].
    destruct (Z.eqb_spec (Z.of_nat (length (x :: a))) 0); [done|].
    rewrite Hq. cbn beta iota. by rewrite splice_NaN.
  - eapply refused_404, airbnb_delete_falsy; eauto.
Qed.

(** C4, on sample data: [DELETE /:hotelId/images/abc] removes the first
    image. *)
Lemma removeAt_not_a_number_witness :
  (run (@HotelRoutes.delete_image Sample.offline
          Sample.ana Sample.casa "abc" 1700000000000)
     (Sample.world Sample.abc)).2
  = with_images Sample.casa (Sample.listing Sample.abc) 1700000000000
      [VStr "b.jpg"; VStr "c.jpg"] (Sample.world Sample.abc).
Proof.
  assert (holds_images Sample.ana Sample.casa (Sample.world Sample.abc)
            (Sample.listing Sample.abc) Sample.abc) as Hh.
  { repeat split; vm_compute; reflexivity. }
  exact (proj2 (proj1 (@removeAt_not_a_number Sample.offline _ _ _ _ _ _
                         1700000000000 "abc" Hh eq_refl))).
Defined.

(** Through the public route nobody is elevated: a record that is not
    active is never listed, whoever asks and whatever the query string. *)
Theorem list_route_hides_inactive `{Collaborators} i w d query v :
  docs w !! i = Some d →
  get "activo" d = VBool false →
  v ∈ listed (run (list_route query) w).1 →
  sent_path "_id" v ≠ VStr i.
Proof.
  intros Hdoc Hact Hv Hid. unfold list_route in Hv.
  destruct (AirbnbController.filters_for None query w) as [[f|e] w2] eqn:Ef.
  - pose proof (filters_for_pure _ _ _ _ _ Ef) as ->.
    destruct (getAllAirbnb_with None query w f Ef) as (l & Hl & _ & El).
    rewrite El in Hv. unfold AirbnbController.populated in Hv.
    apply list_elem_of_fmap in Hv as ([k dk] & -> & Hk).
    rewrite sent_path_id in Hid. injection Hid as ->.
    destruct (proj1 (Hl _ _) Hk) as [Hk' Hm].
    rewrite Hdoc in Hk'. injection Hk' as <-.
    pose proof (matches_filter_get _ _ _ _ Hm
                  (filters_for_plain None _ _ _ _ I Ef)) as Hc.
    cbn [cond_holds get_path] in Hc. by rewrite Hact in Hc.
  - rewrite (getAllAirbnb_throws _ _ _ _ _ Ef) in Hv.
    by apply elem_of_nil in Hv.
Qed.

(** On sample data: of two listings the public list shows the active one
    only. *)
Lemma list_route_hides_inactive_witness :
  let other := "64c000000000000000000002" in
  let w :=
    {| docs := {[Sample.casa :=
                   set "activo" (VBool false) (Sample.listing Sample.abc);
                 other := Sample.listing []]};
       users := ∅; destroyed := [] |} in
  let v := sent other (set "propietario" VNull (Sample.listing [])) in
  v ∈ listed (run (@list_route Sample.offline []) w).1
  ∧ sent_path "_id" v ≠ VStr Sample.casa.
Proof.
  cbv zeta.
  set (w := {| docs := _; users := _; destroyed := _ |}).
  set (v := sent _ _).
  assert (docs w !! Sample.casa
          = Some (set "activo" (VBool false) (Sample.listing Sample.abc)))
    as Hdoc by (vm_compute; reflexivity).
  assert (v ∈ listed (run (@list_route Sample.offline []) w).1) as Hv.
  { assert (listed (run (@list_route Sample.offline []) w).1 = [v]) as ->
      by (vm_compute; reflexivity).
    apply list_elem_of_here. }
  split; [exact Hv|].
  exact (@list_route_hides_inactive Sample.offline _ _ _ [] v Hdoc eq_refl Hv).
Defined.

(** ** Uploads *)

Section Uploads.
Context `{Collaborators}.
Implicit Types (k : string) (v : JSVal) (o d : Obj).

(** Writing a path twice keeps the second value, in the place of the
    first. *)
Lemma set_set k v1 v2 o : set k v2 (set k v1 o) = set k v2 o.
Proof.
  induction o as [|[k' v'] o IH]; cbn [set].
  - by rewrite String.eqb_refl.
  - destruct (String.eqb k k') eqn:E; cbn [set]; rewrite ?String.eqb_refl, ?E;
      [done|by rewrite IH].
Qed.

Variables (user : User) (rid : string) (w : World) (d : Obj).
Variables (a : list JSVal) (now : Z) (file : Obj) (files : list Obj).
Hypothesis Hrec : holds_record user rid w d.
Hypothesis Himg : images_of d a.

(** The document and list an upload works on, once [imagenes] is made an
    array if it was not set. *)
Lemma upload_prepare :
  ∃ d0, (if negb (truthy (get "imagenes" d))
         then set "imagenes" (VArr []) d else d) = d0
        ∧ get "imagenes" d0 = VArr a
        ∧ ∀ l, set "imagenes" (VArr l) d0 = set "imagenes" (VArr l) d.
Proof.
  destruct Himg as [Ha|[Hf ->]].
  - rewrite Ha. cbn [truthy negb]. eauto.
  - rewrite Hf. cbn [negb]. eexists. refine (conj eq_refl (conj _ _)).
    + apply get_set_eq.
    + intros l. apply set_set.
Qed.

Lemma hotel_upload :
  run (HotelRoutes.upload_images user rid (Some (file :: files)) now) w =
  (json 200
     [("status", VStr "success");
      ("message",
       VStr (pretty (Z.of_nat (length (paths (file :: files))))
             ++ " imagen(es) subida(s) exitosamente"));
      ("data", VObj
         [("imagenesAgregadas", VNum (Z.of_nat (length (paths (file :: files)))));
          ("totalImagenes",
           VNum (Z.of_nat (length (a ++ paths (file :: files))%list)));
          ("nuevasImagenes", VArr (paths (file :: files)))])],
   with_images rid d now (a ++ paths (file :: files))%list w).
Proof.
  destruct Hrec as (Hdoc & Hown & Hact).
  destruct upload_prepare as (d0 & E0 & Ha & Hset).
  unfold HotelRoutes.upload_images. monad.
  rewrite Hdoc, (matches_own_and_active _ _ Hown Hact), E0, Ha.
  unfold with_images. by rewrite Hset.
Qed.

Lemma cabana_upload :
  run (CabanaRoutes.upload_images user rid (Some (file :: files)) now) w =
  (json 200
     [("status", VStr "success");
      ("message",
       VStr (pretty (Z.of_nat (length (file :: files)))
             ++ " imagen(es) subida(s) exitosamente"));
      ("data", VObj
         [("totalImagenes",
           VNum (Z.of_nat (length (a ++ paths (file :: files))%list)));
          ("nuevasImagenes", VArr (paths (file :: files)))])],
   with_images rid d now (a ++ paths (file :: files))%list w).
Proof.
  destruct Hrec as (Hdoc & Hown & Hact).
  destruct upload_prepare as (d0 & E0 & Ha & Hset).
  unfold CabanaRoutes.upload_images. monad.
  rewrite Hdoc, (matches_own_and_active _ _ Hown Hact), E0, Ha.
  unfold with_images. by rewrite Hset.
Qed.

Lemma airbnb_upload :
  run (AirbnbRoutes.upload_images user rid (Some (file :: files)) now) w =
  (json 200
     [("status", VStr "success");
      ("message",
       VStr (pretty (Z.of_nat (length (paths (file :: files))))
             ++ " imagen(es) subida(s) exitosamente"));
      ("data", VObj
         [("imagenesAgregadas", VNum (Z.of_nat (length (paths (file :: files)))));
          ("totalImagenes",
           VNum (Z.of_nat (length (a ++ paths (file :: files))%list)));
          ("nuevasImagenes", VArr (paths (file :: files)))])],
   with_images rid d now (a ++ paths (file :: files))%list w).
Proof.
  destruct Hrec as (Hdoc & Hown & Hact).
  destruct upload_prepare as (d0 & E0 & Ha & Hset).
  unfold AirbnbRoutes.upload_images. monad.
  rewrite Hdoc, (matches_own_and_active _ _ Hown Hact), E0, Ha.
  unfold with_images. by rewrite Hset.
Qed.

End Uploads.

(** ** The upload routes, with multer in front *)

Section UploadRoute.
Context `{Collaborators}.
Implicit Types (p : Multer.Part) (parts : list Multer.Part) (w : World).

Lemma paths_file_of parts :
  paths (Multer.file_of <$> parts) = Multer.path <$> parts.
Proof.
  unfold paths. rewrite <-list_fmap_compose. by apply list_fmap_ext.
Qed.

(** Parts that pass are gone through: what decides is what follows
    them. *)
Lemma take_parts_app o name maxCount seen good rest :
  Forall (passes o name) good →
  seen + Z.of_nat (length good) ≤ Multer.files o →
  (∀ n, maxCount = Some n → seen + Z.of_nat (length good) ≤ n) →
  Multer.take_parts o name maxCount seen (good ++ rest)
  = Multer.take_parts o name maxCount (seen + Z.of_nat (length good)) rest.
Proof.
  intros Hall. revert seen.
  induction Hall as [|p good (Hn & Hf & Hs) _ IH]; intros seen Hc Hm.
  - cbn [length app]. by rewrite Z.add_0_r.
  - cbn [Multer.take_parts length app] in *.
    destruct (Z.leb_spec (Multer.files o) seen); [lia|].
    rewrite Hn, String.eqb_refl, Hf. cbn [negb orb].
    assert (match maxCount with Some n => n <=? seen | None => false end
            = false) as ->.
    { destruct maxCount as [n|]; [|done].
      specialize (Hm n eq_refl). apply Z.leb_gt. lia. }
    destruct (Z.ltb_spec (Multer.fileSize o) (Multer.size p)); [lia|].
    rewrite IH; [|lia|intros n Hn'; specialize (Hm n Hn'); lia].
    f_equal. lia.
Qed.

(** Parts that pass every test of the options, within the counts, meet
    no error while the request is read. *)
Lemma take_parts_all o name maxCount seen parts :
  Forall (passes o name) parts →
  seen + Z.of_nat (length parts) ≤ Multer.files o →
  (∀ n, maxCount = Some n → seen + Z.of_nat (length parts) ≤ n) →
  Multer.take_parts o name maxCount seen parts = None.
Proof.
  intros Hall Hc Hm.
  rewrite <-(app_nil_r parts).
  by rewrite (take_parts_app o name maxCount seen parts [] Hall Hc Hm).
Qed.

(** One part more than [limits.files], every part passing the tests:
    the request ends in [LIMIT_FILE_COUNT]. *)
Lemma take_parts_over o name maxCount seen parts :
  Forall (passes o name) parts →
  seen ≤ Multer.files o →
  Multer.files o < seen + Z.of_nat (length parts) →
  (∀ n, maxCount = Some n → Multer.files o ≤ n) →
  Multer.take_parts o name maxCount seen parts
  = Some (Multer.MulterError "LIMIT_FILE_COUNT").
Proof.
  intros Hall. revert seen.
  induction Hall as [|p parts (Hn & Hf & Hs) _ IH]; intros seen Hle Hc Hm.
  - cbn [length] in Hc. lia.
  - cbn [Multer.take_parts length] in *.
    destruct (Z.leb_spec (Multer.files o) seen); [done|].
    rewrite Hn, String.eqb_refl, Hf. cbn [negb orb].
    assert (match maxCount with Some n => n <=? seen | None => false end
            = false) as ->.
    { destruct maxCount as [n|]; [|done].
      specialize (Hm n eq_refl). apply Z.leb_gt. lia. }
    destruct (Z.ltb_spec (Multer.fileSize o) (Multer.size p)); [lia|].
    rewrite IH; [done|lia|lia|done].
Qed.

(** When the storage holds every part, every part is in [req.files]. *)
Lemma store_parts_all parts :
  Forall (λ p, ∃ address, Multer.stored p = Ok address) parts →
  Multer.store_parts parts = inr (Multer.file_of <$> parts).
Proof.
  induction 1 as [|p parts [address Hp] _ IH]; [done|].
  cbn [Multer.store_parts]. by rewrite Hp, IH.
Qed.

Lemma foto_acceptable address : acceptable (Sample.foto address).
Proof.
  refine (conj eq_refl (conj eq_refl (conj _ (ex_intro _ _ eq_refl)))).
  cbn. lia.
Qed.

Variables (user : User) (rid : string) (now : Z).

Lemma acceptable_passes parts :
  Forall acceptable parts →
  Forall (passes HotelRoutes.uploadHotelImages "images") parts
  ∧ Forall (λ p, ∃ address, Multer.stored p = Ok address) parts.
Proof.
  intros Hall. split.
  - eapply Forall_impl; [exact Hall|].
    intros p (Hn & Hm & Hs & _). refine (conj Hn (conj _ Hs)).
    cbn. by rewrite Hm.
  - eapply Forall_impl; [exact Hall|]. by intros p (_ & _ & _ & Hst).
Qed.

(** With at most ten acceptable parts, the three routes hand every part
    to their handler. *)
Lemma route_accepts parts :
  Forall acceptable parts → (length parts ≤ 10)%nat →
  HotelRoutes.upload_route user rid (Some parts) now
  = HotelRoutes.upload_images user rid (Some (Multer.file_of <$> parts)) now
  ∧ CabanaRoutes.upload_route user rid (Some parts) now
    = CabanaRoutes.upload_images user rid
        (Some (Multer.file_of <$> parts)) now
  ∧ AirbnbRoutes.upload_route user rid (Some parts) now
    = AirbnbRoutes.upload_images user rid
        (Some (Multer.file_of <$> parts)) now.
Proof.
  intros [Hall Hst]%acceptable_passes Hlen.
  unfold HotelRoutes.upload_route, CabanaRoutes.upload_route,
    AirbnbRoutes.upload_route, Multer.array.
  rewrite (take_parts_all HotelRoutes.uploadHotelImages "images" (Some 10)
             0 parts Hall);
    [|cbn; lia|intros n [= <-]; lia].
  rewrite (take_parts_all CabanaRoutes.uploadCabanaImages "images" None
             0 parts Hall);
    [|cbn; lia|done].
  rewrite (take_parts_all AirbnbRoutes.uploadAirbnbImages "images" (Some 10)
             0 parts Hall);
    [|cbn; lia|intros n [= <-]; lia].
  by rewrite (store_parts_all parts Hst).
Qed.

(** With more than ten, the three routes answer 400 from their error
    middleware, and the handler does not run. *)
Lemma route_over parts w :
  Forall acceptable parts → (10 < length parts)%nat →
  let too_many :=
    json 400 (error_body "Demasiados archivos. Máximo 10 imágenes por vez.") in
  run (HotelRoutes.upload_route user rid (Some parts) now) w = (too_many, w)
  ∧ run (CabanaRoutes.upload_route user rid (Some parts) now) w
    = (too_many, w)
  ∧ run (AirbnbRoutes.upload_route user rid (Some parts) now) w
    = (too_many, w).
Proof.
  intros [Hall _]%acceptable_passes Hlen. cbv zeta.
  unfold HotelRoutes.upload_route, CabanaRoutes.upload_route,
    AirbnbRoutes.upload_route, Multer.array.
  rewrite (take_parts_over HotelRoutes.uploadHotelImages "images" (Some 10)
             0 parts Hall);
    [|cbn; lia|cbn; lia|by intros n [= <-]].
  rewrite (take_parts_over CabanaRoutes.uploadCabanaImages "images" None
             0 parts Hall);
    [|cbn; lia|cbn; lia|done].
  rewrite (take_parts_over AirbnbRoutes.uploadAirbnbImages "images" (Some 10)
             0 parts Hall);
    [done|cbn; lia|cbn; lia|by intros n [= <-]].
Qed.

(** After fewer than ten acceptable parts, a part under [images] that
    the filter refuses, or that is too long, ends the request with its
    own error. *)
Lemma route_stops good bad rest :
  Forall acceptable good → (length good < 10)%nat →
  Multer.fieldname bad = "images" →
  let stops o maxCount e :=
    Multer.array o "images" maxCount (good ++ bad :: rest) = inl e in
  let everywhere e :=
    stops HotelRoutes.uploadHotelImages (Some 10) e
    ∧ stops CabanaRoutes.uploadCabanaImages None e
    ∧ stops AirbnbRoutes.uploadAirbnbImages (Some 10) e in
  (String.prefix "image/" (Multer.mimetype bad) = false →
   everywhere (Multer.FilterError "Solo se permiten archivos de imagen"))
  ∧ (String.prefix "image/" (Multer.mimetype bad) = true →
     5 * 1024 * 1024 < Multer.size bad →
     everywhere (Multer.MulterError "LIMIT_FILE_SIZE")).
Proof.
  intros [Hall _]%acceptable_passes Hlen Hn. cbv zeta. unfold Multer.array.
  rewrite (take_parts_app HotelRoutes.uploadHotelImages "images" (Some 10)
             0 good (bad :: rest) Hall);
    [|cbn; lia|intros n [= <-]; lia].
  rewrite (take_parts_app CabanaRoutes.uploadCabanaImages "images" None
             0 good (bad :: rest) Hall);
    [|cbn; lia|done].
  rewrite (take_parts_app AirbnbRoutes.uploadAirbnbImages "images" (Some 10)
             0 good (bad :: rest) Hall);
    [|cbn; lia|intros n [= <-]; lia].
  cbn [Multer.take_parts Multer.files Multer.fileFilter Multer.fileSize
       HotelRoutes.uploadHotelImages CabanaRoutes.uploadCabanaImages
       AirbnbRoutes.uploadAirbnbImages].
  rewrite Hn, String.eqb_refl. cbn [negb orb].
  destruct (Z.leb_spec 10 (0 + Z.of_nat (length good))); [lia|].
  cbn [orb].
  split.
  - intros ->. done.
  - intros -> Hbig.
    destruct (Z.ltb_spec (5 * 1024 * 1024) (Multer.size bad)); [done|lia].
Qed.

End UploadRoute.

(** ** More on the image routes *)

Section MoreImages.
Context `{Collaborators}.
Implicit Types (a : list JSVal) (d : Obj) (w : World).

(** An inactive record does not pass the filter of the image routes,
    not even for its owner. *)
Lemma matches_inactive user d :
  get "activo" d = VBool false → matches (own_and_active user) d = false.
Proof.
  intros Hact. unfold matches, own_and_active. cbn.
  rewrite Hact. cbn. apply andb_false_r.
Qed.

Lemma hotel_set_main_outside user rid w d a now v i :
  holds_images user rid w d a → parseInt v = VNum i →
  i < 0 ∨ Z.of_nat (length a) ≤ i →
  ∃ m, run (HotelRoutes.set_main user rid v now) w
       = (json 404 (error_body m), w).
Proof.
  intros Hh Hv Hi. unfold HotelRoutes.set_main. load Hh. rewrite Hv.
  destruct (bounds_outside a i Hi) as [->|[-> ->]]; eauto.
Qed.

Lemma cabana_set_main_outside user rid w d a now v i :
  holds_images user rid w d a → parseInt v = VNum i →
  i < 0 ∨ Z.of_nat (length a) ≤ i →
  ∃ m, run (CabanaRoutes.set_main user rid v now) w
       = (json (match a with [] => 404 | _ => 400 end) (error_body m), w).
Proof.
  intros Hh Hv Hi. unfold CabanaRoutes.set_main. load Hh. rewrite Hv.
  destruct a as [|x a'].
  - cbn. eauto.
  - destruct (bounds_outside (x :: a') i Hi) as [E|[-> ->]]; [|eauto].
    cbn in E. discriminate.
Qed.

(** The main image of a record. *)
Lemma hotel_main_image i w d a :
  docs w !! i = Some d → get "activo" d = VBool true → images_of d a →
  run (HotelRoutes.main_image i) w =
  (json 200
     [("status", VStr "success");
      ("data", VObj
         [("mainImage", default VNull (head a));
          ("totalImages", VNum (Z.of_nat (length a)))])],
   w).
Proof.
  intros Hdoc Hact Himg. unfold HotelRoutes.main_image. monad. unfold matches.
  rewrite Hdoc. cbn [forallb fst snd cond_holds get_path]. rewrite Hact.
  cbn [strict_eq Bool.eqb andb].
  destruct Himg as [->|[Hf ->]]; [|by rewrite Hf].
  destruct a as [|x a']; [done|].
  cbn [truthy andb length_of num_gt num_lt].
  by destruct (Z.ltb_spec 0 (Z.of_nat (length (x :: a')))); [|cbn in *; lia].
Qed.

Lemma airbnb_main_image i w d a :
  docs w !! i = Some d → get "activo" d = VBool true → images_of d a →
  run (AirbnbRoutes.main_image i) w =
  (json 200
     [("status", VStr "success");
      ("data", VObj
         [("mainImage", default VNull (head a));
          ("totalImages", VNum (Z.of_nat (length a)))])],
   w).
Proof.
  intros Hdoc Hact Himg. unfold AirbnbRoutes.main_image. monad. unfold matches.
  rewrite Hdoc. cbn [forallb fst snd cond_holds get_path]. rewrite Hact.
  cbn [strict_eq Bool.eqb andb].
  destruct Himg as [->|[Hf ->]]; [|by rewrite Hf].
  destruct a as [|x a']; [done|].
  cbn [truthy andb length_of num_gt num_lt].
  by destruct (Z.ltb_spec 0 (Z.of_nat (length (x :: a')))); [|cbn in *; lia].
Qed.

Lemma main_image_hidden i w :
  match docs w !! i with
  | Some d => get "activo" d = VBool false
  | None => True
  end →
  refused 404 w (run (HotelRoutes.main_image i) w)
  ∧ refused 404 w (run (AirbnbRoutes.main_image i) w).
Proof.
  intros Hno. unfold HotelRoutes.main_image, AirbnbRoutes.main_image.
  monad. unfold matches. destruct (docs w !! i) as [d|]; [|by split].
  cbn [forallb fst snd cond_holds get_path]. rewrite Hno. by split.
Qed.

(** The list of images, for the owner. *)
Lemma get_images_owner user rid w d a :
  holds_record user rid w d → images_of d a →
  (let out := run (HotelRoutes.get_images user rid) w in
   code out.1 = 200 ∧ get "data" (body out.1) = VArr a ∧ out.2 = w)
  ∧ (let out := run (CabanaRoutes.get_images user rid) w in
     code out.1 = 200 ∧ get "data" (body out.1) = VArr a ∧ out.2 = w)
  ∧ (let out := run (AirbnbRoutes.get_images user rid) w in
     code out.1 = 200 ∧ get "data" (body out.1) = VArr a ∧ out.2 = w).
Proof.
  intros (Hdoc & Hown & Hact) Himg. cbv zeta.
  unfold HotelRoutes.get_images, CabanaRoutes.get_images,
    AirbnbRoutes.get_images.
  monad. rewrite Hdoc, (matches_own_and_active _ _ Hown Hact).
  destruct Himg as [->|[Hf ->]]; [done|]. by rewrite Hf.
Qed.

(** When the filter of the image routes finds nothing, every one of them
    answers 404 and writes nothing. *)
Lemma image_routes_find_nothing user rid w now file files s v :
  match docs w !! rid with
  | Some d => matches (own_and_active user) d = false
  | None => True
  end →
  (refused 404 w (run (HotelRoutes.get_images user rid) w)
   ∧ refused 404 w (run (HotelRoutes.upload_images user rid (Some (file :: files)) now) w)
   ∧ refused 404 w (run (HotelRoutes.delete_image user rid s now) w)
   ∧ refused 404 w (run (HotelRoutes.set_main user rid v now) w))
  ∧ (refused 404 w (run (CabanaRoutes.get_images user rid) w)
     ∧ refused 404 w (run (CabanaRoutes.upload_images user rid (Some (file :: files)) now) w)
     ∧ refused 404 w (run (CabanaRoutes.delete_image user rid s now) w)
     ∧ refused 404 w (run (CabanaRoutes.set_main user rid v now) w))
  ∧ (refused 404 w (run (AirbnbRoutes.get_images user rid) w)
     ∧ refused 404 w (run (AirbnbRoutes.upload_images user rid (Some (file :: files)) now) w)
     ∧ refused 404 w (run (AirbnbRoutes.delete_image user rid s now) w)
     ∧ refused 404 w (run (AirbnbRoutes.set_main user rid v now) w)).
Proof.
  intros Hno.
  assert (findOne rid (own_and_active user) w = (Ok None, w)) as Hfind.
  { unfold findOne. destruct (docs w !! rid); by rewrite ?Hno. }
  unfold HotelRoutes.get_images, HotelRoutes.upload_images,
    HotelRoutes.delete_image, HotelRoutes.set_main,
    CabanaRoutes.get_images, CabanaRoutes.upload_images,
    CabanaRoutes.delete_image, CabanaRoutes.set_main,
    AirbnbRoutes.get_images, AirbnbRoutes.upload_images,
    AirbnbRoutes.delete_image, AirbnbRoutes.set_main.
  unfold try_catch, mbind, M_bind, bind, run. rewrite !Hfind.
  repeat split.
Qed.

End MoreImages.

(** ** Properties of the image routes beyond the claims *)

(** Append. On the three routes, multer in front, an upload of at most
    ten acceptable files by the owner of an active record stores the new
    references after the ones the record had, in the order of the files;
    a record whose list was never set starts from the empty list. An
    upload of more than ten is answered 400 by the error middleware and
    stores nothing. *)
Theorem append_in_order `{Collaborators} user rid w d a now part parts :
  holds_record user rid w d →
  images_of d a →
  Forall acceptable (part :: parts) →
  let request := Some (part :: parts) in
  let new := Multer.path <$> part :: parts in
  let a' := (a ++ new)%list in
  ((length (part :: parts) ≤ 10)%nat →
     stored_images rid d now a' w
       (run (HotelRoutes.upload_route user rid request now) w)
     ∧ stored_images rid d now a' w
         (run (CabanaRoutes.upload_route user rid request now) w)
     ∧ stored_images rid d now a' w
         (run (AirbnbRoutes.upload_route user rid request now) w))
  ∧ ((10 < length (part :: parts))%nat →
     turned_away 400 w
       (run (HotelRoutes.upload_route user rid request now) w)
     ∧ turned_away 400 w
         (run (CabanaRoutes.upload_route user rid request now) w)
     ∧ turned_away 400 w
         (run (AirbnbRoutes.upload_route user rid request now) w))
  ∧ (∀ j x, a !! j = Some x → a' !! j = Some x)
  ∧ (∀ j, a' !! (length a + j)%nat = new !! j)
  ∧ length a' = (length a + length (part :: parts))%nat.
Proof.
  intros Hrec Himg Hall. cbv zeta.
  refine (conj _ (conj _ (conj _ (conj _ _)))).
  - intros Hlen.
    destruct (route_accepts user rid now _ Hall Hlen) as (-> & -> & ->).
    rewrite <-paths_file_of. cbn [fmap list_fmap].
    refine (conj _ (conj _ _)).
    + eapply stored_directly, hotel_upload; eauto.
    + eapply stored_directly, cabana_upload; eauto.
    + eapply stored_directly, airbnb_upload; eauto.
  - intros Hlen.
    destruct (route_over user rid now _ w Hall Hlen) as (-> & -> & ->).
    by repeat split.
  - intros j x Hj. by apply lookup_app_l_Some.
  - intros j. by rewrite lookup_app_r, Nat.add_comm, Nat.add_sub by lia.
  - by rewrite length_app, length_fmap.
Qed.

(** On sample data: two photographs after three images. *)
Lemma append_in_order_witness :
  stored_images Sample.casa (Sample.listing Sample.abc) 1700000000000
    [VStr "a.jpg"; VStr "b.jpg"; VStr "c.jpg"; VStr "d.jpg"; VStr "e.jpg"]
    (Sample.world Sample.abc)
    (run (@HotelRoutes.upload_route Sample.offline Sample.ana Sample.casa
            (Some [Sample.foto "d.jpg"; Sample.foto "e.jpg"])
            1700000000000)
       (Sample.world Sample.abc)).
Proof.
  assert (holds_record Sample.ana Sample.casa (Sample.world Sample.abc)
            (Sample.listing Sample.abc)) as Hrec.
  { repeat split; vm_compute; reflexivity. }
  assert (images_of (Sample.listing Sample.abc) Sample.abc) as Himg
    by (left; reflexivity).
  assert (Forall acceptable [Sample.foto "d.jpg"; Sample.foto "e.jpg"])
    as Hall by (repeat constructor; apply foto_acceptable).
  destruct (@append_in_order Sample.offline _ _ _ _ _ 1700000000000
              (Sample.foto "d.jpg") [Sample.foto "e.jpg"] Hrec Himg Hall)
    as [Hin _].
  destruct Hin as [Hhotel _]; [cbn; lia|].
  exact Hhotel.
Defined.

(** A file that is not an image, or one over 5 MB, stops the whole
    upload: when it comes after fewer than ten acceptable files, the
    route answers 400 with the message of the error middleware, the
    handler does not run, and no document changes: the files that came
    before it are not stored either. *)
Theorem upload_refuses_bad_file `{Collaborators}
    user rid w now good bad rest :
  Forall acceptable good → (length good < 10)%nat →
  Multer.fieldname bad = "images" →
  let request := Some (good ++ bad :: rest)%list in
  let hotel := run (HotelRoutes.upload_route user rid request now) w in
  let cabana := run (CabanaRoutes.upload_route user rid request now) w in
  let airbnb := run (AirbnbRoutes.upload_route user rid request now) w in
  let stopped message (out : Response * World) :=
    out.1 = json 400 (error_body message)
    ∧ docs out.2 = docs w ∧ users out.2 = users w in
  (String.prefix "image/" (Multer.mimetype bad) = false →
   let not_an_image :=
     "Solo se permiten archivos de imagen (JPG, PNG, GIF, WebP)" in
   stopped not_an_image hotel
   ∧ stopped not_an_image cabana
   ∧ stopped not_an_image airbnb)
  ∧ (String.prefix "image/" (Multer.mimetype bad) = true →
     5 * 1024 * 1024 < Multer.size bad →
     stopped "Archivo demasiado grande. Máximo 5MB por imagen." hotel
     ∧ stopped "Archivo muy grande. Máximo 5MB por imagen." cabana
     ∧ stopped "Archivo muy grande. Máximo 5MB por imagen." airbnb).
Proof.
  intros Hall Hlen Hn. cbv zeta.
  destruct (route_stops good bad rest Hall Hlen Hn) as [Hfilter Hsize].
  unfold HotelRoutes.upload_route, CabanaRoutes.upload_route,
    AirbnbRoutes.upload_route.
  split.
  - intros Hm. destruct (Hfilter Hm) as (-> & -> & ->). done.
  - intros Hm Hbig. destruct (Hsize Hm Hbig) as (-> & -> & ->). done.
Qed.

(** On sample data: a photograph, then a PDF. *)
Lemma upload_refuses_bad_file_witness :
  let pdf :=
    {| Multer.fieldname := "images"; Multer.mimetype := "application/pdf";
       Multer.size := 1024; Multer.stored := Ok (VStr "folleto.pdf") |} in
  (run (@HotelRoutes.upload_route Sample.offline Sample.ana Sample.casa
          (Some [Sample.foto "d.jpg"; pdf]) 1700000000000)
     (Sample.world Sample.abc)).1
  = json 400
      (error_body
         "Solo se permiten archivos de imagen (JPG, PNG, GIF, WebP)").
Proof.
  cbv zeta.
  assert (Forall acceptable [Sample.foto "d.jpg"]) as Hall
    by (repeat constructor; apply foto_acceptable).
  destruct (@upload_refuses_bad_file Sample.offline Sample.ana Sample.casa
              (Sample.world Sample.abc) 1700000000000
              [Sample.foto "d.jpg"]
              {| Multer.fieldname := "images";
                 Multer.mimetype := "application/pdf";
                 Multer.size := 1024;
                 Multer.stored := Ok (VStr "folleto.pdf") |}
              [] Hall ltac:(cbn; lia) eq_refl) as [Hfilter _].
  exact (proj1 (proj1 (Hfilter eq_refl))).
Defined.

(** An upload without files is refused with 400 before the record is
    looked up: whoever calls, whatever the id, nothing is written. *)
Theorem upload_without_files `{Collaborators} user rid w now files :
  files = None ∨ files = Some [] →
  refused 400 w (run (HotelRoutes.upload_images user rid files now) w)
  ∧ refused 400 w (run (CabanaRoutes.upload_images user rid files now) w)
  ∧ refused 400 w (run (AirbnbRoutes.upload_images user rid files now) w).
Proof. intros [->| ->]; by repeat split. Qed.

(** On sample data. *)
Lemma upload_without_files_witness :
  refused 400 (Sample.world Sample.abc)
    (run (@HotelRoutes.upload_images Sample.offline Sample.luis
            "no-such-id" (Some []) 1700000000000)
       (Sample.world Sample.abc)).
Proof.
  exact (proj1 (@upload_without_files Sample.offline Sample.luis "no-such-id"
                  (Sample.world Sample.abc) 1700000000000 (Some [])
                  (or_intror eq_refl))).
Defined.

(** setPrimary away from the list. With an integer index outside the
    bounds nothing is written on any route, but the routes do not agree
    on the status: with a non-empty list the hotel and rental routes
    answer 404 and the cabin route 400; with an empty list the three
    answer 404. With an index that is not a number (none was sent, or
    text that starts with no digit) and a non-empty list, the rental
    route answers 404 and writes nothing, while the other two answer 200:
    the hotel route leaves the list as it is, and the cabin route puts
    [undefined] in the place of the first reference. *)
Theorem setPrimary_outside `{Collaborators} user rid w d a now v :
  holds_images user rid w d a →
  let hotel := run (HotelRoutes.set_main user rid v now) w in
  let cabana := run (CabanaRoutes.set_main user rid v now) w in
  let airbnb := run (AirbnbRoutes.set_main user rid v now) w in
  (∀ i, parseInt v = VNum i →
        i < 0 ∨ Z.of_nat (length a) ≤ i →
        refused 404 w hotel
        ∧ refused (match a with [] => 404 | _ => 400 end) w cabana
        ∧ refused 404 w airbnb)
  ∧ (∀ x a0, parseInt v = VNaN → a = x :: a0 →
        (code hotel.1 = 200 ∧ hotel.2 = with_images rid d now (x :: a0) w)
        ∧ (code cabana.1 = 200
           ∧ cabana.2 = with_images rid d now (VUndef :: a0) w)
        ∧ refused 404 w airbnb).
Proof.
  intros Hh. cbv zeta. split.
  - intros i Hv Hi.
    destruct (hotel_set_main_outside _ _ _ _ _ now _ _ Hh Hv Hi) as [m1 ->].
    destruct (cabana_set_main_outside _ _ _ _ _ now _ _ Hh Hv Hi) as [m2 ->].
    refine (conj _ (conj _ _)); [done..|].
    eapply refused_404, airbnb_set_main_falsy; eauto.
    cbn [elem]. by rewrite at_index_outside.
  - intros x a0 Hv ->. refine (conj _ (conj _ _)).
    + unfold HotelRoutes.set_main. load Hh. rewrite Hv.
      cbn [truthy length_of strict_eq negb orb num_lt num_ge].
      destruct (Z.eqb_spec (Z.of_nat (length (x :: a0))) 0); [done|].
      cbn beta iota. by rewrite splice_NaN.
    + unfold CabanaRoutes.set_main. load Hh. rewrite Hv.
      cbn [truthy length_of strict_eq negb orb num_lt num_ge elem at_index].
      destruct (Z.eqb_spec (Z.of_nat (length (x :: a0))) 0); [done|].
      cbn beta iota. by rewrite splice_NaN.
    + eapply refused_404, airbnb_set_main_falsy; eauto.
Qed.

(** On sample data: index 3 of three images, on the cabin route. *)
Lemma setPrimary_outside_witness :
  refused 400 (Sample.world Sample.abc)
    (run (@CabanaRoutes.set_main Sample.offline Sample.ana Sample.casa
            (VNum 3) 1700000000000)
       (Sample.world Sample.abc)).
Proof.
  assert (holds_images Sample.ana Sample.casa (Sample.world Sample.abc)
            (Sample.listing Sample.abc) Sample.abc) as Hh.
  { repeat split; vm_compute; reflexivity. }
  destruct (@setPrimary_outside Sample.offline _ _ _ _ _ 1700000000000
              (VNum 3) Hh) as [Hint _].
  destruct (Hint 3 eq_refl) as (_ & Hc & _); [right; simpl; lia|].
  exact Hc.
Defined.

(** setPrimary neither loses nor repeats an image: for every position of
    the list, 0 included, the list the record holds afterwards is a
    rearrangement of the one it held, with the chosen image first. *)
Theorem setPrimary_keeps_images `{Collaborators} user rid w d a now v i x :
  holds_images user rid w d a →
  parseInt v = VNum i → 0 ≤ i → a !! Z.to_nat i = Some x →
  let kept (out : Response * World) :=
    code out.1 = 200
    ∧ ∃ d' a', docs out.2 !! rid = Some d'
               ∧ get "imagenes" d' = VArr a'
               ∧ a' ≡ₚ a ∧ head a' = Some x in
  kept (run (HotelRoutes.set_main user rid v now) w)
  ∧ kept (run (CabanaRoutes.set_main user rid v now) w)
  ∧ (truthy x = true → kept (run (AirbnbRoutes.set_main user rid v now) w)).
Proof.
  intros Hh Hv Hi Hx. cbv zeta.
  pose proof Hh as (Hdoc & _ & _ & Himg).
  assert (x :: delete (Z.to_nat i) a ≡ₚ a) as Hperm.
  { rewrite delete_take_drop. etrans; [apply Permutation_middle|].
    by rewrite take_drop_middle. }
  destruct (Z.eq_dec i 0) as [->|Hne].
  - destruct a as [|y a0]; [done|]. cbn in Hx. injection Hx as ->.
    rewrite (hotel_set_main_zero _ _ _ _ _ now Hh v x a0 eq_refl Hv).
    rewrite (cabana_set_main_zero _ _ _ _ _ now Hh v x a0 eq_refl Hv).
    refine (conj _ (conj _ _)); [by eauto 10..|].
    intros Ht.
    rewrite (airbnb_set_main_zero _ _ _ _ _ now Hh v x a0 eq_refl Hv Ht).
    by eauto 10.
  - assert (0 < i) as Hpos by lia.
    assert (∀ out, stored_images rid d now (x :: delete (Z.to_nat i) a) w out →
              code out.1 = 200
              ∧ ∃ d' a', docs out.2 !! rid = Some d'
                         ∧ get "imagenes" d' = VArr a'
                         ∧ a' ≡ₚ a ∧ head a' = Some x) as Hkept.
    { intros out Hs. split; [apply Hs|].
      destruct (holds_images_stored _ _ _ _ _ _ _ _ Hh Hs) as (Hd & _ & _ & Hi').
      eauto 10. }
    refine (conj _ (conj _ _)).
    + eapply Hkept, stored_directly, hotel_set_main_inside; eauto.
    + eapply Hkept, stored_directly, cabana_set_main_inside; eauto.
    + intros Ht.
      eapply Hkept, stored_directly, airbnb_set_main_inside; eauto.
Qed.

(** On sample data: promoting the second of three images. *)
Lemma setPrimary_keeps_images_witness :
  let out :=
    run (@HotelRoutes.set_main Sample.offline Sample.ana Sample.casa
           (VStr "1") 1700000000000) (Sample.world Sample.abc) in
  code out.1 = 200
  ∧ ∃ d' a', docs out.2 !! Sample.casa = Some d'
             ∧ get "imagenes" d' = VArr a'
             ∧ a' ≡ₚ Sample.abc ∧ head a' = Some (VStr "b.jpg").
Proof.
  assert (holds_images Sample.ana Sample.casa (Sample.world Sample.abc)
            (Sample.listing Sample.abc) Sample.abc) as Hh.
  { repeat split; vm_compute; reflexivity. }
  destruct (@setPrimary_keeps_images Sample.offline _ _ _ _ _ 1700000000000
              (VStr "1") 1 (VStr "b.jpg") Hh eq_refl) as (Hk & _);
    [lia|reflexivity|].
  exact Hk.
Defined.

(** Append then removeAt of the new last position is a round trip on the
    image list: the record holds the list it held before. *)
Theorem upload_then_remove `{Collaborators} user rid w d a now now' file s :
  holds_images user rid w d a →
  parseInt (VStr s) = VNum (Z.of_nat (length a)) →
  let d1 := set "updatedAt" (VDate now)
              (set "imagenes" (VArr (a ++ paths [file])%list) d) in
  let back upload remove :=
    stored_images rid d1 now' a
      (run (upload user rid (Some [file]) now) w).2
      (run (remove user rid s now')
         (run (upload user rid (Some [file]) now) w).2) in
  back HotelRoutes.upload_images HotelRoutes.delete_image
  ∧ back CabanaRoutes.upload_images CabanaRoutes.delete_image
  ∧ (truthy (get "path" file) = true →
     back AirbnbRoutes.upload_images AirbnbRoutes.delete_image).
Proof.
  intros Hh Hs. cbv zeta.
  pose proof Hh as (Hdoc & Hown & Hact & Himg).
  assert (holds_record user rid w d) as Hrec by done.
  assert (images_of d a) as Hof by (by left).
  assert ((a ++ paths [file])%list !! Z.to_nat (Z.of_nat (length a))
          = Some (get "path" file)) as Hx.
  { rewrite Nat2Z.id. by rewrite lookup_app_r, Nat.sub_diag. }
  assert (delete (Z.to_nat (Z.of_nat (length a))) (a ++ paths [file])%list = a)
    as Hdel.
  { rewrite Nat2Z.id, delete_take_drop.
    rewrite take_app_length, drop_ge; [apply app_nil_r|].
    rewrite length_app. cbn. lia. }
  assert (∀ out, stored_images rid d now (a ++ paths [file])%list w out →
            holds_images user rid out.2
              (set "updatedAt" (VDate now)
                 (set "imagenes" (VArr (a ++ paths [file])%list) d))
              (a ++ paths [file])%list) as Hnext.
  { intros out Hst. by eapply holds_images_stored. }
  refine (conj _ (conj _ _)).
  - pose proof (Hnext _ (stored_directly _ _ _ _ _ _ _
                           (hotel_upload _ _ _ _ _ now file [] Hrec Hof))) as H1.
    pose proof (stored_after_destroy _ _ _ _ _ _ _ _ _
                  (hotel_delete_inside _ _ _ _ _ now' H1 s _ _ Hs
                     ltac:(lia) Hx)) as Hst.
    by rewrite Hdel in Hst.
  - pose proof (Hnext _ (stored_directly _ _ _ _ _ _ _
                           (cabana_upload _ _ _ _ _ now file [] Hrec Hof))) as H1.
    pose proof (stored_after_destroy _ _ _ _ _ _ _ _ _
                  (cabana_delete_inside _ _ _ _ _ now' H1 s _ _ Hs
                     ltac:(lia) Hx)) as Hst.
    by rewrite Hdel in Hst.
  - intros Ht.
    pose proof (Hnext _ (stored_directly _ _ _ _ _ _ _
                           (airbnb_upload _ _ _ _ _ now file [] Hrec Hof))) as H1.
    pose proof (stored_after_destroy _ _ _ _ _ _ _ _ _
                  (airbnb_delete_inside _ _ _ _ _ now' H1 s _ _ Hs
                     ltac:(lia) Hx Ht)) as Hst.
    by rewrite Hdel in Hst.
Qed.

(** On sample data. *)
Lemma upload_then_remove_witness :
  let w1 :=
    (run (@HotelRoutes.upload_images Sample.offline Sample.ana Sample.casa
            (Some [[("path", VStr "d.jpg")]]) 1700000000000)
       (Sample.world Sample.abc)).2 in
  ∃ d1, stored_images Sample.casa d1 1700000000001 Sample.abc w1
          (run (@HotelRoutes.delete_image Sample.offline Sample.ana
                  Sample.casa "3" 1700000000001) w1).
Proof.
  assert (holds_images Sample.ana Sample.casa (Sample.world Sample.abc)
            (Sample.listing Sample.abc) Sample.abc) as Hh.
  { repeat split; vm_compute; reflexivity. }
  eexists.
  exact (proj1 (@upload_then_remove Sample.offline _ _ _ _ _ 1700000000000
                  1700000000001 [("path", VStr "d.jpg")] "3" Hh eq_refl)).
Defined.

(** The main image, read with no test of ownership: for an active
    record it is the first reference of the list, [null] when the list
    is empty or was never set, next to the number of images; a record
    that is not active answers 404. Nothing is written. *)
Theorem main_image_reads_first `{Collaborators} i w d a :
  docs w !! i = Some d →
  images_of d a →
  let shown (out : Response * World) :=
    code out.1 = 200 ∧ out.2 = w
    ∧ get_path ["data"; "mainImage"] (VObj (body out.1))
      = default VNull (head a)
    ∧ get_path ["data"; "totalImages"] (VObj (body out.1))
      = VNum (Z.of_nat (length a)) in
  (get "activo" d = VBool true →
     shown (run (HotelRoutes.main_image i) w)
     ∧ shown (run (AirbnbRoutes.main_image i) w))
  ∧ (get "activo" d = VBool false →
     refused 404 w (run (HotelRoutes.main_image i) w)
     ∧ refused 404 w (run (AirbnbRoutes.main_image i) w)).
Proof.
  intros Hdoc Himg. cbv zeta. split.
  - intros Hact.
    rewrite (hotel_main_image i w d a Hdoc Hact Himg).
    by rewrite (airbnb_main_image i w d a Hdoc Hact Himg).
  - intros Hact. apply main_image_hidden. by rewrite Hdoc.
Qed.

(** On sample data: a listing without images. *)
Lemma main_image_reads_first_witness :
  let out := run (@HotelRoutes.main_image Sample.offline Sample.casa)
               (Sample.world []) in
  code out.1 = 200
  ∧ get_path ["data"; "mainImage"] (VObj (body out.1)) = VNull
  ∧ get_path ["data"; "totalImages"] (VObj (body out.1)) = VNum 0.
Proof.
  assert (docs (Sample.world []) !! Sample.casa = Some (Sample.listing []))
    as Hdoc by (vm_compute; reflexivity).
  destruct (@main_image_reads_first Sample.offline _ _ _ []
              Hdoc (or_introl eq_refl)) as [Hshown _].
  destruct (Hshown eq_refl) as [(Hc & _ & Hm & Ht) _].
  exact (conj Hc (conj Hm Ht)).
Defined.

(** setPrimary, then the main image: the image that was at the
    index is the one shown. *)
Theorem setPrimary_then_main_image `{Collaborators} user rid w d a now v i x :
  holds_images user rid w d a →
  parseInt v = VNum i → 0 ≤ i → a !! Z.to_nat i = Some x →
  get_path ["data"; "mainImage"]
    (VObj (body (run (HotelRoutes.main_image rid)
                   (run (HotelRoutes.set_main user rid v now) w).2).1))
  = x
  ∧ (truthy x = true →
     get_path ["data"; "mainImage"]
       (VObj (body (run (AirbnbRoutes.main_image rid)
                      (run (AirbnbRoutes.set_main user rid v now) w).2).1))
     = x).
Proof.
  intros Hh Hv Hi Hx.
  pose proof Hh as (Hdoc & Hown & Hact & Himg).
  destruct (Z.eq_dec i 0) as [->|Hne].
  - destruct a as [|y a0]; [done|]. cbn in Hx. injection Hx as ->.
    rewrite (hotel_set_main_zero _ _ _ _ _ now Hh v x a0 eq_refl Hv).
    cbn [snd].
    rewrite (hotel_main_image rid w d (x :: a0) Hdoc Hact (or_introl Himg)).
    split; [done|]. intros Ht.
    rewrite (airbnb_set_main_zero _ _ _ _ _ now Hh v x a0 eq_refl Hv Ht).
    cbn [snd].
    by rewrite (airbnb_main_image rid w d (x :: a0) Hdoc Hact (or_introl Himg)).
  - assert (0 < i) as Hpos by lia.
    assert (∀ out, stored_images rid d now (x :: delete (Z.to_nat i) a) w out →
              ∃ d', docs out.2 !! rid = Some d'
                    ∧ get "activo" d' = VBool true
                    ∧ images_of d' (x :: delete (Z.to_nat i) a)) as Hnext.
    { intros out Hs.
      destruct (holds_images_stored _ _ _ _ _ _ _ _ Hh Hs) as (? & _ & ? & ?).
      eexists. split; [done|]. split; [done|]. by left. }
    split.
    + destruct (Hnext _ (stored_directly _ _ _ _ _ _ _
                  (hotel_set_main_inside _ _ _ _ _ now Hh v i x Hv Hpos Hx)))
        as (d' & Hd' & Ha' & Hi').
      by rewrite (hotel_main_image rid _ d' _ Hd' Ha' Hi').
    + intros Ht.
      destruct (Hnext _ (stored_directly _ _ _ _ _ _ _
                  (airbnb_set_main_inside _ _ _ _ _ now Hh v i x Hv Hpos Hx Ht)))
        as (d' & Hd' & Ha' & Hi').
      by rewrite (airbnb_main_image rid _ d' _ Hd' Ha' Hi').
Qed.

(** On sample data: the third image promoted, then shown. *)
Lemma setPrimary_then_main_image_witness :
  get_path ["data"; "mainImage"]
    (VObj (body (run (@HotelRoutes.main_image Sample.offline Sample.casa)
                   (run (@HotelRoutes.set_main Sample.offline Sample.ana
                           Sample.casa (VNum 2) 1700000000000)
                      (Sample.world Sample.abc)).2).1))
  = VStr "c.jpg".
Proof.
  assert (holds_images Sample.ana Sample.casa (Sample.world Sample.abc)
            (Sample.listing Sample.abc) Sample.abc) as Hh.
  { repeat split; vm_compute; reflexivity. }
  destruct (@setPrimary_then_main_image Sample.offline _ _ _ _ _
              1700000000000 (VNum 2) 2 (VStr "c.jpg") Hh eq_refl)
    as [Hm _]; [lia|reflexivity|].
  exact Hm.
Defined.

(** The image list as its owner reads it: the stored list, the empty
    list when none was ever set, and after an upload of at most ten
    acceptable files the old list followed by the new references. *)
Theorem get_images_shows_list `{Collaborators}
    user rid w d a now part parts :
  holds_record user rid w d →
  images_of d a →
  Forall acceptable (part :: parts) →
  (length (part :: parts) ≤ 10)%nat →
  let shows l (out : Response * World) :=
    code out.1 = 200 ∧ get "data" (body out.1) = VArr l in
  let request := Some (part :: parts) in
  let new := (a ++ (Multer.path <$> part :: parts))%list in
  (shows a (run (HotelRoutes.get_images user rid) w)
   ∧ shows new (run (HotelRoutes.get_images user rid)
                  (run (HotelRoutes.upload_route user rid request now) w).2))
  ∧ (shows a (run (CabanaRoutes.get_images user rid) w)
     ∧ shows new (run (CabanaRoutes.get_images user rid)
                    (run (CabanaRoutes.upload_route user rid request now)
                       w).2))
  ∧ (shows a (run (AirbnbRoutes.get_images user rid) w)
     ∧ shows new (run (AirbnbRoutes.get_images user rid)
                    (run (AirbnbRoutes.upload_route user rid request now)
                       w).2)).
Proof.
  intros Hrec Himg Hall Hlen. cbv zeta.
  destruct (get_images_owner user rid w d a Hrec Himg)
    as ((? & ? & _) & (? & ? & _) & (? & ? & _)).
  destruct (route_accepts user rid now _ Hall Hlen) as (-> & -> & ->).
  rewrite <-paths_file_of. cbn [fmap list_fmap].
  set (file := Multer.file_of part).
  set (files := list_fmap _ _ Multer.file_of parts).
  rewrite (hotel_upload _ _ _ _ _ now file files Hrec Himg).
  rewrite (cabana_upload _ _ _ _ _ now file files Hrec Himg).
  rewrite (airbnb_upload _ _ _ _ _ now file files Hrec Himg).
  cbn [snd].
  assert (holds_record user rid
            (with_images rid d now (a ++ paths (file :: files))%list w)
            (set "updatedAt" (VDate now)
               (set "imagenes" (VArr (a ++ paths (file :: files))%list) d))
          ∧ images_of
              (set "updatedAt" (VDate now)
                 (set "imagenes" (VArr (a ++ paths (file :: files))%list) d))
              (a ++ paths (file :: files))%list) as [Hrec' Himg'].
  { destruct Hrec as (Hdoc & Hown & Hact). split; [split; [|split]|left].
    - apply lookup_with_images.
    - by rewrite !get_set_ne.
    - by rewrite !get_set_ne.
    - rewrite get_set_ne by done. apply get_set_eq. }
  destruct (get_images_owner user rid _ _ _ Hrec' Himg')
    as ((? & ? & _) & (? & ? & _) & (? & ? & _)).
  done.
Qed.

(** On sample data: the list of [ana] after one upload. *)
Lemma get_images_shows_list_witness :
  get "data"
    (body (run (@AirbnbRoutes.get_images Sample.offline Sample.ana Sample.casa)
             (run (@AirbnbRoutes.upload_route Sample.offline Sample.ana
                     Sample.casa (Some [Sample.foto "d.jpg"])
                     1700000000000)
                (Sample.world Sample.abc)).2).1)
  = VArr [VStr "a.jpg"; VStr "b.jpg"; VStr "c.jpg"; VStr "d.jpg"].
Proof.
  assert (holds_record Sample.ana Sample.casa (Sample.world Sample.abc)
            (Sample.listing Sample.abc)) as Hrec.
  { repeat split; vm_compute; reflexivity. }
  assert (Forall acceptable [Sample.foto "d.jpg"]) as Hall
    by (repeat constructor; apply foto_acceptable).
  destruct (@get_images_shows_list Sample.offline _ _ _ _ Sample.abc
              1700000000000 (Sample.foto "d.jpg") [] Hrec
              (or_introl eq_refl) Hall) as (_ & _ & _ & _ & Hs);
    [cbn; lia|].
  exact Hs.
Defined.

(** After its soft delete a record is out of reach of the image routes,
    for its owner too: reading the list, append, removeAt and setPrimary
    answer 404, and so does the main-image route. *)
Theorem images_closed_after_softDelete `{Collaborators}
    user rid w d now file files s v :
  holds_record user rid w d →
  let w1 := (run (AirbnbController.deleteAirbnb user rid) w).2 in
  refused 404 w1 (run (AirbnbRoutes.get_images user rid) w1)
  ∧ refused 404 w1
      (run (AirbnbRoutes.upload_images user rid (Some (file :: files)) now) w1)
  ∧ refused 404 w1 (run (AirbnbRoutes.delete_image user rid s now) w1)
  ∧ refused 404 w1 (run (AirbnbRoutes.set_main user rid v now) w1)
  ∧ refused 404 w1 (run (AirbnbRoutes.main_image rid) w1).
Proof.
  intros (Hdoc & Hown & Hact). cbv zeta.
  rewrite (deleteAirbnb_allowed user rid w d Hdoc (denied_owner _ _ _ Hown)).
  cbn [snd].
  set (w1 := with_docs _ w).
  assert (docs w1 !! rid = Some (set "activo" (VBool false) d)) as Hdoc1
    by apply lookup_insert_eq.
  destruct (image_routes_find_nothing user rid w1 now file files s v)
    as (_ & _ & (? & ? & ? & ?)).
  { rewrite Hdoc1. apply matches_inactive, get_set_eq. }
  destruct (main_image_hidden rid w1) as [_ ?].
  { rewrite Hdoc1. apply get_set_eq. }
  done.
Qed.

(** On sample data. *)
Lemma images_closed_after_softDelete_witness :
  let w1 := (run (AirbnbController.deleteAirbnb Sample.ana Sample.casa)
               (Sample.world Sample.abc)).2 in
  refused 404 w1
    (run (@AirbnbRoutes.set_main Sample.offline Sample.ana Sample.casa
            (VNum 1) 1700000000000) w1).
Proof.
  assert (holds_record Sample.ana Sample.casa (Sample.world Sample.abc)
            (Sample.listing Sample.abc)) as Hrec.
  { repeat split; vm_compute; reflexivity. }
  destruct (@images_closed_after_softDelete Sample.offline _ _ _ _
              1700000000000 [] [] "0" (VNum 1) Hrec) as (_ & _ & _ & Hs & _).
  exact Hs.
Defined.

(** ** More on the controller *)

Section MoreController.
Context `{Collaborators}.
Implicit Types (k : string) (o body d : Obj) (w : World).

Lemma strict_eq_VStr v s : strict_eq v (VStr s) = true ↔ v = VStr s.
Proof.
  destruct v; cbn; try (split; discriminate).
  rewrite String.eqb_eq. split; congruence.
Qed.

Lemma denied_stranger user d owner w :
  AirbnbController.is_super user = false →
  get "propietario" d = VStr owner → owner ≠ id user →
  AirbnbController.denied user d w = (Ok true, w).
Proof.
  intros Hs Hown Hne. unfold AirbnbController.denied, toString.
  rewrite Hs. cbn [negb]. monad. rewrite Hown.
  by destruct (String.eqb_spec owner (id user)).
Qed.

Lemma not_elem_of_keys_del k o : NoDup (keys o) → k ∉ keys (del k o).
Proof.
  induction o as [|[k0 v0] o IH]; [intros _; apply not_elem_of_nil|].
  rewrite keys_cons. intros [Hk0 Hnd]%NoDup_cons. cbn [del].
  destruct (String.eqb_spec k k0) as [->|Hne]; [done|].
  rewrite keys_cons. apply not_elem_of_cons. auto.
Qed.

Lemma NoDup_renamed body : NoDup (keys body) → NoDup (keys (renamed body)).
Proof.
  intros Hnd. unfold renamed. destruct (truthy _); [|done].
  by apply NoDup_keys_del, NoDup_keys_set.
Qed.

(** Off the JSON fields and the stamp, the data handed to the store is
    the renamed body. *)
Lemma updateData_of_renamed user body now k :
  NoDup (keys body) →
  k ≠ "ultimaModificacion" →
  k ∉ AirbnbController.fieldsToParseAsJSON →
  (k ∈ keys (AirbnbController.updateData_of user body now)
   ↔ k ∈ keys (renamed body))
  ∧ get k (AirbnbController.updateData_of user body now)
    = get k (renamed body).
Proof.
  intros Hnd Hk1 Hk2. unfold AirbnbController.updateData_of.
  fold (renamed body).
  destruct (parse_fields_keys AirbnbController.fieldsToParseAsJSON
              (renamed body) (NoDup_renamed _ Hnd)) as (_ & Hk & Hg).
  rewrite elem_of_keys_set, Hk, get_set_ne, Hg by done.
  intuition congruence.
Qed.

(** A JSON field is parsed once, by its own round of the loop. *)
Lemma get_parse_fields fields o f :
  NoDup fields → f ∈ fields → NoDup (keys o) →
  get f (foldl AirbnbController.parse_field o fields)
  = get f (AirbnbController.parse_field o f).
Proof.
  revert o. induction fields as [|g fields IH]; intros o Hnd Hf Ho.
  - by apply elem_of_nil in Hf.
  - apply NoDup_cons in Hnd as [Hg Hnd]. cbn [foldl].
    destruct (parse_field_keys o g Ho) as (Ho' & _ & Hget).
    apply elem_of_cons in Hf as [->|Hf].
    + by destruct (parse_fields_keys fields _ Ho') as (_ & _ & ->).
    + rewrite IH by done.
      assert (f ≠ g) as Hne by (intros ->; done).
      unfold AirbnbController.parse_field at 1 3.
      rewrite (Hget f Hne).
      destruct (get f o) eqn:Ef; try (by apply Hget).
      destruct (truthy (VStr s)); [|by apply Hget].
      destruct (JSON_parse s); [|by apply Hget].
      by rewrite !get_set_eq.
Qed.

(** What [getMisAirbnb] answers. *)
Lemma getMisAirbnb_with user w :
  ∃ l, (∀ k d, (k, d) ∈ l ↔
          docs w !! k = Some d
          ∧ (AirbnbController.is_super user = true
             ∨ get "propietario" d = VStr (id user)))
       ∧ code (run (AirbnbController.getMisAirbnb user) w).1 = 200
       ∧ (run (AirbnbController.getMisAirbnb user) w).2 = w
       ∧ listed (run (AirbnbController.getMisAirbnb user) w).1
         = AirbnbController.populated
             ["nombre"; "email"; "updatedAt"] (users w) l.
Proof.
  unfold AirbnbController.getMisAirbnb. monad. cbv zeta.
  destruct (AirbnbController.is_super user).
  - destruct (find_returns [] [(["createdAt"], -1)] w) as [l Hl].
    exists l. rewrite Hl. split; [|done].
    intros k d. rewrite (elem_of_find _ _ _ k d _ _ Hl). cbn. intuition.
  - destruct (find_returns [(["propietario"], CEq (VStr (id user)))]
                [(["createdAt"], -1)] w) as [l Hl].
    exists l. rewrite Hl. split; [|done].
    intros k d. rewrite (elem_of_find _ _ _ k d _ _ Hl).
    unfold matches. cbn [forallb fst snd cond_holds get_path].
    rewrite andb_true_r, strict_eq_VStr. intuition discriminate.
Qed.

(** The ids a list response carries. *)
Lemma elem_of_populated select us l v :
  v ∈ AirbnbController.populated select us l ↔
  ∃ k d, (k, d) ∈ l ∧ v = sent k (populate "propietario" select us d).
Proof.
  unfold AirbnbController.populated. rewrite list_elem_of_fmap. split.
  - intros ([k d] & -> & Hin). eauto.
  - intros (k & d & Hin & ->). by exists (k, d).
Qed.

End MoreController.

(** ** Properties of the controller beyond the claims *)

(** The guard of [updateAirbnb] and [deleteAirbnb]. On a record owned by
    somebody else, a caller who is not a super-administrator gets 403
    from both and nothing is written; a super-administrator gets through:
    the delete answers 204 and leaves the record inactive, the update
    answers 200 when the validators accept the data. On an id the store
    does not have, both answer 404 to anybody. *)
Theorem controller_guard `{Collaborators} user i j w d owner body now :
  docs w !! i = Some d →
  get "propietario" d = VStr owner →
  owner ≠ id user →
  docs w !! j = None →
  (AirbnbController.is_super user = false →
     refused 403 w (run (AirbnbController.updateAirbnb user i body now) w)
     ∧ refused 403 w (run (AirbnbController.deleteAirbnb user i) w))
  ∧ (AirbnbController.is_super user = true →
     (let out := run (AirbnbController.deleteAirbnb user i) w in
      code out.1 = 204
      ∧ docs out.2 !! i = Some (set "activo" (VBool false) d))
     ∧ (validate (AirbnbController.updateData_of user body now) = None →
        code (run (AirbnbController.updateAirbnb user i body now) w).1 = 200))
  ∧ (refused 404 w (run (AirbnbController.updateAirbnb user j body now) w)
     ∧ refused 404 w (run (AirbnbController.deleteAirbnb user j) w)).
Proof.
  intros Hdoc Hown Hne Hnone. refine (conj _ (conj _ _)).
  - intros Hs.
    pose proof (denied_stranger user d owner w Hs Hown Hne) as Hd.
    unfold AirbnbController.updateAirbnb, AirbnbController.deleteAirbnb.
    monad. rewrite Hdoc, Hd. by split.
  - intros Hs. split.
    + cbv zeta.
      rewrite (deleteAirbnb_allowed user i w d Hdoc (denied_super _ _ _ Hs)).
      split; [done|]. apply lookup_insert_eq.
    + intros Hval.
      by destruct (updateAirbnb_accepted user i body now w d Hdoc
                     (denied_super _ _ _ Hs) Hval) as [b ->].
  - unfold AirbnbController.updateAirbnb, AirbnbController.deleteAirbnb.
    monad. rewrite Hnone. by split.
Qed.

(** On sample data: [luis] on the listing of [ana]. *)
Lemma controller_guard_witness :
  refused 403 (Sample.world Sample.abc)
    (run (AirbnbController.deleteAirbnb Sample.luis Sample.casa)
       (Sample.world Sample.abc)).
Proof.
  assert (docs (Sample.world Sample.abc) !! Sample.casa
          = Some (Sample.listing Sample.abc)) as Hdoc
    by (vm_compute; reflexivity).
  assert (docs (Sample.world Sample.abc) !! "no-such-id" = None) as Hnone
    by (vm_compute; reflexivity).
  assert (id Sample.ana ≠ id Sample.luis) as Hne by discriminate.
  destruct (@controller_guard Sample.offline Sample.luis _ "no-such-id" _ _ _
              [] 1700000000000 Hdoc eq_refl Hne Hnone) as (Hplain & _).
  exact (proj2 (Hplain eq_refl)).
Defined.

(** The price of an update. A truthy [precio] is stored under
    [precioPorNoche] and the record's own [precio] path is not written;
    a [precio] that is falsy (0, the empty string) is not renamed: it is
    written to [precio] as it comes. *)
Theorem precio_is_renamed `{Collaborators} user i w d patch now :
  docs w !! i = Some d →
  NoDup (keys patch) →
  let out := run (AirbnbController.updateAirbnb user i patch now) w in
  code out.1 = 200 →
  ∃ d', docs out.2 !! i = Some d'
        ∧ (truthy (get "precio" patch) = true →
           get "precioPorNoche" d' = get "precio" patch
           ∧ get "precio" d' = get "precio" d)
        ∧ (truthy (get "precio" patch) = false → has "precio" patch = true →
           get "precio" d' = get "precio" patch).
Proof.
  intros Hdoc Hnd out H200. subst out.
  destruct (updateAirbnb_200 user i patch now w d Hdoc H200) as [Hok Hval].
  destruct (updateAirbnb_accepted user i patch now w d Hdoc Hok Hval)
    as [b ->].
  destruct (updateData_of_keys user patch now Hnd) as [Hnd' _].
  assert (∀ k, k = "precio" ∨ k = "precioPorNoche" →
            k ≠ "ultimaModificacion"
            ∧ k ∉ AirbnbController.fieldsToParseAsJSON) as Hfree.
  { intros k Hk. unfold AirbnbController.fieldsToParseAsJSON.
    rewrite !not_elem_of_cons. destruct Hk as [-> | ->]; repeat split;
      (discriminate || apply not_elem_of_nil). }
  destruct (Hfree "precio" (or_introl eq_refl)) as [Hp1 Hp2].
  destruct (Hfree "precioPorNoche" (or_intror eq_refl)) as [Hn1 Hn2].
  destruct (updateData_of_renamed user patch now "precio" Hnd Hp1 Hp2)
    as [Hpin Hpget].
  destruct (updateData_of_renamed user patch now "precioPorNoche" Hnd Hn1 Hn2)
    as [Hnin Hnget].
  eexists. cbn [snd docs with_docs].
  refine (conj (lookup_insert_eq _ _ _) (conj _ _)).
  - intros Ht. unfold renamed in *. rewrite Ht in *. split.
    + rewrite get_assign_present, Hnget; [|done|].
      * rewrite get_del_ne by done. apply get_set_eq.
      * apply Hnin. rewrite elem_of_keys_del, elem_of_keys_set by done. auto.
    + rewrite get_assign_absent; [done|]. rewrite Hpin.
      by apply not_elem_of_keys_del, NoDup_keys_set.
  - intros Hf Hhas. unfold renamed in *. rewrite Hf in *.
    rewrite get_assign_present, Hpget; [done..|].
    apply Hpin. unfold has in Hhas. by apply bool_decide_eq_true_1 in Hhas.
Qed.

(** On sample data: a price of 950. *)
Lemma precio_is_renamed_witness :
  let out :=
    run (@AirbnbController.updateAirbnb Sample.offline Sample.ana Sample.casa
           [("precio", VNum 950)] 1700000000000) (Sample.world Sample.abc) in
  ∃ d', docs out.2 !! Sample.casa = Some d'
        ∧ get "precioPorNoche" d' = VNum 950 ∧ get "precio" d' = VUndef.
Proof.
  cbv zeta.
  assert (docs (Sample.world Sample.abc) !! Sample.casa
          = Some (Sample.listing Sample.abc)) as Hdoc
    by (vm_compute; reflexivity).
  assert (NoDup (keys [("precio", VNum 950)])) as Hnd
    by apply NoDup_singleton.
  destruct (@precio_is_renamed Sample.offline Sample.ana _ _ _
              [("precio", VNum 950)] 1700000000000 Hdoc Hnd)
    as (d' & Hd' & Hyes & _); [vm_compute; reflexivity|].
  exists d'. split; [exact Hd'|]. exact (Hyes eq_refl).
Defined.

(** The JSON fields of an update ([ubicacion], [contacto], [capacidad],
    [caracteristicas], [servicios], [metodosPago]). Given as non-empty
    text, a field is stored as what the text parses to; text that does not
    parse does not fail the update: it is stored as the text itself. A
    field given as anything else is stored as it comes. *)
Theorem json_fields_are_parsed `{Collaborators} user i w d patch now field :
  docs w !! i = Some d →
  NoDup (keys patch) →
  field ∈ AirbnbController.fieldsToParseAsJSON →
  has field patch = true →
  let out := run (AirbnbController.updateAirbnb user i patch now) w in
  code out.1 = 200 →
  ∃ d', docs out.2 !! i = Some d'
        ∧ get field d'
          = match get field patch with
            | VStr text =>
                if String.eqb text "" then VStr text
                else default (VStr text) (JSON_parse text)
            | v => v
            end.
Proof.
  intros Hdoc Hnd Hfield Hhas out H200. subst out.
  destruct (updateAirbnb_200 user i patch now w d Hdoc H200) as [Hok Hval].
  destruct (updateAirbnb_accepted user i patch now w d Hdoc Hok Hval)
    as [b ->].
  destruct (updateData_of_keys user patch now Hnd) as [Hnd' _].
  assert (field ≠ "precio" ∧ field ≠ "precioPorNoche"
          ∧ field ≠ "ultimaModificacion") as (Hf1 & Hf2 & Hf3).
  { unfold AirbnbController.fieldsToParseAsJSON in Hfield.
    rewrite !elem_of_cons, elem_of_nil in Hfield.
    repeat split; intros ->; intuition discriminate. }
  assert (get field (renamed patch) = get field patch
          ∧ field ∈ keys (renamed patch)) as [Hren Hin].
  { unfold has in Hhas. apply bool_decide_eq_true_1 in Hhas.
    unfold renamed. destruct (truthy (get "precio" patch)); [|done].
    rewrite get_del_ne, get_set_ne by done.
    rewrite elem_of_keys_del, elem_of_keys_set by done. auto. }
  assert (NoDup AirbnbController.fieldsToParseAsJSON) as Hfields.
  { apply (bool_decide_unpack _). by vm_compute. }
  destruct (parse_fields_keys AirbnbController.fieldsToParseAsJSON
              (renamed patch) (NoDup_renamed _ Hnd)) as (_ & Hkeys & _).
  eexists. cbn [snd docs with_docs].
  refine (conj (lookup_insert_eq _ _ _) _).
  rewrite get_assign_present; [|done|].
  - unfold AirbnbController.updateData_of. fold (renamed patch).
    rewrite get_set_ne by done.
    rewrite (get_parse_fields _ _ field Hfields Hfield (NoDup_renamed _ Hnd)).
    unfold AirbnbController.parse_field. rewrite Hren.
    destruct (get field patch) eqn:Eg; try by rewrite ?Hren, ?Eg.
    cbn [truthy]. destruct (String.eqb s ""); cbn [negb]; [by rewrite Hren|].
    destruct (JSON_parse s); cbn [default]; [apply get_set_eq|by rewrite Hren].
  - unfold AirbnbController.updateData_of. fold (renamed patch).
    rewrite elem_of_keys_set. right. by apply Hkeys.
Qed.

(** On sample data: no text parses, and the update still goes through. *)
Lemma json_fields_are_parsed_witness :
  let out :=
    run (@AirbnbController.updateAirbnb Sample.offline Sample.ana Sample.casa
           [("ubicacion", VStr "{ciudad")] 1700000000000)
      (Sample.world Sample.abc) in
  ∃ d', docs out.2 !! Sample.casa = Some d'
        ∧ get "ubicacion" d' = VStr "{ciudad".
Proof.
  cbv zeta.
  assert (docs (Sample.world Sample.abc) !! Sample.casa
          = Some (Sample.listing Sample.abc)) as Hdoc
    by (vm_compute; reflexivity).
  assert (NoDup (keys [("ubicacion", VStr "{ciudad")])) as Hnd
    by apply NoDup_singleton.
  assert ("ubicacion" ∈ AirbnbController.fieldsToParseAsJSON) as Hf
    by apply list_elem_of_here.
  exact (@json_fields_are_parsed Sample.offline Sample.ana _ _ _
           [("ubicacion", VStr "{ciudad")] 1700000000000 "ubicacion"
           Hdoc Hnd Hf eq_refl eq_refl).
Defined.

(** The audit stamp of an update is the server's: after a successful
    update the record's [ultimaModificacion] names the caller and the time
    of the call, whatever [ultimaModificacion] the body carried. *)
Theorem update_stamp_is_not_forged `{Collaborators} user i w d patch now :
  docs w !! i = Some d →
  NoDup (keys patch) →
  let out := run (AirbnbController.updateAirbnb user i patch now) w in
  code out.1 = 200 →
  ∃ d', docs out.2 !! i = Some d'
        ∧ get_path ["ultimaModificacion"; "usuario"] (VObj d') = VStr (id user)
        ∧ get_path ["ultimaModificacion"; "fecha"] (VObj d') = VDate now
        ∧ ∃ campos,
            get_path ["ultimaModificacion"; "camposModificados"] (VObj d')
            = VArr (VStr <$> campos)
            ∧ ∀ k, ¬ reserved k → (k ∈ campos ↔ k ∈ keys patch).
Proof.
  intros Hdoc Hnd out H200. subst out.
  destruct (updateAirbnb_200 user i patch now w d Hdoc H200) as [Hok Hval].
  destruct (updateAirbnb_accepted user i patch now w d Hdoc Hok Hval)
    as [b ->].
  destruct (updateData_of_keys user patch now Hnd) as [Hnd' _].
  eexists. cbn [snd docs with_docs].
  refine (conj (lookup_insert_eq _ _ _) _).
  cbn [get_path].
  rewrite get_assign_present; [|done|].
  - unfold AirbnbController.updateData_of. fold (renamed patch).
    rewrite get_set_eq. cbn [get_path get String.eqb Ascii.eqb Bool.eqb].
    refine (conj eq_refl (conj eq_refl _)). eexists. split; [reflexivity|].
    intros k Hk.
    destruct (parse_fields_keys AirbnbController.fieldsToParseAsJSON
                (renamed patch) (NoDup_renamed _ Hnd)) as (_ & -> & _).
    unfold reserved in Hk. unfold renamed.
    destruct (truthy (get "precio" patch)); [|done].
    rewrite elem_of_keys_del, elem_of_keys_set by tauto. intuition.
  - unfold AirbnbController.updateData_of. rewrite elem_of_keys_set. auto.
Qed.

(** On sample data: a body that brings a stamp of its own. *)
Lemma update_stamp_is_not_forged_witness :
  let out :=
    run (@AirbnbController.updateAirbnb Sample.offline Sample.ana Sample.casa
           [("ultimaModificacion",
             VObj [("usuario", VStr (id Sample.luis))])] 1700000000000)
      (Sample.world Sample.abc) in
  ∃ d', docs out.2 !! Sample.casa = Some d'
        ∧ get_path ["ultimaModificacion"; "usuario"] (VObj d')
          = VStr (id Sample.ana).
Proof.
  cbv zeta.
  assert (docs (Sample.world Sample.abc) !! Sample.casa
          = Some (Sample.listing Sample.abc)) as Hdoc
    by (vm_compute; reflexivity).
  assert (NoDup (keys [("ultimaModificacion",
                        VObj [("usuario", VStr (id Sample.luis))])])) as Hnd
    by apply NoDup_singleton.
  destruct (@update_stamp_is_not_forged Sample.offline Sample.ana _ _ _
              _ 1700000000000 Hdoc Hnd)
    as (d' & Hd' & Hu & _); [vm_compute; reflexivity|].
  exists d'. exact (conj Hd' Hu).
Defined.

Section MoreListing.
Context `{Collaborators}.

Lemma strict_eq_VBool v b : strict_eq v (VBool b) = true ↔ v = VBool b.
Proof.
  destruct v as [| |b'| | | | | |]; cbn; try (split; discriminate).
  destruct b', b; cbn; split; congruence.
Qed.

(** The ids carried by a list built from the pairs [l]. *)
Lemma elem_of_ids select us l k :
  VStr k ∈ sent_path "_id" <$> AirbnbController.populated select us l
  ↔ ∃ d, (k, d) ∈ l.
Proof.
  rewrite list_elem_of_fmap. split.
  - intros (v & Hid & (k' & d & Hin & ->)%elem_of_populated).
    rewrite sent_path_id in Hid. injection Hid as ->. eauto.
  - intros [d Hin]. eexists. split; [|apply elem_of_populated; eauto].
    by rewrite sent_path_id.
Qed.

Lemma filter_get_set_eq p c f : filter_get p (filter_set p c f) = Some c.
Proof.
  induction f as [|[p0 c0] f IH]; cbn [filter_set filter_get].
  - by rewrite bool_decide_eq_true_2.
  - case_bool_decide as E; cbn [filter_get].
    + by rewrite bool_decide_eq_true_2.
    + by rewrite bool_decide_eq_false_2.
Qed.

(** With an empty query string the filter is [{ activo: true }]. *)
Lemma filters_for_empty caller w :
  plain caller →
  AirbnbController.filters_for caller [] w
  = (Ok [(["activo"], CEq (VBool true))], w).
Proof.
  intros Hplain. unfold AirbnbController.filters_for.
  destruct caller as [u|]; [cbn in Hplain; by rewrite Hplain|done].
Qed.

End MoreListing.

(** [getMisAirbnb] answers 200 with the records of its caller, active or
    not, and with every record of the collection when the caller is a
    super-administrator; it writes nothing. *)
Theorem getMisAirbnb_lists `{Collaborators} user w :
  let out := run (AirbnbController.getMisAirbnb user) w in
  code out.1 = 200 ∧ out.2 = w
  ∧ ∀ k, VStr k ∈ listed_ids out.1
         ↔ ∃ d, docs w !! k = Some d
                ∧ (AirbnbController.is_super user = true
                   ∨ get "propietario" d = VStr (id user)).
Proof.
  cbv zeta. destruct (getMisAirbnb_with user w) as (l & Hl & Hc & Hw & El).
  refine (conj Hc (conj Hw _)). intros k.
  unfold listed_ids. rewrite El, elem_of_ids.
  split; intros [d Hd]; exists d; by apply Hl.
Qed.

(** The public list, for a caller who is not elevated: whatever the query
    string, every document listed is active; with an empty query string
    the list answers 200 with exactly the active records. *)
Theorem public_list_is_active `{Collaborators} caller query w :
  plain caller →
  let out := run (AirbnbController.getAllAirbnb caller query) w in
  (∀ v, v ∈ listed out.1 → sent_path "activo" v = VBool true)
  ∧ (query = [] →
     code out.1 = 200
     ∧ ∀ k, VStr k ∈ listed_ids out.1
            ↔ ∃ d, docs w !! k = Some d ∧ get "activo" d = VBool true).
Proof.
  intros Hplain. cbv zeta. split.
  - intros v Hv.
    destruct (AirbnbController.filters_for caller query w)
      as [[f|e] w2] eqn:Ef.
    + pose proof (filters_for_pure _ _ _ _ _ Ef) as ->.
      destruct (getAllAirbnb_with caller query w f Ef) as (l & Hl & _ & El).
      rewrite El in Hv. apply elem_of_populated in Hv as (k & d & Hin & ->).
      destruct (proj1 (Hl _ _) Hin) as [_ Hm].
      pose proof (matches_filter_get _ _ _ _ Hm
                    (filters_for_plain _ _ _ _ _ Hplain Ef)) as Hc.
      cbn [cond_holds get_path] in Hc. apply strict_eq_VBool in Hc.
      by rewrite sent_path_other, get_populate.
    + rewrite (getAllAirbnb_throws _ _ _ _ _ Ef) in Hv.
      by apply elem_of_nil in Hv.
  - intros ->.
    destruct (getAllAirbnb_with caller [] w _ (filters_for_empty _ _ Hplain))
      as (l & Hl & Hc & El).
    split; [exact Hc|]. intros k. unfold listed_ids. rewrite El, elem_of_ids.
    split; intros [d Hd]; exists d.
    + apply Hl in Hd as [Hd Hm]. split; [done|].
      unfold matches in Hm. cbn [forallb fst snd cond_holds get_path] in Hm.
      rewrite andb_true_r in Hm. by apply strict_eq_VBool.
    + apply Hl. destruct Hd as [Hd Ha]. split; [done|].
      unfold matches. cbn [forallb fst snd cond_holds get_path].
      rewrite andb_true_r. by apply strict_eq_VBool.
Qed.

(** On sample data: an anonymous visitor sees the one active listing. *)
Lemma public_list_is_active_witness :
  VStr Sample.casa
  ∈ listed_ids (run (@AirbnbController.getAllAirbnb Sample.offline None [])
                  (Sample.world Sample.abc)).1.
Proof.
  destruct (@public_list_is_active Sample.offline None []
              (Sample.world Sample.abc) I) as [_ Hall].
  destruct (Hall eq_refl) as [_ Hids].
  apply Hids. exists (Sample.listing Sample.abc).
  split; vm_compute; reflexivity.
Defined.

(** The price criteria of the public list make one condition on
    [precioPorNoche]: both bounds when the query gives both, one bound
    and the other side open when it gives one, no condition when it gives
    none. The second bound does not erase the first. *)
Theorem price_bounds_combine `{Collaborators} caller query w f w' :
  plain caller →
  AirbnbController.filters_for caller query w = (Ok f, w') →
  filter_get ["precioPorNoche"] f
  = match truthy (get "precioMin" query), truthy (get "precioMax" query) with
    | true, true =>
        Some (CRange (Some (get "precioMin" query))
                (Some (get "precioMax" query)))
    | true, false => Some (CRange (Some (get "precioMin" query)) None)
    | false, true => Some (CRange None (Some (get "precioMax" query)))
    | false, false => None
    end.
Proof.
  intros Hplain. unfold AirbnbController.filters_for.
  assert (match caller with
          | Some u => AirbnbController.is_super u
          | None => false
          end = false) as ->.
  { destruct caller; [exact Hplain|done]. }
  unfold new_RegExp. monad.
  destruct (truthy (get "ciudad" query));
    [destruct (RegExp_error _ _); [discriminate|]|];
    intros [= <- <-];
    destruct (truthy (get "precioMin" query)),
      (truthy (get "precioMax" query)),
      (truthy (get "huespedes" query)),
      (truthy (get "tipo" query));
    rewrite ?(filter_get_set_ne ["precioPorNoche"] ["capacidad"; "huespedes"]),
      ?(filter_get_set_ne ["precioPorNoche"] ["tipoPropiedad"]) by done;
    rewrite ?filter_get_set_eq;
    rewrite ?(filter_get_set_ne ["precioPorNoche"] ["ubicacion"; "ciudad"])
      by done;
    try reflexivity;
    rewrite ?filter_get_set_eq; reflexivity.
Qed.

(** On sample data: a minimum and a maximum. *)
Lemma price_bounds_combine_witness :
  ∃ f, @AirbnbController.filters_for Sample.offline None
         [("precioMin", VStr "500"); ("precioMax", VStr "900")]
         (Sample.world Sample.abc)
       = (Ok f, Sample.world Sample.abc)
       ∧ filter_get ["precioPorNoche"] f
         = Some (CRange (Some (VStr "500")) (Some (VStr "900"))).
Proof.
  eexists. split; [reflexivity|].
  exact (@price_bounds_combine Sample.offline None
           [("precioMin", VStr "500"); ("precioMax", VStr "900")]
           (Sample.world Sample.abc) _ _ I eq_refl).
Defined.

(** A [ciudad] that is not a regular expression makes the public list
    answer 400 with the message of the SyntaxError, for a caller who is
    not elevated; nothing is looked up. *)
Theorem list_with_bad_pattern `{Collaborators} caller query w message :
  plain caller →
  truthy (get "ciudad" query) = true →
  RegExp_error (get "ciudad" query) "i" = Some message →
  run (AirbnbController.getAllAirbnb caller query) w
  = (json 400 (error_body message), w).
Proof.
  intros Hplain Ht He.
  unfold AirbnbController.getAllAirbnb, AirbnbController.filters_for.
  assert (match caller with
          | Some u => AirbnbController.is_super u
          | None => false
          end = false) as ->.
  { destruct caller; [exact Hplain|done]. }
  unfold new_RegExp. monad. by rewrite Ht, He.
Qed.

(** On sample data: an anonymous caller asks for the city [(]. *)
Lemma list_with_bad_pattern_witness :
  run (@AirbnbController.getAllAirbnb Sample.online None
         [("ciudad", VStr "(")]) (Sample.world Sample.abc)
  = (json 400
       (error_body "Invalid regular expression: /(/i: Unterminated group"),
     Sample.world Sample.abc).
Proof.
  exact (@list_with_bad_pattern Sample.online None [("ciudad", VStr "(")]
           (Sample.world Sample.abc) _ I eq_refl eq_refl).
Defined.

(** ** Toggles, composed *)

(** Two toggles by an elevated caller give the record its [activo] back,
    with every path but the stamp as before; in between the record is in
    the opposite state, and each stamp names the state it led to:
    [bloqueado] when the record went inactive, [activado] when it went
    active. A toggle on an id the store does not have answers 404. *)
Theorem toggle_twice r admin i j w d b now now' :
  toggle_test r admin = true →
  docs w !! i = Some d →
  get "activo" d = VBool b →
  docs w !! j = None →
  let w1 := (run (toggle_status r admin i now) w).2 in
  let w2 := (run (toggle_status r admin i now') w1).2 in
  (∃ d1, docs w1 !! i = Some d1
         ∧ get "activo" d1 = VBool (negb b)
         ∧ get_path ["ultimaModificacion"; "accion"] (VObj d1)
           = VStr (if b then "bloqueado" else "activado"))
  ∧ (∃ d2, docs w2 !! i = Some d2
           ∧ get "activo" d2 = VBool b
           ∧ get_path ["ultimaModificacion"; "accion"] (VObj d2)
             = VStr (if b then "activado" else "bloqueado")
           ∧ ∀ k, k ≠ "ultimaModificacion" → get k d2 = get k d)
  ∧ refused 404 w (run (toggle_status r admin j now) w).
Proof.
  intros Hyes Hdoc Hact Hnone. cbv zeta.
  destruct (toggle_flips r admin i now w d Hyes Hdoc) as [b1 ->].
  cbn [snd]. rewrite Hact. cbn [truthy].
  set (d1 := set "ultimaModificacion" _ (set "activo" (VBool (negb b)) d)).
  set (w1 := with_docs (<[i := d1]> (docs w)) w).
  assert (docs w1 !! i = Some d1) as Hdoc1 by apply lookup_insert_eq.
  assert (get "activo" d1 = VBool (negb b)) as Hact1.
  { subst d1. rewrite get_set_ne by done. apply get_set_eq. }
  destruct (toggle_flips r admin i now' w1 d1 Hyes Hdoc1) as [b2 ->].
  cbn [snd]. rewrite Hact1. cbn [truthy]. rewrite negb_involutive.
  refine (conj _ (conj _ _)).
  - exists d1. refine (conj Hdoc1 (conj Hact1 _)).
    subst d1. cbn [get_path]. rewrite get_set_eq. by destruct b.
  - eexists. cbn [docs with_docs].
    refine (conj (lookup_insert_eq _ _ _) (conj _ (conj _ _))).
    + rewrite get_set_ne by done. apply get_set_eq.
    + cbn [get_path]. rewrite get_set_eq. by destruct b.
    + intros k Hk. rewrite get_set_ne by done.
      destruct (String.eqb_spec k "activo") as [->|Hne].
      * by rewrite get_set_eq.
      * rewrite get_set_ne by done. subst d1. by rewrite !get_set_ne.
  - destruct r; cbn [toggle_status toggle_test] in *;
      [unfold HotelRoutes.toggle_status
      |unfold CabanaRoutes.toggle_status
      |unfold AirbnbRoutes.toggle_status];
      monad; rewrite Hyes; cbn [negb]; by rewrite Hnone.
Qed.

(** On sample data: blocking the listing of [ana] and letting it back. *)
Lemma toggle_twice_witness :
  let w1 := (run (toggle_status Hotel Sample.direccion Sample.casa
                    1700000000000) (Sample.world Sample.abc)).2 in
  let w2 := (run (toggle_status Hotel Sample.direccion Sample.casa
                    1700000000001) w1).2 in
  (∃ d1, docs w1 !! Sample.casa = Some d1 ∧ get "activo" d1 = VBool false)
  ∧ (∃ d2, docs w2 !! Sample.casa = Some d2 ∧ get "activo" d2 = VBool true).
Proof.
  cbv zeta.
  assert (docs (Sample.world Sample.abc) !! Sample.casa
          = Some (Sample.listing Sample.abc)) as Hdoc
    by (vm_compute; reflexivity).
  assert (docs (Sample.world Sample.abc) !! "no-such-id" = None) as Hnone
    by (vm_compute; reflexivity).
  destruct (toggle_twice Hotel Sample.direccion Sample.casa "no-such-id" _ _
              true 1700000000000 1700000000001 eq_refl Hdoc eq_refl Hnone)
    as ((d1 & H1 & A1 & _) & (d2 & H2 & A2 & _) & _).
  split; [exists d1|exists d2]; by split.
Defined.

(** A toggle undoes a soft delete: after the owner's delete and one
    toggle by an elevated caller the record is the owner's active record
    again, with the paths it had, and the image routes take it. *)
Theorem toggle_undoes_softDelete owner admin i w d now :
  holds_record owner i w d →
  toggle_test Airbnb admin = true →
  let w1 := (run (AirbnbController.deleteAirbnb owner i) w).2 in
  let w2 := (run (toggle_status Airbnb admin i now) w1).2 in
  ∃ d2, holds_record owner i w2 d2
        ∧ ∀ k, k ≠ "ultimaModificacion" → get k d2 = get k d.
Proof.
  intros (Hdoc & Hown & Hact) Hyes. cbv zeta.
  rewrite (deleteAirbnb_allowed owner i w d Hdoc (denied_owner _ _ _ Hown)).
  cbn [snd].
  set (w1 := with_docs _ w).
  assert (docs w1 !! i = Some (set "activo" (VBool false) d)) as Hdoc1
    by apply lookup_insert_eq.
  destruct (toggle_flips Airbnb admin i now w1 _ Hyes Hdoc1) as [b ->].
  cbn [snd]. rewrite get_set_eq. cbn [truthy negb].
  eexists. split; [split; [apply lookup_insert_eq|split]|].
  - by rewrite !get_set_ne.
  - rewrite get_set_ne by done. apply get_set_eq.
  - intros k Hk. rewrite get_set_ne by done.
    destruct (String.eqb_spec k "activo") as [->|Hne].
    + by rewrite get_set_eq.
    + by rewrite !get_set_ne.
Qed.

(** On sample data. *)
Lemma toggle_undoes_softDelete_witness :
  let w1 := (run (AirbnbController.deleteAirbnb Sample.ana Sample.casa)
               (Sample.world Sample.abc)).2 in
  let w2 := (run (toggle_status Airbnb Sample.direccion Sample.casa
                    1700000000000) w1).2 in
  ∃ d2, holds_record Sample.ana Sample.casa w2 d2.
Proof.
  cbv zeta.
  assert (holds_record Sample.ana Sample.casa (Sample.world Sample.abc)
            (Sample.listing Sample.abc)) as Hrec.
  { repeat split; vm_compute; reflexivity. }
  destruct (toggle_undoes_softDelete Sample.ana Sample.direccion _ _ _
              1700000000000 Hrec eq_refl) as (d2 & H2 & _).
  by exists d2.
Defined.

(** ** Create *)

(** [createAirbnb] writes the caller as owner over whatever [propietario]
    the body carries. With data the validators reject it answers 400 with
    their message and stores nothing; with data they accept it answers
    201, the record stored under the new id and the record sent both name
    the caller as owner, and no other record changes. *)
Theorem create_owner_is_caller `{Collaborators} user data fresh w :
  let made := run (AirbnbController.createAirbnb user data fresh) w in
  match validate (set "propietario" (VStr (id user)) data) with
  | Some message => made = (json 400 (error_body message), w)
  | None =>
      code made.1 = 201
      ∧ (∃ d, docs made.2 !! fresh = Some d
              ∧ get "propietario" d = VStr (id user))
      ∧ get_path ["data"; "alojamiento"; "propietario"] (VObj (body made.1))
        = VStr (id user)
      ∧ get_path ["data"; "alojamiento"; "_id"] (VObj (body made.1))
        = VStr fresh
      ∧ ∀ k, k ≠ fresh → docs made.2 !! k = docs w !! k
  end.
Proof.
  cbv zeta. unfold AirbnbController.createAirbnb, create. monad.
  destruct (validate (set "propietario" (VStr (id user)) data)) eqn:Ev;
    [done|].
  cbn [fst snd code body json docs with_docs].
  assert (get "propietario"
            (schema_defaults (set "propietario" (VStr (id user)) data))
          = VStr (id user)) as Hown.
  { unfold schema_defaults. destruct (has "activo" _).
    - apply get_set_eq.
    - rewrite get_set_ne by done. apply get_set_eq. }
  refine (conj eq_refl (conj _ (conj _ (conj eq_refl _)))).
  - eexists. split; [apply lookup_insert_eq|exact Hown].
  - exact Hown.
  - intros k Hk. by rewrite lookup_insert_ne.
Qed.

(** ** The migration of the cabins *)

Section Migration.
Context `{Collaborators}.
Implicit Types (k : string) (v : JSVal) (o d : Obj) (l : list JSVal).

Lemma elem_of_keys_get k o : get k o ≠ VUndef → k ∈ keys o.
Proof.
  intros Hg. destruct (decide (k ∈ keys o)) as [|Hno]; [done|].
  by rewrite get_absent in Hg.
Qed.

(** Writing to a path the value it has changes nothing. *)
Lemma set_same k o : k ∈ keys o → set k (get k o) o = o.
Proof.
  induction o as [|[k' v'] o IH]; [by intros ?%elem_of_nil|].
  rewrite keys_cons. cbn [set get]. intros Hk.
  destruct (String.eqb_spec k k') as [->|Hne]; [done|].
  apply elem_of_cons in Hk as [?|Hk]; [done|]. by rewrite IH.
Qed.

Lemma normalize_fresh v : stale_image v = false → normalize v = v.
Proof. destruct v; try done. cbn [normalize]. by intros ->. Qed.

Lemma stale_normalize v : stale_image (normalize v) = false.
Proof.
  destruct v; try done. cbn [normalize].
  destruct (stale_image (VStr s)) eqn:E; [|done].
  cbn [stale_image]. unfold String.append. by destruct s.
Qed.

Lemma normalize_idemp v : normalize (normalize v) = normalize v.
Proof. apply normalize_fresh, stale_normalize. Qed.

(** On strings, the [map] of the migration normalizes each image, and
    raises [needsUpdate] exactly when some image was stale. *)
Lemma migrate_images_strings l :
  Forall (λ v, ∃ s, v = VStr s) l →
  CabanaRoutes.migrate_images l = Ok (normalize <$> l, existsb stale_image l).
Proof.
  induction 1 as [|v l [s ->] _ IH]; [done|].
  cbn [CabanaRoutes.migrate_images CabanaRoutes.migrate_image].
  rewrite IH. cbn [fmap list_fmap existsb normalize stale_image].
  by destruct (negb (String.prefix "/" s) && negb (String.prefix "http" s)).
Qed.

Lemma fresh_list l :
  existsb stale_image l = false → normalize <$> l = l.
Proof.
  induction l as [|v l IH]; [done|]. cbn [existsb].
  intros [Hv Hl]%orb_false_elim. cbn [fmap list_fmap].
  f_equal; [by apply normalize_fresh|by apply IH].
Qed.

Lemma migrated_doc_fresh d : stale d = false → migrated_doc d = d.
Proof.
  unfold stale, migrated_doc. destruct (get "imagenes" d) eqn:Eg; try done.
  intros Hf. rewrite (fresh_list _ Hf), <-Eg. apply set_same.
  apply elem_of_keys_get. by rewrite Eg.
Qed.

Lemma get_migrated_doc d :
  get "imagenes" (migrated_doc d)
  = match get "imagenes" d with
    | VArr l => VArr (normalize <$> l)
    | v => v
    end.
Proof.
  unfold migrated_doc. destruct (get "imagenes" d) eqn:Eg; try done.
  apply get_set_eq.
Qed.

Lemma stale_migrated_doc d : stale (migrated_doc d) = false.
Proof.
  unfold stale. rewrite get_migrated_doc.
  destruct (get "imagenes" d) as [| | | | | | |l|]; try done.
  induction l as [|v l IH]; [done|]. cbn [fmap list_fmap existsb].
  by rewrite stale_normalize.
Qed.

Lemma migrated_doc_idemp d : migrated_doc (migrated_doc d) = migrated_doc d.
Proof. apply migrated_doc_fresh, stale_migrated_doc. Qed.

Lemma typed_migrated_doc d : typed_images d → typed_images (migrated_doc d).
Proof.
  unfold typed_images. intros Ht Hhas. rewrite get_migrated_doc.
  destruct (get "imagenes" d) eqn:Eg.
  all: try (unfold migrated_doc in Hhas; rewrite Eg in Hhas;
            destruct (Ht Hhas) as (l' & [=] & _)).
  assert (has "imagenes" d = true) as Hd.
  { apply bool_decide_eq_true_2, elem_of_keys_get. by rewrite Eg. }
  destruct (Ht Hd) as (l' & [= <-] & Hall).
  eexists. split; [done|]. apply Forall_fmap.
  eapply Forall_impl; [exact Hall|]. intros v [s ->]. cbn.
  destruct (negb _ && negb _); eauto.
Qed.

(** The loop: it counts the stale documents and leaves each document of
    its list migrated; it touches no other. *)
Lemma migrate_loop_spec cabanas n w :
  NoDup cabanas.*1 →
  (∀ k d, (k, d) ∈ cabanas →
          docs w !! k = Some d ∧ has "imagenes" d = true ∧ typed_images d) →
  ∃ ds, CabanaRoutes.migrate_loop cabanas n w
        = (Ok (n + Z.of_nat (length
                 (filter (λ kd, Is_true (stale kd.2)) cabanas))),
           with_docs ds w)
        ∧ ∀ k, ds !! k
               = if decide (k ∈ cabanas.*1)
                 then migrated_doc <$> docs w !! k
                 else docs w !! k.
Proof.
  revert n w. induction cabanas as [|[k0 d0] rest IH]; intros n w Hnd Hall.
  - exists (docs w). cbn. rewrite Z.add_0_r. split; [by destruct w|].
    intros k. by rewrite decide_False by apply not_elem_of_nil.
  - cbn [fmap list_fmap fst] in Hnd. apply NoDup_cons in Hnd as [Hk0 Hnd].
    destruct (Hall k0 d0 ltac:(apply list_elem_of_here)) as (Hd0 & Hhas & Ht).
    destruct (Ht Hhas) as (l & Eg & Hstr).
    cbn [CabanaRoutes.migrate_loop]. monad. rewrite Eg.
    rewrite (migrate_images_strings l Hstr).
    set (w1 := with_docs (<[k0 := migrated_doc d0]> (docs w)) w).
    assert (∀ k d, (k, d) ∈ rest →
              docs w1 !! k = Some d ∧ has "imagenes" d = true ∧ typed_images d)
      as Hall1.
    { intros k d Hin.
      destruct (Hall k d ltac:(by apply list_elem_of_further)) as (? & ? & ?).
      split; [|done]. subst w1. cbn [docs with_docs].
      rewrite lookup_insert_ne; [done|]. intros ->. apply Hk0.
      apply list_elem_of_fmap. by exists (k, d). }
    assert (stale d0 = existsb stale_image l) as Hst
      by (unfold stale; by rewrite Eg).
    assert (∀ (ds : Collection), (∀ k, ds !! k
                          = if decide (k ∈ rest.*1)
                            then migrated_doc <$> docs w1 !! k
                            else docs w1 !! k) →
              ∀ k, ds !! k
                   = if decide (k ∈ ((k0, d0) :: rest).*1)
                     then migrated_doc <$> docs w !! k
                     else docs w !! k) as Hglue.
    { intros ds Hds k. rewrite Hds. subst w1. cbn [docs with_docs].
      cbn [fmap list_fmap fst].
      destruct (decide (k = k0)) as [->|Hne].
      - rewrite decide_False by done.
        rewrite decide_True by apply list_elem_of_here.
        by rewrite lookup_insert_eq, Hd0.
      - rewrite lookup_insert_ne by done.
        destruct (decide (k ∈ rest.*1)).
        + by rewrite decide_True by (by apply list_elem_of_further).
        + rewrite decide_False; [done|].
          by intros [?|?]%elem_of_cons. }
    rewrite filter_cons. cbn [snd]. rewrite Hst.
    destruct (existsb stale_image l) eqn:Ex.
    + rewrite decide_True by done. cbn beta iota.
      assert (with_docs (<[k0 := set "imagenes" (VArr (normalize <$> l)) d0]>
                           (docs w)) w = w1) as ->.
      { subst w1. unfold migrated_doc. by rewrite Eg. }
      destruct (IH (n + 1) w1 Hnd Hall1) as (ds & -> & Hds).
      exists ds. split; [|by apply Hglue].
      f_equal; try (by destruct w). f_equal. cbn [length]. lia.
    + rewrite decide_False by (by intros []).
      assert (w = w1) as Hw.
      { subst w1. rewrite migrated_doc_fresh by (by rewrite Hst).
        rewrite insert_id by done. by destruct w. }
      destruct (IH n w Hnd) as (ds & -> & Hds).
      { intros k d Hin. apply Hall. by apply list_elem_of_further. }
      exists ds. split; [done|]. apply Hglue. by rewrite <-Hw.
Qed.

End Migration.

Section MigrationRoute.
Implicit Types (k : string) (d : Obj) (w : World).

Lemma stale_has_images d : stale d = true → CabanaRoutes.has_images d = true.
Proof.
  unfold stale, CabanaRoutes.has_images.
  destruct (get "imagenes" d) as [| | | | | | |l|] eqn:Eg; try done.
  intros Hs. apply andb_true_intro. split.
  - apply bool_decide_eq_true_2, elem_of_keys_get. by rewrite Eg.
  - by destruct l.
Qed.

Lemma NoDup_fst_filter (P : string * Obj → Prop) `{∀ x, Decision (P x)}
    (l : list (string * Obj)) :
  NoDup l.*1 → NoDup (filter P l).*1.
Proof.
  induction l as [|[k d] l IH]; [done|].
  cbn [fmap list_fmap fst]. intros [Hk Hl]%NoDup_cons.
  rewrite filter_cons. destruct (decide (P (k, d))); [|by apply IH].
  cbn [fmap list_fmap fst]. apply NoDup_cons. split; [|by apply IH].
  intros ([k' d'] & -> & [_ Hin]%list_elem_of_filter)%list_elem_of_fmap.
  apply Hk, list_elem_of_fmap. by exists (k', d').
Qed.

(** The number of records the route looks at, and of those it rewrites. *)
Lemma migrate_image_urls_run w :
  (∀ k d, docs w !! k = Some d → typed_images d) →
  let all := map_to_list (docs w) in
  let total :=
    Z.of_nat (length (filter (λ kd, Is_true (CabanaRoutes.has_images kd.2))
                        all)) in
  let migrated :=
    Z.of_nat (length (filter (λ kd, Is_true (stale kd.2)) all)) in
  run CabanaRoutes.migrate_image_urls w
  = (json 200
       [("status", VStr "success");
        ("message", VStr "Migración completada");
        ("data", VObj
           [("totalCabanas", VNum total);
            ("migrated", VNum migrated);
            ("noMigration", VNum (total - migrated))])],
     with_docs (migrated_doc <$> docs w) w).
Proof.
  intros Htyped. cbv zeta.
  set (cabanas := filter (λ kd, Is_true (CabanaRoutes.has_images kd.2))
                    (map_to_list (docs w))).
  destruct (migrate_loop_spec cabanas 0 w) as (ds & Hrun & Hds).
  { apply NoDup_fst_filter, NoDup_fst_map_to_list. }
  { intros k d [Hhas Hin%elem_of_map_to_list]%list_elem_of_filter.
    cbn [snd] in Hhas. refine (conj Hin (conj _ (Htyped _ _ Hin))).
    apply Is_true_true in Hhas. unfold CabanaRoutes.has_images in Hhas.
    by apply andb_prop in Hhas as [? _]. }
  assert (ds = migrated_doc <$> docs w) as ->.
  { apply map_eq. intros k. rewrite Hds, lookup_fmap.
    destruct (decide (k ∈ cabanas.*1)) as [|Hout]; [done|].
    destruct (docs w !! k) as [d|] eqn:Hd; [|done]. cbn. f_equal.
    symmetry. apply migrated_doc_fresh.
    destruct (stale d) eqn:Hs; [|done]. exfalso. apply Hout.
    apply list_elem_of_fmap. exists (k, d). split; [done|].
    apply list_elem_of_filter. split.
    - cbn [snd]. apply Is_true_true. by apply stale_has_images.
    - by apply elem_of_map_to_list. }
  assert (filter (λ kd : string * Obj, Is_true (stale kd.2)) cabanas
          = filter (λ kd, Is_true (stale kd.2)) (map_to_list (docs w)))
    as Hcount.
  { subst cabanas. rewrite list_filter_filter. apply list_filter_iff.
    intros [k d]. cbn [snd]. split; [tauto|]. intros Hs. split; [done|].
    apply Is_true_true. apply stale_has_images. by apply Is_true_true. }
  unfold CabanaRoutes.migrate_image_urls, CabanaRoutes.find_with_images.
  monad. fold cabanas. rewrite Hrun. rewrite Hcount.
  by rewrite Z.add_0_l.
Qed.

End MigrationRoute.

(** ** The migration of the cabins, as a whole *)

(** [GET /migrate-image-urls] on a store whose image lists are typed as
    the schema types them answers 200; afterwards every record is the
    record it was with each image normalized (a leading [/] on what began
    neither with [/] nor with [http]), no record has an image left to
    migrate, and users and the media host's log are untouched. The answer
    counts in [migrated] the records that had an image to migrate, and
    [noMigration] is the rest of [totalCabanas]. *)
Theorem migration_normalizes w :
  (∀ k d, docs w !! k = Some d → typed_images d) →
  let out := run CabanaRoutes.migrate_image_urls w in
  code out.1 = 200
  ∧ get_path ["data"; "migrated"] (VObj (body out.1))
    = VNum (Z.of_nat (length (filter (λ kd, Is_true (stale kd.2))
                                (map_to_list (docs w)))))
  ∧ (∃ t m, get_path ["data"; "totalCabanas"] (VObj (body out.1)) = VNum t
            ∧ get_path ["data"; "migrated"] (VObj (body out.1)) = VNum m
            ∧ get_path ["data"; "noMigration"] (VObj (body out.1))
              = VNum (t - m))
  ∧ (∀ k, docs out.2 !! k = migrated_doc <$> docs w !! k)
  ∧ (∀ k d, docs out.2 !! k = Some d → stale d = false)
  ∧ users out.2 = users w
  ∧ destroyed out.2 = destroyed w.
Proof.
  intros Htyped. cbv zeta. rewrite (migrate_image_urls_run w Htyped).
  cbn [fst snd code body json docs users destroyed with_docs].
  refine (conj eq_refl (conj eq_refl (conj _ (conj _ (conj _ _))))).
  - by eexists _, _.
  - intros k. apply lookup_fmap.
  - intros k d. rewrite lookup_fmap.
    destruct (docs w !! k) as [d0|]; [|done]. intros [= <-].
    apply stale_migrated_doc.
  - done.
Qed.

(** On sample data: the three images of the sample listing get their
    leading [/], and the answer counts one migrated record. *)
Lemma migration_normalizes_witness :
  let out := run CabanaRoutes.migrate_image_urls (Sample.world Sample.abc) in
  code out.1 = 200
  ∧ get_path ["data"; "migrated"] (VObj (body out.1)) = VNum 1
  ∧ docs out.2 !! Sample.casa
    = Some (Sample.listing [VStr "/a.jpg"; VStr "/b.jpg"; VStr "/c.jpg"]).
Proof.
  cbv zeta.
  assert (∀ k d, docs (Sample.world Sample.abc) !! k = Some d →
                 typed_images d) as Htyped.
  { intros k d Hd. unfold Sample.world in Hd. cbn [docs] in Hd.
    apply lookup_singleton_Some in Hd as [_ <-].
    intros _. exists Sample.abc. split; [done|].
    repeat constructor; by eexists. }
  destruct (migration_normalizes (Sample.world Sample.abc) Htyped)
    as (Hc & Hm & _ & Hd & _).
  refine (conj Hc (conj _ _)).
  - rewrite Hm. by vm_compute.
  - rewrite Hd. by vm_compute.
Defined.

(** The migration is idempotent: run again on the store it left, it
    answers 200, counts no migrated record, and leaves the store as it
    is. *)
Theorem migration_runs_once w :
  (∀ k d, docs w !! k = Some d → typed_images d) →
  let w1 := (run CabanaRoutes.migrate_image_urls w).2 in
  let again := run CabanaRoutes.migrate_image_urls w1 in
  code again.1 = 200
  ∧ get_path ["data"; "migrated"] (VObj (body again.1)) = VNum 0
  ∧ again.2 = w1.
Proof.
  intros Htyped. cbv zeta. rewrite (migrate_image_urls_run w Htyped).
  cbn [snd].
  set (w1 := with_docs (migrated_doc <$> docs w) w).
  assert (∀ k d, docs w1 !! k = Some d → typed_images d) as Htyped1.
  { intros k d. subst w1. cbn [docs with_docs]. rewrite lookup_fmap.
    destruct (docs w !! k) as [d0|] eqn:Hd0; [|done]. intros [= <-].
    by eapply typed_migrated_doc, Htyped. }
  rewrite (migrate_image_urls_run w1 Htyped1).
  cbn [fst snd code body json get_path get String.eqb Ascii.eqb Bool.eqb].
  assert (filter (λ kd : string * Obj, Is_true (stale kd.2))
            (map_to_list (docs w1)) = []) as ->.
  { destruct (filter _ (map_to_list (docs w1))) as [|[k d] rest] eqn:E;
      [done|]. exfalso.
    assert ((k, d) ∈ filter (λ kd : string * Obj, Is_true (stale kd.2))
                       (map_to_list (docs w1))) as Hin
      by (rewrite E; apply list_elem_of_here).
    apply list_elem_of_filter in Hin as [Hs Hin%elem_of_map_to_list].
    cbn [snd] in Hs. subst w1. cbn [docs with_docs] in Hin.
    rewrite lookup_fmap in Hin.
    destruct (docs w !! k) as [d0|]; [|done]. injection Hin as <-.
    by rewrite stale_migrated_doc in Hs. }
  refine (conj eq_refl (conj eq_refl _)).
  subst w1. unfold with_docs. cbn [docs users destroyed]. f_equal.
  apply map_eq. intros k. rewrite !lookup_fmap.
  destruct (docs w !! k) as [d0|]; [|done]. cbn.
  by rewrite migrated_doc_idemp.
Qed.

(** On sample data: a second run finds nothing to migrate. *)
Lemma migration_runs_once_witness :
  let w1 := (run CabanaRoutes.migrate_image_urls
               (Sample.world Sample.abc)).2 in
  let again := run CabanaRoutes.migrate_image_urls w1 in
  code again.1 = 200
  ∧ get_path ["data"; "migrated"] (VObj (body again.1)) = VNum 0
  ∧ again.2 = w1.
Proof.
  apply (migration_runs_once (Sample.world Sample.abc)).
  intros k d Hd. unfold Sample.world in Hd. cbn [docs] in Hd.
    apply lookup_singleton_Some in Hd as [_ <-].
  intros _. exists Sample.abc. split; [done|].
  repeat constructor; by eexists.
Defined.

(** ** The name the media host is asked to drop *)

Section PublicId.
Context `{Collaborators}.
Implicit Types (sep : ascii) (s t : string).

Lemma after_last_none sep s : contains sep s = false → after_last sep s = s.
Proof. destruct s; [done|]. cbn [after_last]. by intros ->. Qed.

Lemma contains_app sep s t :
  contains sep (s ++ t) = contains sep s || contains sep t.
Proof.
  induction s as [|a s IH]; [done|].
  change (String a s ++ t) with (String a (s ++ t)).
  cbn [contains]. by rewrite IH, orb_assoc.
Qed.

(** [split(sep).pop()] gives what follows the last separator. *)
Lemma after_last_app sep s t :
  contains sep t = false → after_last sep (s ++ String sep t) = t.
Proof.
  intros Ht. induction s as [|a s IH].
  - change ("" ++ String sep t) with (String sep t).
    cbn [after_last contains]. rewrite Ascii.eqb_refl. cbn [orb].
    by apply after_last_none.
  - change (String a s ++ String sep t) with (String a (s ++ String sep t)).
    cbn [after_last contains]. rewrite contains_app. cbn [contains].
    rewrite Ascii.eqb_refl. by rewrite !orb_true_r.
Qed.

(** [split(sep)[0]] gives what precedes the first separator. *)
Lemma before_first_app sep s t :
  contains sep s = false → before_first sep (s ++ String sep t) = s.
Proof.
  induction s as [|a s IH].
  - intros _. change ("" ++ String sep t) with (String sep t).
    cbn [before_first]. by rewrite Ascii.eqb_refl.
  - change (String a s ++ String sep t) with (String a (s ++ String sep t)).
    cbn [before_first contains]. intros [-> Hs]%orb_false_elim.
    by rewrite IH.
Qed.

Lemma public_id_of dir name ext :
  contains "/" name = false → contains "." name = false →
  contains "/" ext = false →
  before_first "." (after_last "/" (dir ++ "/" ++ name ++ "." ++ ext)) = name.
Proof.
  intros Hn Hd He.
  change (dir ++ "/" ++ name ++ "." ++ ext)
    with (dir ++ String "/" (name ++ String "." ext)).
  rewrite after_last_app.
  - by apply before_first_app.
  - rewrite contains_app. cbn [contains]. rewrite Hn, He. done.
Qed.

(** When the host accepts the deletion, the block records the name it
    asked for, and changes nothing else. *)
Lemma destroy_quietly_accepted folder url w :
  (∀ p, ∃ r, destroy p = Ok r) →
  destroy_quietly folder (VStr url) w
  = (Ok tt,
     with_destroyed
       (destroyed w ++ ["turismo-app/" ++ folder ++ "/"
                        ++ before_first "." (after_last "/" url)]) w).
Proof.
  intros Hup. unfold destroy_quietly, string_of, uploader_destroy. monad.
  by destruct (Hup ("turismo-app/" ++ folder ++ "/"
                    ++ before_first "." (after_last "/" url))) as [r ->].
Qed.

Lemma truthy_url dir rest : truthy (VStr (dir ++ "/" ++ rest)) = true.
Proof. by destruct dir. Qed.

End PublicId.

(** Removing the image at a position asks the media host to drop one
    name: the folder the storage of that record type uploads to, then the
    last segment of the stored address up to its first dot. With a host
    that accepts, that name is the one entry added to the host's log, for
    the hotel, the cabin and the rental route alike; the directory part of
    the address plays no role. *)
Theorem removeAt_names_public_id `{Collaborators}
    user rid w d a now s i dir name ext :
  holds_images user rid w d a →
  parseInt (VStr s) = VNum i → 0 ≤ i →
  a !! Z.to_nat i = Some (VStr (dir ++ "/" ++ name ++ "." ++ ext)) →
  contains "/" name = false → contains "." name = false →
  contains "/" ext = false →
  (∀ p, ∃ r, destroy p = Ok r) →
  destroyed (run (HotelRoutes.delete_image user rid s now) w).2
  = (destroyed w ++ [(Cloudinary.hotelStorage_folder ++ "/" ++ name)%string])%list
  ∧ destroyed (run (CabanaRoutes.delete_image user rid s now) w).2
    = (destroyed w ++ [(Cloudinary.cabanaStorage_folder ++ "/" ++ name)%string])%list
  ∧ destroyed (run (AirbnbRoutes.delete_image user rid s now) w).2
    = (destroyed w ++ [(Cloudinary.airbnbStorage_folder ++ "/" ++ name)%string])%list.
Proof.
  intros Hh Hs Hi Hx Hn Hd He Hup.
  rewrite (hotel_delete_inside _ _ _ _ _ now Hh s i _ Hs Hi Hx).
  rewrite (cabana_delete_inside _ _ _ _ _ now Hh s i _ Hs Hi Hx).
  rewrite (airbnb_delete_inside _ _ _ _ _ now Hh s i _ Hs Hi Hx
             (truthy_url _ _)).
  rewrite !destroy_quietly_accepted by done.
  rewrite (public_id_of dir name ext Hn Hd He).
  by cbn [snd destroyed with_images with_docs with_destroyed].
Qed.

(** On sample data: an address as the media host gives it. *)
Lemma removeAt_names_public_id_witness :
  destroyed
    (run (@HotelRoutes.delete_image Sample.online
            Sample.ana Sample.casa "0" 1700000000000)
       (Sample.world
          [VStr "https://media.example/v1/turismo-app/hoteles/abc123.jpg"])).2
  = ["turismo-app/hoteles/abc123"].
Proof.
  set (a :=
    [VStr "https://media.example/v1/turismo-app/hoteles/abc123.jpg"]).
  assert (holds_images Sample.ana Sample.casa (Sample.world a)
            (Sample.listing a) a) as Hh.
  { repeat split; vm_compute; reflexivity. }
  assert (∀ p, ∃ r, @destroy Sample.online p = Ok r) as Hup.
  { intros p. by eexists. }
  exact (proj1 (@removeAt_names_public_id Sample.online _ _ _ _ _
                  1700000000000 "0" 0
                  "https://media.example/v1/turismo-app/hoteles"
                  "abc123" "jpg" Hh eq_refl (Z.le_refl 0) eq_refl
                  eq_refl eq_refl eq_refl Hup)).
Defined.
